(** * Cloudflare DNS record adapter: a shallow embedding and its properties

    The development follows the Go sources of the plugin:

    - [GoStrings], [Utf8], [GoNum], [GoErrors], [Json]: the fragments of the
      Go standard library the adapter calls ([strings], [unicode/utf8],
      [strconv], [errors], [encoding/json]).
    - [Cf]: package [pkg/cloudflare] (the SDK client wrapper of [client.go]
      and the error classifier of [errors.go]).
    - [Plugin]: the resource plugin built on [pkg/cloudflare].
    - [Standalone]: the self-contained resource plugin with its property
      codec ([parseProperties], [validateProperties], [recordToProperties]).

    Go strings are byte strings and are modelled by [string]; Go integers
    by [Z] with the wrap-around written out; nil-able pointers by [option];
    Go maps by [gmap]; [float64] values by the number they denote. The
    provider is an injected capability: each operation runs as a state
    transition over the provider's state and a log of the calls attempted.
    [FakeZone] and [FakeZoneV0] are in-memory providers for running the two
    plugins on concrete inputs. *)

From Stdlib Require Import ZArith QArith Qround String Ascii List Bool Lia DecimalString.
From Stdlib Require DecimalPos DecimalZ.
From stdpp Require Import gmap strings list.

Open Scope string_scope.

(** ** strings *)

Module GoStrings.

(** [strings.HasSuffix]: [len(s) >= len(suffix) && s[len(s)-len(suffix):] == suffix]. *)
Definition HasSuffix (s suffix : string) : bool :=
  (String.length suffix <=? String.length s)%nat
  && String.eqb (substring (String.length s - String.length suffix)
                           (String.length suffix) s) suffix.

(** [strings.TrimSuffix]: [s[:len(s)-len(suffix)]] when [s] has the suffix. *)
Definition TrimSuffix (s suffix : string) : string :=
  if HasSuffix s suffix
  then substring 0 (String.length s - String.length suffix) s
  else s.

(** ASCII case folding. *)
Definition lower (c : ascii) : ascii :=
  let n := nat_of_ascii c in
  if ((65 <=? n) && (n <=? 90))%nat then ascii_of_nat (n + 32) else c.

(** The encodings of the two runes outside ASCII whose simple case fold is
    an ASCII letter: U+212A (Kelvin sign), which folds to [k], and U+017F
    (long s), which folds to [s]. *)
Definition KelvinSign : string :=
  String (ascii_of_nat 226) (String (ascii_of_nat 132) (String (ascii_of_nat 170) EmptyString)).

Definition LongS : string :=
  String (ascii_of_nat 197) (String (ascii_of_nat 191) EmptyString).

(** The folded form of a name: [encoding/json] matches an object key with
    a field name when their folded forms are equal. ASCII letters fold by
    case, the Kelvin sign folds with [k] and the long s with [s]; the other
    bytes are kept, which decides every comparison with an ASCII name, as
    the field names of the adapter are. [skip] counts the bytes left of the
    rune that is being crossed. *)
Fixpoint fold_from (skip : nat) (s : string) : string :=
  match s with
  | EmptyString => EmptyString
  | String c s' =>
      match skip with
      | S n => fold_from n s'
      | O =>
          if String.prefix KelvinSign s then String "k" (fold_from 2 s')
          else if String.prefix LongS s then String "s" (fold_from 1 s')
          else String (lower c) (fold_from 0 s')
      end
  end.

Definition foldName (s : string) : string := fold_from 0 s.

Definition EqualFold (s t : string) : bool := String.eqb (foldName s) (foldName t).

(** [strings.Contains]: [substr] occurs in [s] at some offset. *)
Fixpoint Contains (s substr : string) : bool :=
  String.prefix substr s
  || match s with
     | EmptyString => false
     | String _ s' => Contains s' substr
     end.

End GoStrings.

(** ** unicode/utf8 *)

Module Utf8.

Definition in_range (lo hi : nat) (c : ascii) : bool :=
  ((lo <=? nat_of_ascii c) && (nat_of_ascii c <=? hi))%nat.

(** The tables [first] and [acceptRanges]: for a leading byte of a
    multi-byte encoding, the width of the encoding and the range its second
    byte must lie in; [None] for a byte that cannot lead one. *)
Definition lead (c : ascii) : option (nat * (nat * nat)) :=
  if in_range 194 223 c then Some (2, (128, 191))
  else if in_range 224 224 c then Some (3, (160, 191))
  else if in_range 225 236 c then Some (3, (128, 191))
  else if in_range 237 237 c then Some (3, (128, 159))
  else if in_range 238 239 c then Some (3, (128, 191))
  else if in_range 240 240 c then Some (4, (144, 191))
  else if in_range 241 243 c then Some (4, (128, 191))
  else if in_range 244 244 c then Some (4, (128, 143))
  else None.

(** [utf8.DecodeRuneInString], by the width it reports: [Some n] for a
    well-formed encoding of [n] bytes at the head of [s], [None] for the
    answer [(RuneError, 1)] to a byte that starts none. *)
Definition rune_width (s : string) : option nat :=
  match s with
  | EmptyString => None
  | String s0 rest =>
      if in_range 0 127 s0 then Some 1
      else
        match lead s0, rest with
        | Some (sz, (lo, hi)), String s1 rest1 =>
            if in_range lo hi s1 then
              if (sz <=? 2)%nat then Some 2
              else
                match rest1 with
                | String s2 rest2 =>
                    if in_range 128 191 s2 then
                      if (sz <=? 3)%nat then Some 3
                      else
                        match rest2 with
                        | String s3 _ => if in_range 128 191 s3 then Some 4 else None
                        | EmptyString => None
                        end
                    else None
                | EmptyString => None
                end
            else None
        | _, _ => None
        end
  end.

(** The encoding of U+FFFD, the replacement character. *)
Definition RuneError : string :=
  String (ascii_of_nat 239) (String (ascii_of_nat 191) (String (ascii_of_nat 189) EmptyString)).

(** [utf8.ValidString]; [skip] counts the bytes left of the encoding that
    is being crossed. *)
Fixpoint valid_from (skip : nat) (s : string) : bool :=
  match s with
  | EmptyString => true
  | String c s' =>
      match skip with
      | S k => valid_from k s'
      | O =>
          match rune_width s with
          | Some n => valid_from (n - 1) s'
          | None => false
          end
      end
  end.

Definition ValidString (s : string) : bool := valid_from 0 s.

(** What a string reads as once [encoding/json] has written it: the
    encoder replaces every byte that starts no well-formed encoding by
    U+FFFD and copies the rest. *)
Fixpoint coerce_from (skip : nat) (s : string) : string :=
  match s with
  | EmptyString => EmptyString
  | String c s' =>
      match skip with
      | S k => String c (coerce_from k s')
      | O =>
          match rune_width s with
          | Some n => String c (coerce_from (n - 1) s')
          | None => RuneError ++ coerce_from 0 s'
          end
      end
  end.

Definition coerce (s : string) : string := coerce_from 0 s.

End Utf8.

(** ** Numbers: fixed-width integers, [float64], [strconv] *)

Module GoNum.

(** Two's-complement wrap-around of a [bits]-wide signed integer. *)
Definition wrap_signed (bits z : Z) : Z :=
  ((z + 2 ^ (bits - 1)) mod 2 ^ bits - 2 ^ (bits - 1))%Z.

(** The conversions [int64(i)] and [uint16(i)] of an integer. *)
Definition int64 (z : Z) : Z := wrap_signed 64 z.

Definition uint16 (z : Z) : Z := (z mod 2 ^ 16)%Z.

(** Whether a decimal literal fits a Go [int] (64 bits). *)

Definition in_int64 (z : Z) : bool := ((- 2 ^ 63 <=? z) && (z <? 2 ^ 63))%Z.

(** A [float64] is modelled by the number it denotes: a rational, an
    infinity or NaN. *)
Inductive float64 : Type :=
| Finite (q : Q)
| Inf (negative : bool)
| NaN.

(** Rounding of an integer to 53 significant bits, ties to even. *)
Definition round53 (z : Z) : Z :=
  let a := Z.abs z in
  let e := (Z.log2 a - 52)%Z in
  if (e <=? 0)%Z then z
  else
    let q := Z.shiftr a e in
    let r := (a - Z.shiftl q e)%Z in
    let half := Z.shiftl 1 (e - 1) in
    let q' := if (half <? r)%Z || ((half =? r)%Z && Z.odd q) then (q + 1)%Z else q in
    (Z.sgn z * Z.shiftl q' e)%Z.

(** The conversion [float64(i)] of an integer. *)
Definition float64_of_int (z : Z) : float64 := Finite (inject_Z (round53 z)).

(** The conversion [int64(x)]: truncation towards zero; a value that is
    out of range or not a number yields the minimal [int64], as on amd64. *)
Definition int64_of_float64 (x : float64) : Z :=
  match x with
  | Finite q =>
      let t := if Qle_bool 0 q then Qfloor q else Qceiling q in
      if in_int64 t then t else (- 2 ^ 63)%Z
  | _ => (- 2 ^ 63)%Z
  end.

(** The comparisons [x != 0] and [x >= 1]. *)
Definition float64_nonzero (x : float64) : bool :=
  match x with
  | Finite q => negb (Qeq_bool q 0)
  | _ => true
  end.

Definition float64_ge_1 (x : float64) : bool :=
  match x with
  | Finite q => Qle_bool 1 q
  | Inf negative => negb negative
  | NaN => false
  end.

(** [strconv.FormatInt(i, 10)] and [fmt.Sprintf("%d", i)]. *)
Definition FormatInt (z : Z) : string := NilZero.string_of_int (Z.to_int z).

(** [strconv.ParseFloat] on the decimal integer literals (an optional minus
    sign and at least one digit): the nearest [float64], and an error past
    the largest one. Other inputs are not covered and count as errors. *)
Definition ParseDecimal (s : string) : option float64 :=
  match NilZero.int_of_string s with
  | Some d =>
      let z := round53 (Z.of_int d) in
      if (Z.abs z <? 2 ^ 1024)%Z then Some (Finite (inject_Z z)) else None
  | None => None
  end.

(** [fmt.Sscanf(s, "%d", &n)] on the same literals. *)
Definition ScanDecimal (s : string) : option Z :=
  match NilZero.int_of_string s with
  | Some d => if in_int64 (Z.of_int d) then Some (Z.of_int d) else None
  | None => None
  end.

End GoNum.

(** ** errors *)

Module GoErrors.

(** The error values the adapter meets: the SDK's [*cf.Error] with its
    HTTP status code, plain errors ([errors.New], transport and decoding
    failures), and errors wrapped with [fmt.Errorf("...%w", err)]. *)
Inductive error : Type :=
| CfError (StatusCode : Z) (msg : string)
| ErrorString (msg : string)
| WrapError (pre : string) (err : error).

(** [err.Error()]. *)
Fixpoint Error (e : error) : string :=
  match e with
  | CfError _ msg => msg
  | ErrorString msg => msg
  | WrapError pre e' => pre ++ Error e'
  end.

(** [errors.As(err, &apiErr)] for [apiErr : *cf.Error]: the first
    [*cf.Error] on the unwrap chain, here by its status code. *)
Fixpoint As_cfError (e : error) : option Z :=
  match e with
  | CfError code _ => Some code
  | ErrorString _ => None
  | WrapError _ e' => As_cfError e'
  end.

(** A Go result pair [(value, err)]. *)
Inductive result (A : Type) : Type :=
| Ok (a : A)
| Err (e : error).
Arguments Ok {A} a.
Arguments Err {A} e.

Definition is_Err {A} (r : result A) : bool :=
  match r with Ok _ => false | Err _ => true end.

Definition rmap {A B} (f : A -> B) (r : result A) : result B :=
  match r with Ok a => Ok (f a) | Err e => Err e end.

End GoErrors.

(** ** encoding/json *)

Module Json.
Import GoStrings GoNum GoErrors.

#[local] Set Warnings "-register-all".

(** A JSON document. Number literals are split into the integer literals
    ([JInt], with their value) and those with a fraction or an exponent
    ([JReal], with their text), which is what decoding into a Go integer
    distinguishes. Object members keep their order and duplicates. *)
#[local] Set Warnings "-register-all".
Inductive json : Type :=
| JNull
| JBool (b : bool)
| JInt (z : Z)
| JReal (lit : string)
| JString (s : string)
| JArray (items : list json)
| JObject (members : list (string * json)).

(** A [json.RawMessage]: [None] for bytes that are not a JSON text. *)
Definition RawMessage : Type := option json.

Definition SyntaxError : error := ErrorString "invalid character in JSON input".
Definition UnmarshalTypeError (field : string) : error :=
  ErrorString ("json: cannot unmarshal value into Go struct field " ++ field).

(** Decoding of one JSON value into a Go variable of each kind used by the
    adapter. [null] leaves a non-pointer variable as it is and sets a
    pointer to nil. *)
Definition dec_string (field : string) (v : json) (old : string) : result string :=
  match v with
  | JString s => Ok s
  | JNull => Ok old
  | _ => Err (UnmarshalTypeError field)
  end.

Definition dec_int (field : string) (v : json) (old : Z) : result Z :=
  match v with
  | JInt z => if in_int64 z then Ok z else Err (UnmarshalTypeError field)
  | JNull => Ok old
  | _ => Err (UnmarshalTypeError field)
  end.

Definition dec_bool (field : string) (v : json) (old : bool) : result bool :=
  match v with
  | JBool b => Ok b
  | JNull => Ok old
  | _ => Err (UnmarshalTypeError field)
  end.

Definition dec_ptr_int (field : string) (v : json) (old : option Z) : result (option Z) :=
  match v with
  | JInt z => if in_int64 z then Ok (Some z) else Err (UnmarshalTypeError field)
  | JNull => Ok None
  | _ => Err (UnmarshalTypeError field)
  end.

Definition dec_ptr_string (field : string) (v : json) (old : option string)
  : result (option string) :=
  match v with
  | JString s => Ok (Some s)
  | JNull => Ok None
  | _ => Err (UnmarshalTypeError field)
  end.

Section Unmarshal.
Context {T : Type}.

(** [store key v t]: decode [v] into the field of [t] whose JSON name
    matches [key]; [None] when the struct has no such field (the member
    is skipped). *)
Variable store : string -> json -> T -> option (result T).

(** The members of an object are decoded in order, so a later duplicate
    overrides an earlier one. The decoder reports the first type
    mismatch; every caller drops the struct when an error is reported. *)
Fixpoint decode_members (kvs : list (string * json)) (t : T) : result T :=
  match kvs with
  | [] => Ok t
  | (k, v) :: rest =>
      match store k v t with
      | None => decode_members rest t
      | Some (Ok t') => decode_members rest t'
      | Some (Err e) => Err e
      end
  end.

(** [json.Unmarshal(raw, &t)] for a struct [t]. *)
Definition Unmarshal (raw : RawMessage) (t : T) : result T :=
  match raw with
  | None => Err SyntaxError
  | Some JNull => Ok t
  | Some (JObject kvs) => decode_members kvs t
  | Some _ => Err (UnmarshalTypeError "")
  end.
End Unmarshal.

(** The value an encoded object carries under [key] (first member). *)
Fixpoint members_get (key : string) (kvs : list (string * json)) : option json :=
  match kvs with
  | [] => None
  | (k, v) :: rest => if String.eqb k key then Some v else members_get key rest
  end.

Definition json_get (key : string) (doc : json) : option json :=
  match doc with
  | JObject kvs => members_get key kvs
  | _ => None
  end.

(** The encoding of a Go string. *)
Definition enc_string (s : string) : json := JString (Utf8.coerce s).

End Json.

(** ** The host's result types (package [resource] of the plugin SDK) *)

Module resource.
Import Json.

Inductive Operation : Type :=
| OperationCreate | OperationUpdate | OperationDelete | OperationCheckStatus.

Inductive OperationStatus : Type :=
| OperationStatusSuccess | OperationStatusFailure.

(** [NoErrorCode] is the empty code [""]. *)
Inductive OperationErrorCode : Type :=
| NoErrorCode
| OperationErrorCodeInvalidRequest
| OperationErrorCodeInvalidCredentials
| OperationErrorCodeAccessDenied
| OperationErrorCodeNotFound
| OperationErrorCodeThrottling
| OperationErrorCodeServiceInternalError
| OperationErrorCodeInternalFailure.

(** Fields that a literal leaves out hold their zero value: [NoErrorCode],
    the empty string, no properties. *)
Record ProgressResult : Type := {
  Operation_ : Operation;
  OperationStatus_ : OperationStatus;
  ErrorCode : OperationErrorCode;
  StatusMessage : string;
  NativeID : string;
  ResourceProperties : option json
}.

Record CreateRequest : Type := {
  create_Properties : RawMessage;
  create_TargetConfig : RawMessage
}.

Record ReadRequest : Type := {
  read_NativeID : string;
  read_ResourceType : string;
  read_TargetConfig : RawMessage
}.

Record ReadResult : Type := {
  ResourceType : string;
  read_ErrorCode : OperationErrorCode;
  Properties : option json
}.

Record UpdateRequest : Type := {
  update_NativeID : string;
  update_DesiredProperties : RawMessage;
  update_TargetConfig : RawMessage
}.

Record DeleteRequest : Type := {
  delete_NativeID : string;
  delete_TargetConfig : RawMessage
}.

Record ListRequest : Type := {
  list_TargetConfig : RawMessage;
  PageToken : option string;
  PageSize : Z
}.

Record ListResult : Type := {
  NativeIDs : list string;
  NextPageToken : option string
}.

End resource.

(** ** The provider SDK's request and response types (package [dns]) *)

Module dns.
Import GoNum.

(** The request bodies, one shape per record type. The constant [Type]
    field of each Go struct is the constructor. *)
Inductive RecordBody : Type :=
| ARecordParam (Name Content : string) (TTL : float64) (Proxied : bool) (Comment : string)
| AAAARecordParam (Name Content : string) (TTL : float64) (Proxied : bool) (Comment : string)
| CNAMERecordParam (Name Content : string) (TTL : float64) (Proxied : bool) (Comment : string)
| TXTRecordParam (Name Content : string) (TTL : float64) (Comment : string)
| MXRecordParam (Name Content : string) (TTL : float64) (Priority : float64) (Comment : string)
| NSRecordParam (Name Content : string) (TTL : float64) (Comment : string).

Definition body_Type (b : RecordBody) : string :=
  match b with
  | ARecordParam _ _ _ _ _ => "A"
  | AAAARecordParam _ _ _ _ _ => "AAAA"
  | CNAMERecordParam _ _ _ _ _ => "CNAME"
  | TXTRecordParam _ _ _ _ => "TXT"
  | MXRecordParam _ _ _ _ _ => "MX"
  | NSRecordParam _ _ _ _ => "NS"
  end.

(** The [TTL] field of a request body. *)
Definition body_TTL (b : RecordBody) : float64 :=
  match b with
  | ARecordParam _ _ ttl _ _ => ttl
  | AAAARecordParam _ _ ttl _ _ => ttl
  | CNAMERecordParam _ _ ttl _ _ => ttl
  | TXTRecordParam _ _ ttl _ => ttl
  | MXRecordParam _ _ ttl _ _ => ttl
  | NSRecordParam _ _ ttl _ => ttl
  end.

Record RecordNewParams : Type := { new_ZoneID : string; new_Body : RecordBody }.
Record RecordUpdateParams : Type := { update_ZoneID : string; update_Body : RecordBody }.

Record RecordListParams : Type := {
  list_ZoneID : string;
  PerPage : option float64;
  Page : option float64
}.

Record RecordResponse : Type := {
  ID : string;
  Name : string;
  Type_ : string;
  Content : string;
  Proxied : bool;
  Comment : string;
  TTL : float64;
  Priority : float64
}.

(** The list response: the records of the page and, of [ResultInfo], the
    page number. *)
Record RecordListResponse : Type := {
  Result : list RecordResponse;
  ResultInfo_Page : Z
}.

End dns.

(** ** Running an operation against the outside world *)

Module Run.
Import GoErrors.

(** What an operation runs in: the process environment, the provider's
    state [S] and the log of the provider calls attempted so far, oldest
    first. *)
Record World (C S : Type) : Type := {
  env : gmap string string;
  backend : S;
  calls : list C
}.
Arguments env {C S}.
Arguments backend {C S}.
Arguments calls {C S}.

(** State passing over [World]. *)
Definition M (C S A : Type) : Type := World C S -> A * World C S.

Definition ret {C S A} (a : A) : M C S A := fun w => (a, w).

Definition bind {C S A B} (m : M C S A) (k : A -> M C S B) : M C S B :=
  fun w => let (a, w') := m w in k a w'.

(** [os.Getenv]: the empty string for an unset variable. *)
Definition Getenv {C S} (key : string) : M C S string :=
  fun w => (default "" (env w !! key), w).

(** One provider call: log it, then step the backend. *)
Definition call {C S A} (c : C) (step : S -> result A * S) : M C S (result A) :=
  fun w =>
    let (r, s') := step (backend w) in
    (r, {| env := env w; backend := s'; calls := calls w ++ [c] |}).

End Run.

Notation "x <- m ;; k" := (Run.bind m (fun x => k))
  (at level 100, m at next level, right associativity).

(** ** Package [pkg/cloudflare]: the client wrapper and the error classifier *)

Module Cf.
Import GoStrings GoNum GoErrors resource Run.

(** [Client] wraps the SDK client, which is configured with the API token. *)
Record Client : Type := { api_token : string }.

(** [DNSRecord]: a DNS record with the fields the adapter cares about. *)
Record DNSRecord : Type := {
  ID : string;
  ZoneID : string;
  Name : string;
  RecordType : string;
  Content : string;
  TTL : Z;
  Proxied : bool;
  Comment : string;
  Priority : option Z
}.

(** *** The provider, as an injected capability

    The provider's HTTP API is opaque: each endpoint is a transition on a
    backend state [S] that answers with a response or an error. *)
Record Api (S : Type) : Type := {
  Records_New : Client -> dns.RecordNewParams -> S -> result dns.RecordResponse * S;
  Records_Get : Client -> string -> string -> S -> result dns.RecordResponse * S;
  Records_Update :
    Client -> string -> dns.RecordUpdateParams -> S -> result dns.RecordResponse * S;
  Records_Delete : Client -> string -> string -> S -> result unit * S;
  Records_List : Client -> dns.RecordListParams -> S -> result dns.RecordListResponse * S;
  Zones_Get : Client -> string -> S -> result string * S
}.
Arguments Records_New {S}.
Arguments Records_Get {S}.
Arguments Records_Update {S}.
Arguments Records_Delete {S}.
Arguments Records_List {S}.
Arguments Zones_Get {S}.

(** The provider calls an operation can attempt. *)
Inductive ApiCall : Type :=
| CallRecordsNew (params : dns.RecordNewParams)
| CallRecordsGet (recordID zoneID : string)
| CallRecordsUpdate (recordID : string) (params : dns.RecordUpdateParams)
| CallRecordsDelete (recordID zoneID : string)
| CallRecordsList (params : dns.RecordListParams)
| CallZonesGet (zoneID : string).

Section Client.
Context {S : Type}.
Variable api : Api S.

#[local] Abbreviation M := (Run.M ApiCall S).

(** [strconv.ParseFloat(s, 64)]: [Some x] when it returns [x] with a nil
    error. *)
Variable ParseFloat : string -> option float64.

(** [NewClient] *)
Definition NewClient : M (result Client) :=
  token <- Getenv "CLOUDFLARE_API_TOKEN" ;;
  if String.eqb token ""
  then ret (Err (ErrorString "CLOUDFLARE_API_TOKEN environment variable not set"))
  else ret (Ok {| api_token := token |}).

(** [recordFromResponse] *)
Definition recordFromResponse (resp : dns.RecordResponse) (zoneID : string) : DNSRecord :=
  {| ID := dns.ID resp;
     ZoneID := zoneID;
     Name := dns.Name resp;
     RecordType := dns.Type_ resp;
     Content := dns.Content resp;
     Proxied := dns.Proxied resp;
     Comment := dns.Comment resp;
     TTL := int64_of_float64 (dns.TTL resp);
     Priority :=
       if float64_nonzero (dns.Priority resp)
       then Some (int64_of_float64 (dns.Priority resp))
       else None |}.

(** [recordFromListItem] *)
Definition recordFromListItem (r : dns.RecordResponse) (zoneID : string) : DNSRecord :=
  {| ID := dns.ID r;
     ZoneID := zoneID;
     Name := dns.Name r;
     RecordType := dns.Type_ r;
     Content := dns.Content r;
     Proxied := dns.Proxied r;
     Comment := dns.Comment r;
     TTL := int64_of_float64 (dns.TTL r);
     Priority :=
       if float64_nonzero (dns.Priority r)
       then Some (int64_of_float64 (dns.Priority r))
       else None |}.

(** The switch over [record.RecordType] that [CreateRecord] (client.go,
    lines 58-117) and [UpdateRecord] (lines 146-205) both run to fill
    [params.Body]; its [default] branch returns the error. *)
Definition recordBody (record : DNSRecord) : result dns.RecordBody :=
  let ttl := float64_of_int (TTL record) in
  if String.eqb (RecordType record) "A" then
    Ok (dns.ARecordParam (Name record) (Content record) ttl (Proxied record) (Comment record))
  else if String.eqb (RecordType record) "AAAA" then
    Ok (dns.AAAARecordParam (Name record) (Content record) ttl (Proxied record) (Comment record))
  else if String.eqb (RecordType record) "CNAME" then
    Ok (dns.CNAMERecordParam (Name record) (Content record) ttl (Proxied record) (Comment record))
  else if String.eqb (RecordType record) "TXT" then
    Ok (dns.TXTRecordParam (Name record) (Content record) ttl (Comment record))
  else if String.eqb (RecordType record) "MX" then
    let priority :=
      match Priority record with
      | Some p => float64_of_int p
      | None => float64_of_int 10
      end in
    Ok (dns.MXRecordParam (Name record) (Content record) ttl priority (Comment record))
  else if String.eqb (RecordType record) "NS" then
    Ok (dns.NSRecordParam (Name record) (Content record) ttl (Comment record))
  else Err (ErrorString ("unsupported record type: " ++ RecordType record)).

(** [Client.CreateRecord] *)
Definition CreateRecord (c : Client) (record : DNSRecord) : M (result DNSRecord) :=
  match recordBody record with
  | Err e => ret (Err e)
  | Ok body =>
      let params := {| dns.new_ZoneID := ZoneID record; dns.new_Body := body |} in
      resp <- call (CallRecordsNew params) (Records_New api c params) ;;
      match resp with
      | Err err => ret (Err err)
      | Ok resp => ret (Ok (recordFromResponse resp (ZoneID record)))
      end
  end.

(** [Client.GetRecord] *)
Definition GetRecord (c : Client) (zoneID recordID : string) : M (result DNSRecord) :=
  resp <- call (CallRecordsGet recordID zoneID) (Records_Get api c recordID zoneID) ;;
  match resp with
  | Err err => ret (Err err)
  | Ok resp => ret (Ok (recordFromResponse resp zoneID))
  end.

(** [Client.UpdateRecord] *)
Definition UpdateRecord (c : Client) (record : DNSRecord) : M (result DNSRecord) :=
  match recordBody record with
  | Err e => ret (Err e)
  | Ok body =>
      let params := {| dns.update_ZoneID := ZoneID record; dns.update_Body := body |} in
      resp <- call (CallRecordsUpdate (ID record) params)
                   (Records_Update api c (ID record) params) ;;
      match resp with
      | Err err => ret (Err err)
      | Ok resp => ret (Ok (recordFromResponse resp (ZoneID record)))
      end
  end.

(** [Client.DeleteRecord]: [None] is the nil error. *)
Definition DeleteRecord (c : Client) (zoneID recordID : string) : M (option error) :=
  r <- call (CallRecordsDelete recordID zoneID) (Records_Delete api c recordID zoneID) ;;
  match r with
  | Err err => ret (Some err)
  | Ok _ => ret None
  end.

(** [Client.ListRecords] *)
Definition ListRecords (c : Client) (zoneID : string) (pageToken : option string)
           (pageSize : Z) : M (result (list DNSRecord * option string)) :=
  let pageSize := if (0 <? pageSize)%Z then pageSize else 100%Z in
  let perPage := Some (float64_of_int pageSize) in
  let page :=
    match pageToken with
    | Some tok =>
        if negb (String.eqb tok "") then
          match ParseFloat tok with
          | Some page => if float64_ge_1 page then Some page else None
          | None => None
          end
        else None
    | None => None
    end in
  let params := {| dns.list_ZoneID := zoneID; dns.PerPage := perPage; dns.Page := page |} in
  resp <- call (CallRecordsList params) (Records_List api c params) ;;
  match resp with
  | Err err => ret (Err err)
  | Ok resp =>
      let records := map (fun r => recordFromListItem r zoneID) (dns.Result resp) in
      let nextToken :=
        if (Z.of_nat (length (dns.Result resp)) =? pageSize)%Z
        then Some (FormatInt (int64 (dns.ResultInfo_Page resp + 1)))
        else None in
      ret (Ok (records, nextToken))
  end.

(** [Client.GetZoneDomain] *)
Definition GetZoneDomain (c : Client) (zoneID : string) : M (result string) :=
  call (CallZonesGet zoneID) (Zones_Get api c zoneID).

End Client.

(** [NormalizeName] strips the zone domain suffix from an FQDN to get the
    short name; the apex becomes ["@"]. *)
Definition NormalizeName (fqdn zoneDomain : string) : string :=
  if String.eqb fqdn zoneDomain then "@"
  else
    let suffix := "." ++ zoneDomain in
    if HasSuffix fqdn suffix then TrimSuffix fqdn suffix
    else fqdn.

(** [MapErrorCode] (errors.go); [None] is the nil error. *)
Definition MapErrorCode (err : option error) : OperationErrorCode :=
  match err with
  | None => NoErrorCode
  | Some err =>
      match As_cfError err with
      | Some StatusCode =>
          if (StatusCode =? 400)%Z then OperationErrorCodeInvalidRequest
          else if (StatusCode =? 401)%Z then OperationErrorCodeInvalidCredentials
          else if (StatusCode =? 403)%Z then OperationErrorCodeAccessDenied
          else if (StatusCode =? 404)%Z then OperationErrorCodeNotFound
          else if (StatusCode =? 429)%Z then OperationErrorCodeThrottling
          else if (StatusCode =? 500)%Z || (StatusCode =? 502)%Z
                  || (StatusCode =? 503)%Z || (StatusCode =? 504)%Z
          then OperationErrorCodeServiceInternalError
          else OperationErrorCodeInternalFailure
      | None => OperationErrorCodeInternalFailure
      end
  end.

(** [IsNotFound] *)
Definition IsNotFound (err : option error) : bool :=
  match err with
  | None => false
  | Some err =>
      match As_cfError err with
      | Some code => (code =? 404)%Z
      | None => false
      end
  end.

(** [IsRateLimited] *)
Definition IsRateLimited (err : option error) : bool :=
  match err with
  | None => false
  | Some err =>
      match As_cfError err with
      | Some code => (code =? 429)%Z
      | None => false
      end
  end.

End Cf.

(** ** The resource plugin built on [pkg/cloudflare] *)

Module Plugin.
Import GoStrings GoNum GoErrors Json resource Run.

(** [targetConfig]: the target configuration for Cloudflare DNS. *)
Record targetConfig : Type := { ZoneID : string }.

Definition store_targetConfig (key : string) (v : json) (cfg : targetConfig)
  : option (result targetConfig) :=
  if EqualFold key "zone_id"
  then Some (rmap (fun s => {| ZoneID := s |}) (dec_string "zone_id" v (ZoneID cfg)))
  else None.

(** [parseTargetConfig] *)
Definition parseTargetConfig (raw : RawMessage) : result targetConfig :=
  Unmarshal store_targetConfig raw {| ZoneID := "" |}.

(** [dnsRecordProperties]: the JSON structure of a DNS record's properties. *)
Record dnsRecordProperties : Type := {
  p_ID : string;
  p_ZoneID : string;
  p_Name : string;
  p_RecordType : string;
  p_Content : string;
  p_TTL : Z;
  p_Proxied : bool;
  p_Comment : string;
  p_Priority : option Z
}.

(** The zero value of [var props dnsRecordProperties]. *)
Definition zero_dnsRecordProperties : dnsRecordProperties :=
  {| p_ID := ""; p_ZoneID := ""; p_Name := ""; p_RecordType := ""; p_Content := "";
     p_TTL := 0; p_Proxied := false; p_Comment := ""; p_Priority := None |}.

(** Decoding by the struct's [json] tags. *)
Definition store_dnsRecordProperties (key : string) (v : json) (p : dnsRecordProperties)
  : option (result dnsRecordProperties) :=
  let '{| p_ID := id; p_ZoneID := zone; p_Name := name; p_RecordType := type;
          p_Content := content; p_TTL := ttl; p_Proxied := proxied;
          p_Comment := comment; p_Priority := priority |} := p in
  if EqualFold key "id" then
    Some (rmap (fun x => {| p_ID := x; p_ZoneID := zone; p_Name := name; p_RecordType := type;
                            p_Content := content; p_TTL := ttl; p_Proxied := proxied;
                            p_Comment := comment; p_Priority := priority |})
               (dec_string "id" v id))
  else if EqualFold key "zone_id" then
    Some (rmap (fun x => {| p_ID := id; p_ZoneID := x; p_Name := name; p_RecordType := type;
                            p_Content := content; p_TTL := ttl; p_Proxied := proxied;
                            p_Comment := comment; p_Priority := priority |})
               (dec_string "zone_id" v zone))
  else if EqualFold key "name" then
    Some (rmap (fun x => {| p_ID := id; p_ZoneID := zone; p_Name := x; p_RecordType := type;
                            p_Content := content; p_TTL := ttl; p_Proxied := proxied;
                            p_Comment := comment; p_Priority := priority |})
               (dec_string "name" v name))
  else if EqualFold key "record_type" then
    Some (rmap (fun x => {| p_ID := id; p_ZoneID := zone; p_Name := name; p_RecordType := x;
                            p_Content := content; p_TTL := ttl; p_Proxied := proxied;
                            p_Comment := comment; p_Priority := priority |})
               (dec_string "record_type" v type))
  else if EqualFold key "content" then
    Some (rmap (fun x => {| p_ID := id; p_ZoneID := zone; p_Name := name; p_RecordType := type;
                            p_Content := x; p_TTL := ttl; p_Proxied := proxied;
                            p_Comment := comment; p_Priority := priority |})
               (dec_string "content" v content))
  else if EqualFold key "ttl" then
    Some (rmap (fun x => {| p_ID := id; p_ZoneID := zone; p_Name := name; p_RecordType := type;
                            p_Content := content; p_TTL := x; p_Proxied := proxied;
                            p_Comment := comment; p_Priority := priority |})
               (dec_int "ttl" v ttl))
  else if EqualFold key "proxied" then
    Some (rmap (fun x => {| p_ID := id; p_ZoneID := zone; p_Name := name; p_RecordType := type;
                            p_Content := content; p_TTL := ttl; p_Proxied := x;
                            p_Comment := comment; p_Priority := priority |})
               (dec_bool "proxied" v proxied))
  else if EqualFold key "comment" then
    Some (rmap (fun x => {| p_ID := id; p_ZoneID := zone; p_Name := name; p_RecordType := type;
                            p_Content := content; p_TTL := ttl; p_Proxied := proxied;
                            p_Comment := x; p_Priority := priority |})
               (dec_string "comment" v comment))
  else if EqualFold key "priority" then
    Some (rmap (fun x => {| p_ID := id; p_ZoneID := zone; p_Name := name; p_RecordType := type;
                            p_Content := content; p_TTL := ttl; p_Proxied := proxied;
                            p_Comment := comment; p_Priority := x |})
               (dec_ptr_int "priority" v priority))
  else None.

(** [json.Marshal] of a [dnsRecordProperties]: the fields in declaration
    order; the [omitempty] fields [id], [comment] and [priority] are left out
    when empty or nil. Encoding this struct cannot fail. The strings are
    written as they are: every string the plugin puts into this struct was
    decoded from JSON (the request's properties or the provider's answer)
    and is valid UTF-8, which the encoder copies unchanged. *)
Definition Marshal_dnsRecordProperties (p : dnsRecordProperties) : result json :=
  Ok (JObject
        ((if String.eqb (p_ID p) "" then [] else [("id", JString (p_ID p))])
         ++ [("zone_id", JString (p_ZoneID p));
             ("name", JString (p_Name p));
             ("record_type", JString (p_RecordType p));
             ("content", JString (p_Content p));
             ("ttl", JInt (p_TTL p));
             ("proxied", JBool (p_Proxied p))]
         ++ (if String.eqb (p_Comment p) "" then [] else [("comment", JString (p_Comment p))])
         ++ match p_Priority p with
            | Some n => [("priority", JInt n)]
            | None => []
            end)).

(** A failure [ProgressResult] and a success one; the fields a literal of
    the source leaves out are at their zero value. *)
Definition failure (op : Operation) (code : OperationErrorCode) (msg : string)
  : ProgressResult :=
  {| Operation_ := op; OperationStatus_ := OperationStatusFailure; ErrorCode := code;
     StatusMessage := msg; NativeID := ""; ResourceProperties := None |}.

Definition success (op : Operation) (nativeID : string) (props : option json)
  : ProgressResult :=
  {| Operation_ := op; OperationStatus_ := OperationStatusSuccess; ErrorCode := NoErrorCode;
     StatusMessage := ""; NativeID := nativeID; ResourceProperties := props |}.

Section Operations.
Context {S : Type}.
Variable api : Cf.Api S.
Variable ParseFloat : string -> option float64.

#[local] Abbreviation M := (Run.M Cf.ApiCall S).

(** [Plugin.Create] provisions a new DNS record. The second component is
    the Go error, which is nil on every path. *)
Definition Create (req : CreateRequest) : M (ProgressResult * option error) :=
  match Unmarshal store_dnsRecordProperties (create_Properties req) zero_dnsRecordProperties with
  | Err err =>
      ret (failure OperationCreate OperationErrorCodeInvalidRequest
                   ("Failed to parse properties: " ++ Error err), None)
  | Ok props =>
      client <- Cf.NewClient ;;
      match client with
      | Err err =>
          ret (failure OperationCreate OperationErrorCodeInvalidCredentials (Error err), None)
      | Ok client =>
          let record :=
            {| Cf.ID := ""; Cf.ZoneID := p_ZoneID props; Cf.Name := p_Name props;
               Cf.RecordType := p_RecordType props; Cf.Content := p_Content props;
               Cf.TTL := p_TTL props; Cf.Proxied := p_Proxied props;
               Cf.Comment := p_Comment props; Cf.Priority := p_Priority props |} in
          created <- Cf.CreateRecord api client record ;;
          match created with
          | Err err =>
              ret (failure OperationCreate (Cf.MapErrorCode (Some err)) (Error err), None)
          | Ok created =>
              let createdProps :=
                {| p_ID := Cf.ID created; p_ZoneID := Cf.ZoneID created;
                   p_Name := p_Name props;
                   p_RecordType := Cf.RecordType created; p_Content := Cf.Content created;
                   p_TTL := Cf.TTL created; p_Proxied := Cf.Proxied created;
                   p_Comment := Cf.Comment created; p_Priority := Cf.Priority created |} in
              match Marshal_dnsRecordProperties createdProps with
              | Err err =>
                  ret (failure OperationCreate OperationErrorCodeInternalFailure
                               ("Failed to marshal properties: " ++ Error err), None)
              | Ok propsJSON =>
                  ret (success OperationCreate (Cf.ID created) (Some propsJSON), None)
              end
          end
      end
  end.

(** A [ReadResult] that carries only an error code. *)
Definition read_failure (req : ReadRequest) (code : OperationErrorCode) : ReadResult :=
  {| ResourceType := read_ResourceType req; read_ErrorCode := code; Properties := None |}.

(** [Plugin.Read] retrieves the current state of a DNS record. *)
Definition Read (req : ReadRequest) : M (ReadResult * option error) :=
  match parseTargetConfig (read_TargetConfig req) with
  | Err _ => ret (read_failure req OperationErrorCodeInvalidRequest, None)
  | Ok cfg =>
      if String.eqb (ZoneID cfg) "" then
        ret (read_failure req OperationErrorCodeInvalidRequest, None)
      else
        client <- Cf.NewClient ;;
        match client with
        | Err _ => ret (read_failure req OperationErrorCodeInvalidCredentials, None)
        | Ok client =>
            record <- Cf.GetRecord api client (ZoneID cfg) (read_NativeID req) ;;
            match record with
            | Err err =>
                if Cf.IsNotFound (Some err)
                then ret (read_failure req OperationErrorCodeNotFound, None)
                else ret (read_failure req (Cf.MapErrorCode (Some err)), None)
            | Ok record =>
                zoneDomain <- Cf.GetZoneDomain api client (ZoneID cfg) ;;
                match zoneDomain with
                | Err err => ret (read_failure req (Cf.MapErrorCode (Some err)), None)
                | Ok zoneDomain =>
                    let normalizedName := Cf.NormalizeName (Cf.Name record) zoneDomain in
                    let props :=
                      {| p_ID := Cf.ID record; p_ZoneID := Cf.ZoneID record;
                         p_Name := normalizedName;
                         p_RecordType := Cf.RecordType record; p_Content := Cf.Content record;
                         p_TTL := Cf.TTL record; p_Proxied := Cf.Proxied record;
                         p_Comment := Cf.Comment record; p_Priority := Cf.Priority record |} in
                    match Marshal_dnsRecordProperties props with
                    | Err _ => ret (read_failure req OperationErrorCodeInternalFailure, None)
                    | Ok propsJSON =>
                        ret ({| ResourceType := read_ResourceType req;
                                read_ErrorCode := NoErrorCode;
                                Properties := Some propsJSON |}, None)
                    end
                end
            end
        end
  end.

(** [Plugin.Delete] removes a DNS record. *)
Definition Delete (req : DeleteRequest) : M (ProgressResult * option error) :=
  let bad_config :=
    failure OperationDelete OperationErrorCodeInvalidRequest
            "zone_id not found in target config" in
  match parseTargetConfig (delete_TargetConfig req) with
  | Err _ => ret (bad_config, None)
  | Ok cfg =>
      if String.eqb (ZoneID cfg) "" then ret (bad_config, None)
      else
        client <- Cf.NewClient ;;
        match client with
        | Err err =>
            ret (failure OperationDelete OperationErrorCodeInvalidCredentials (Error err), None)
        | Ok client =>
            err <- Cf.DeleteRecord api client (ZoneID cfg) (delete_NativeID req) ;;
            match err with
            | Some e =>
                if Cf.IsNotFound (Some e)
                then ret (success OperationDelete "" None, None)
                else ret (failure OperationDelete (Cf.MapErrorCode (Some e)) (Error e), None)
            | None => ret (success OperationDelete "" None, None)
            end
        end
  end.

(** [Plugin.Update] modifies an existing DNS record. *)
Definition Update (req : UpdateRequest) : M (ProgressResult * option error) :=
  match Unmarshal store_dnsRecordProperties (update_DesiredProperties req)
                  zero_dnsRecordProperties with
  | Err err =>
      ret (failure OperationUpdate OperationErrorCodeInvalidRequest
                   ("Failed to parse properties: " ++ Error err), None)
  | Ok props =>
      client <- Cf.NewClient ;;
      match client with
      | Err err =>
          ret (failure OperationUpdate OperationErrorCodeInvalidCredentials (Error err), None)
      | Ok client =>
          let record :=
            {| Cf.ID := update_NativeID req; Cf.ZoneID := p_ZoneID props;
               Cf.Name := p_Name props;
               Cf.RecordType := p_RecordType props; Cf.Content := p_Content props;
               Cf.TTL := p_TTL props; Cf.Proxied := p_Proxied props;
               Cf.Comment := p_Comment props; Cf.Priority := p_Priority props |} in
          updated <- Cf.UpdateRecord api client record ;;
          match updated with
          | Err err =>
              ret (failure OperationUpdate (Cf.MapErrorCode (Some err)) (Error err), None)
          | Ok updated =>
              let updatedProps :=
                {| p_ID := Cf.ID updated; p_ZoneID := Cf.ZoneID updated;
                   p_Name := p_Name props;
                   p_RecordType := Cf.RecordType updated; p_Content := Cf.Content updated;
                   p_TTL := Cf.TTL updated; p_Proxied := Cf.Proxied updated;
                   p_Comment := Cf.Comment updated; p_Priority := Cf.Priority updated |} in
              match Marshal_dnsRecordProperties updatedProps with
              | Err err =>
                  ret (failure OperationUpdate OperationErrorCodeInternalFailure
                               ("Failed to marshal properties: " ++ Error err), None)
              | Ok propsJSON =>
                  ret (success OperationUpdate (Cf.ID updated) (Some propsJSON), None)
              end
          end
      end
  end.

(** The result every failing path of [List] returns. *)
Definition empty_list : ListResult := {| NativeIDs := []; NextPageToken := None |}.

(** [Plugin.List] returns all DNS record identifiers in the zone. *)
Definition List (req : ListRequest) : M (ListResult * option error) :=
  match parseTargetConfig (list_TargetConfig req) with
  | Err _ => ret (empty_list, None)
  | Ok cfg =>
      if String.eqb (ZoneID cfg) "" then ret (empty_list, None)
      else
        client <- Cf.NewClient ;;
        match client with
        | Err _ => ret (empty_list, None)
        | Ok client =>
            r <- Cf.ListRecords api ParseFloat client (ZoneID cfg) (PageToken req)
                                (PageSize req) ;;
            match r with
            | Err _ => ret (empty_list, None)
            | Ok (records, nextToken) =>
                let nativeIDs := map Cf.ID records in
                ret ({| NativeIDs := nativeIDs; NextPageToken := nextToken |}, None)
            end
        end
  end.

End Operations.

End Plugin.

(** ** The provider SDK used by the self-contained plugin (package [cloudflare]) *)

Module cloudflare.

Record API : Type := { APIToken : string }.

Record DNSRecord : Type := {
  ID : string;
  Name : string;
  Type_ : string;
  Content : string;
  TTL : Z;
  Proxied : option bool;
  Priority : option Z;
  Comment : string
}.

Record CreateDNSRecordParams : Type := {
  create_Type : string;
  create_Name : string;
  create_Content : string;
  create_TTL : Z;
  create_Proxied : option bool;
  create_Priority : option Z;
  create_Comment : string
}.

Record UpdateDNSRecordParams : Type := {
  update_ID : string;
  update_Type : string;
  update_Name : string;
  update_Content : string;
  update_TTL : Z;
  update_Proxied : option bool;
  update_Priority : option Z;
  update_Comment : option string
}.

Record Zone : Type := { zone_Name : string }.

Record ResultInfo : Type := {
  Page : Z;
  PerPage : Z;
  TotalPages : Z
}.

End cloudflare.

(** ** The self-contained resource plugin and its property codec *)

Module Standalone.
Import GoStrings GoNum GoErrors Json resource Run.

(** [TargetConfig] holds the credentials and configuration for API access. *)
Record TargetConfig : Type := {
  APIToken : string;
  ZoneID : string
}.

(** [DNSRecordProperties] represents the properties of a DNS record resource. *)
Record DNSRecordProperties : Type := {
  RecordType : string;
  Name : string;
  Content : string;
  TTL : Z;
  Proxied : bool;
  Priority : option Z;
  Comment : option string
}.

(** Supported record types *)
Definition supportedRecordTypes : gmap string bool :=
  {[ "A" := true; "AAAA" := true; "CNAME" := true; "MX" := true;
     "TXT" := true; "NS" := true; "CAA" := true; "SRV" := true ]}.

(** Record types that can be proxied through Cloudflare *)
Definition proxyableRecordTypes : gmap string bool :=
  {[ "A" := true; "AAAA" := true; "CNAME" := true ]}.

(** Record types that require priority *)
Definition priorityRequiredTypes : gmap string bool :=
  {[ "MX" := true; "SRV" := true ]}.

(** The index expression [m[key]] of a [map[string]bool]: [false] for a
    missing key. *)
Definition index (m : gmap string bool) (key : string) : bool := default false (m !! key).

Definition store_TargetConfig (key : string) (v : json) (c : TargetConfig)
  : option (result TargetConfig) :=
  if EqualFold key "api_token" then
    Some (rmap (fun x => {| APIToken := x; ZoneID := ZoneID c |})
               (dec_string "api_token" v (APIToken c)))
  else if EqualFold key "zone_id" then
    Some (rmap (fun x => {| APIToken := APIToken c; ZoneID := x |})
               (dec_string "zone_id" v (ZoneID c)))
  else None.

(** [parseTargetConfig] parses and validates the target configuration JSON. *)
Definition parseTargetConfig (configJSON : RawMessage) : result TargetConfig :=
  match Unmarshal store_TargetConfig configJSON {| APIToken := ""; ZoneID := "" |} with
  | Err err => Err (WrapError "failed to parse target config: " err)
  | Ok config =>
      if String.eqb (APIToken config) "" then
        Err (ErrorString "api_token is required in target config")
      else if String.eqb (ZoneID config) "" then
        Err (ErrorString "zone_id is required in target config")
      else Ok config
  end.

Definition store_DNSRecordProperties (key : string) (v : json) (p : DNSRecordProperties)
  : option (result DNSRecordProperties) :=
  let '{| RecordType := type; Name := name; Content := content; TTL := ttl;
          Proxied := proxied; Priority := priority; Comment := comment |} := p in
  if EqualFold key "record_type" then
    Some (rmap (fun x => {| RecordType := x; Name := name; Content := content; TTL := ttl;
                            Proxied := proxied; Priority := priority; Comment := comment |})
               (dec_string "record_type" v type))
  else if EqualFold key "name" then
    Some (rmap (fun x => {| RecordType := type; Name := x; Content := content; TTL := ttl;
                            Proxied := proxied; Priority := priority; Comment := comment |})
               (dec_string "name" v name))
  else if EqualFold key "content" then
    Some (rmap (fun x => {| RecordType := type; Name := name; Content := x; TTL := ttl;
                            Proxied := proxied; Priority := priority; Comment := comment |})
               (dec_string "content" v content))
  else if EqualFold key "ttl" then
    Some (rmap (fun x => {| RecordType := type; Name := name; Content := content; TTL := x;
                            Proxied := proxied; Priority := priority; Comment := comment |})
               (dec_int "ttl" v ttl))
  else if EqualFold key "proxied" then
    Some (rmap (fun x => {| RecordType := type; Name := name; Content := content; TTL := ttl;
                            Proxied := x; Priority := priority; Comment := comment |})
               (dec_bool "proxied" v proxied))
  else if EqualFold key "priority" then
    Some (rmap (fun x => {| RecordType := type; Name := name; Content := content; TTL := ttl;
                            Proxied := proxied; Priority := x; Comment := comment |})
               (dec_ptr_int "priority" v priority))
  else if EqualFold key "comment" then
    Some (rmap (fun x => {| RecordType := type; Name := name; Content := content; TTL := ttl;
                            Proxied := proxied; Priority := priority; Comment := x |})
               (dec_ptr_string "comment" v comment))
  else None.

(** The defaults [parseProperties] decodes into: automatic TTL, not proxied. *)
Definition default_props : DNSRecordProperties :=
  {| RecordType := ""; Name := ""; Content := ""; TTL := 1; Proxied := false;
     Priority := None; Comment := None |}.

(** [parseProperties] parses and validates the DNS record properties JSON. *)
Definition parseProperties (propsJSON : RawMessage) : result DNSRecordProperties :=
  match Unmarshal store_DNSRecordProperties propsJSON default_props with
  | Err err => Err (WrapError "failed to parse properties: " err)
  | Ok props =>
      if String.eqb (RecordType props) "" then Err (ErrorString "record_type is required")
      else if String.eqb (Name props) "" then Err (ErrorString "name is required")
      else if String.eqb (Content props) "" then Err (ErrorString "content is required")
      else Ok props
  end.

(** [validateProperties] validates DNS record properties based on record
    type; [None] is the nil error. *)
Definition validateProperties (props : DNSRecordProperties) : option error :=
  if negb (index supportedRecordTypes (RecordType props)) then
    Some (ErrorString ("unsupported record type: " ++ RecordType props))
  else if index priorityRequiredTypes (RecordType props)
          && match Priority props with None => true | Some _ => false end then
    Some (ErrorString ("priority is required for " ++ RecordType props ++ " records"))
  else if Proxied props && negb (index proxyableRecordTypes (RecordType props)) then
    Some (ErrorString "proxied can only be set for A, AAAA, and CNAME records")
  else None.

(** [createCloudflareClient]: the SDK's [NewWithAPIToken] refuses an empty
    token. *)
Definition createCloudflareClient (config : TargetConfig) : result cloudflare.API :=
  if String.eqb (APIToken config) ""
  then Err (ErrorString "invalid credentials: API Token must not be empty")
  else Ok {| cloudflare.APIToken := APIToken config |}.

(** [propsToCreateParams] *)
Definition propsToCreateParams (props : DNSRecordProperties) : cloudflare.CreateDNSRecordParams :=
  {| cloudflare.create_Type := RecordType props;
     cloudflare.create_Name := Name props;
     cloudflare.create_Content := Content props;
     cloudflare.create_TTL := TTL props;
     cloudflare.create_Proxied := Some (Proxied props);
     cloudflare.create_Priority :=
       match Priority props with
       | Some p => Some (uint16 p)
       | None => None
       end;
     cloudflare.create_Comment :=
       match Comment props with
       | Some c => c
       | None => ""
       end |}.

(** [recordToProperties] converts a provider record to [DNSRecordProperties];
    [zoneName] is stripped from the FQDN the provider returns. *)
Definition recordToProperties (record : cloudflare.DNSRecord) (zoneName : string)
  : DNSRecordProperties :=
  let name := cloudflare.Name record in
  let name :=
    if negb (String.eqb zoneName "") then
      let suffix := "." ++ zoneName in
      let name := TrimSuffix name suffix in
      if String.eqb name zoneName then "@" else name
    else name in
  {| RecordType := cloudflare.Type_ record;
     Name := name;
     Content := cloudflare.Content record;
     TTL := cloudflare.TTL record;
     Proxied :=
       match cloudflare.Proxied record with
       | Some b => b
       | None => false
       end;
     Priority :=
       match cloudflare.Priority record with
       | Some p => Some p
       | None => None
       end;
     Comment :=
       if negb (String.eqb (cloudflare.Comment record) "")
       then Some (cloudflare.Comment record)
       else None |}.

(** The provider, as an injected capability. *)
Record Api (S : Type) : Type := {
  CreateDNSRecord :
    cloudflare.API -> string -> cloudflare.CreateDNSRecordParams -> S
    -> result cloudflare.DNSRecord * S;
  ListDNSRecords :
    cloudflare.API -> string -> cloudflare.ResultInfo -> S
    -> result (list cloudflare.DNSRecord * option cloudflare.ResultInfo) * S
}.
Arguments CreateDNSRecord {S}.
Arguments ListDNSRecords {S}.

Inductive ApiCall : Type :=
| CallCreateDNSRecord (zoneID : string) (params : cloudflare.CreateDNSRecordParams)
| CallListDNSRecords (zoneID : string) (info : cloudflare.ResultInfo).

Definition failure (op : Operation) (code : OperationErrorCode) (msg : string)
  : ProgressResult :=
  {| Operation_ := op; OperationStatus_ := OperationStatusFailure; ErrorCode := code;
     StatusMessage := msg; NativeID := ""; ResourceProperties := None |}.

Definition empty_list : ListResult := {| NativeIDs := []; NextPageToken := None |}.

Section Operations.
Context {S : Type}.
Variable api : Api S.

(** [fmt.Sscanf(s, "%d", &page)]: [Some n] when it stores [n] into [page]. *)
Variable Sscanf_d : string -> option Z.

#[local] Abbreviation M := (Run.M ApiCall S).

(** [Plugin.Create] provisions a new resource. *)
Definition Create (req : CreateRequest) : M (ProgressResult * option error) :=
  match parseTargetConfig (create_TargetConfig req) with
  | Err err =>
      ret (failure OperationCreate OperationErrorCodeInvalidRequest
                   ("Invalid target config: " ++ Error err), None)
  | Ok config =>
      match parseProperties (create_Properties req) with
      | Err err =>
          ret (failure OperationCreate OperationErrorCodeInvalidRequest
                       ("Invalid properties: " ++ Error err), None)
      | Ok props =>
          match validateProperties props with
          | Some err =>
              ret (failure OperationCreate OperationErrorCodeInvalidRequest
                           ("Invalid properties: " ++ Error err), None)
          | None =>
              match createCloudflareClient config with
              | Err err =>
                  ret (failure OperationCreate OperationErrorCodeInternalFailure
                               ("Failed to create Cloudflare client: " ++ Error err), None)
              | Ok client =>
                  let rc := ZoneID config in
                  let params := propsToCreateParams props in
                  record <- call (CallCreateDNSRecord rc params)
                                 (CreateDNSRecord api client rc params) ;;
                  match record with
                  | Err err =>
                      ret (failure OperationCreate OperationErrorCodeInternalFailure
                                   ("Failed to create DNS record: " ++ Error err), None)
                  | Ok record =>
                      ret ({| Operation_ := OperationCreate;
                              OperationStatus_ := OperationStatusSuccess;
                              ErrorCode := NoErrorCode; StatusMessage := "";
                              NativeID := cloudflare.ID record;
                              ResourceProperties := None |}, None)
                  end
              end
          end
      end
  end.

(** [Plugin.List] returns all resource identifiers of a given type. *)
Definition List (req : ListRequest) : M (ListResult * option error) :=
  match parseTargetConfig (list_TargetConfig req) with
  | Err _ => ret (empty_list, None)
  | Ok config =>
      match createCloudflareClient config with
      | Err _ => ret (empty_list, None)
      | Ok client =>
          let pageSize := if (0 <? PageSize req)%Z then PageSize req else 100%Z in
          let page :=
            match PageToken req with
            | Some tok =>
                if negb (String.eqb tok "") then
                  match Sscanf_d tok with
                  | Some n => n
                  | None => 1%Z
                  end
                else 1%Z
            | None => 1%Z
            end in
          let rc := ZoneID config in
          let info := {| cloudflare.Page := page; cloudflare.PerPage := pageSize;
                         cloudflare.TotalPages := 0 |} in
          r <- call (CallListDNSRecords rc info) (ListDNSRecords api client rc info) ;;
          match r with
          | Err _ => ret (empty_list, None)
          | Ok (records, resultInfo) =>
              let nativeIDs := map cloudflare.ID records in
              let nextPageToken :=
                match resultInfo with
                | Some info =>
                    if (cloudflare.Page info <? cloudflare.TotalPages info)%Z
                    then Some (FormatInt (int64 (cloudflare.Page info + 1)))
                    else None
                | None => None
                end in
              ret ({| NativeIDs := nativeIDs; NextPageToken := nextPageToken |}, None)
          end
      end
  end.

End Operations.

(** *** The helpers and operations on a single record *)

(** [propsToUpdateParams] *)
Definition propsToUpdateParams (props : DNSRecordProperties) (recordID : string)
  : cloudflare.UpdateDNSRecordParams :=
  {| cloudflare.update_ID := recordID;
     cloudflare.update_Type := RecordType props;
     cloudflare.update_Name := Name props;
     cloudflare.update_Content := Content props;
     cloudflare.update_TTL := TTL props;
     cloudflare.update_Proxied := Some (Proxied props);
     cloudflare.update_Priority :=
       match Priority props with
       | Some p => Some (uint16 p)
       | None => None
       end;
     cloudflare.update_Comment := Comment props |}.

(** [json.Marshal] of a [DNSRecordProperties]: the fields in declaration
    order; the [omitempty] pointers [priority] and [comment] are left out
    when nil. Encoding this struct cannot fail. *)
Definition Marshal_DNSRecordProperties (p : DNSRecordProperties) : result json :=
  Ok (JObject
        ([("record_type", enc_string (RecordType p));
          ("name", enc_string (Name p));
          ("content", enc_string (Content p));
          ("ttl", JInt (TTL p));
          ("proxied", JBool (Proxied p))]
         ++ match Priority p with
            | Some n => [("priority", JInt n)]
            | None => []
            end
         ++ match Comment p with
            | Some c => [("comment", enc_string c)]
            | None => []
            end)).

(** [propertiesToJSON] converts [DNSRecordProperties] to a JSON text. *)
Definition propertiesToJSON (props : DNSRecordProperties) : result json :=
  match Marshal_DNSRecordProperties props with
  | Err err => Err (WrapError "failed to marshal properties: " err)
  | Ok bytes => Ok bytes
  end.

(** [isNotFoundError] checks if the error is a "not found" error of the
    provider, by its text; [None] is the nil error. *)
Definition isNotFoundError (err : option error) : bool :=
  match err with
  | None => false
  | Some err =>
      let errStr := Error err in
      Contains errStr "not found"
      || Contains errStr "does not exist"
      || Contains errStr "404"
  end.

(** The endpoints of the provider that work on one record or on the zone. *)
Record RecordApi (S : Type) : Type := {
  ZoneDetails : cloudflare.API -> string -> S -> result cloudflare.Zone * S;
  GetDNSRecord : cloudflare.API -> string -> string -> S -> result cloudflare.DNSRecord * S;
  UpdateDNSRecord :
    cloudflare.API -> string -> cloudflare.UpdateDNSRecordParams -> S
    -> result cloudflare.DNSRecord * S;
  DeleteDNSRecord : cloudflare.API -> string -> string -> S -> result unit * S
}.
Arguments ZoneDetails {S}.
Arguments GetDNSRecord {S}.
Arguments UpdateDNSRecord {S}.
Arguments DeleteDNSRecord {S}.

Inductive RecordCall : Type :=
| CallZoneDetails (zoneID : string)
| CallGetDNSRecord (zoneID recordID : string)
| CallUpdateDNSRecord (zoneID : string) (params : cloudflare.UpdateDNSRecordParams)
| CallDeleteDNSRecord (zoneID recordID : string).

Definition read_failure (req : ReadRequest) (code : OperationErrorCode) : ReadResult :=
  {| ResourceType := read_ResourceType req; read_ErrorCode := code; Properties := None |}.

Definition success (op : Operation) (nativeID : string) : ProgressResult :=
  {| Operation_ := op; OperationStatus_ := OperationStatusSuccess; ErrorCode := NoErrorCode;
     StatusMessage := ""; NativeID := nativeID; ResourceProperties := None |}.

Section RecordOperations.
Context {S : Type}.
Variable api : RecordApi S.

#[local] Abbreviation M := (Run.M RecordCall S).

(** [getZoneName] fetches the zone name from the provider using the zone ID. *)
Definition getZoneName (client : cloudflare.API) (zoneID : string) : M (result string) :=
  zone <- call (CallZoneDetails zoneID) (ZoneDetails api client zoneID) ;;
  match zone with
  | Err err => ret (Err (WrapError "failed to get zone details: " err))
  | Ok zone => ret (Ok (cloudflare.zone_Name zone))
  end.

(** [Plugin.Read] retrieves the current state of a resource. *)
Definition Read (req : ReadRequest) : M (ReadResult * option error) :=
  match parseTargetConfig (read_TargetConfig req) with
  | Err _ => ret (read_failure req OperationErrorCodeInvalidRequest, None)
  | Ok config =>
      match createCloudflareClient config with
      | Err _ => ret (read_failure req OperationErrorCodeInternalFailure, None)
      | Ok client =>
          zoneName <- getZoneName client (ZoneID config) ;;
          match zoneName with
          | Err _ => ret (read_failure req OperationErrorCodeInternalFailure, None)
          | Ok zoneName =>
              let rc := ZoneID config in
              record <- call (CallGetDNSRecord rc (read_NativeID req))
                             (GetDNSRecord api client rc (read_NativeID req)) ;;
              match record with
              | Err err =>
                  if isNotFoundError (Some err)
                  then ret (read_failure req OperationErrorCodeNotFound, None)
                  else ret (read_failure req OperationErrorCodeInternalFailure, None)
              | Ok record =>
                  let props := recordToProperties record zoneName in
                  match propertiesToJSON props with
                  | Err _ => ret (read_failure req OperationErrorCodeInternalFailure, None)
                  | Ok propsJSON =>
                      ret ({| ResourceType := read_ResourceType req;
                              read_ErrorCode := NoErrorCode;
                              Properties := Some propsJSON |}, None)
                  end
              end
          end
      end
  end.

(** [Plugin.Update] modifies an existing resource. *)
Definition Update (req : UpdateRequest) : M (ProgressResult * option error) :=
  match parseTargetConfig (update_TargetConfig req) with
  | Err err =>
      ret (failure OperationUpdate OperationErrorCodeInvalidRequest
                   ("Invalid target config: " ++ Error err), None)
  | Ok config =>
      match parseProperties (update_DesiredProperties req) with
      | Err err =>
          ret (failure OperationUpdate OperationErrorCodeInvalidRequest
                       ("Invalid properties: " ++ Error err), None)
      | Ok props =>
          match validateProperties props with
          | Some err =>
              ret (failure OperationUpdate OperationErrorCodeInvalidRequest
                           ("Invalid properties: " ++ Error err), None)
          | None =>
              match createCloudflareClient config with
              | Err err =>
                  ret (failure OperationUpdate OperationErrorCodeInternalFailure
                               ("Failed to create Cloudflare client: " ++ Error err), None)
              | Ok client =>
                  let rc := ZoneID config in
                  let params := propsToUpdateParams props (update_NativeID req) in
                  r <- call (CallUpdateDNSRecord rc params)
                            (UpdateDNSRecord api client rc params) ;;
                  match r with
                  | Err err =>
                      ret (failure OperationUpdate OperationErrorCodeInternalFailure
                                   ("Failed to update DNS record: " ++ Error err), None)
                  | Ok _ => ret (success OperationUpdate (update_NativeID req), None)
                  end
              end
          end
      end
  end.

(** [Plugin.Delete] removes a resource. *)
Definition Delete (req : DeleteRequest) : M (ProgressResult * option error) :=
  match parseTargetConfig (delete_TargetConfig req) with
  | Err err =>
      ret (failure OperationDelete OperationErrorCodeInvalidRequest
                   ("Invalid target config: " ++ Error err), None)
  | Ok config =>
      match createCloudflareClient config with
      | Err err =>
          ret (failure OperationDelete OperationErrorCodeInternalFailure
                       ("Failed to create Cloudflare client: " ++ Error err), None)
      | Ok client =>
          let rc := ZoneID config in
          r <- call (CallDeleteDNSRecord rc (delete_NativeID req))
                    (DeleteDNSRecord api client rc (delete_NativeID req)) ;;
          match r with
          | Err err =>
              if isNotFoundError (Some err)
              then ret (success OperationDelete "", None)
              else ret (failure OperationDelete OperationErrorCodeInternalFailure
                                ("Failed to delete DNS record: " ++ Error err), None)
          | Ok _ => ret (success OperationDelete "", None)
          end
      end
  end.

End RecordOperations.

End Standalone.

(** ** The name normalizer's other direction *)

Module NameNormalizer.

(** Modelled from the spec: [Denormalize(shortName, zoneApex)] is not among
    the sources; the specification describes it as the function that
    "appends [.] + apex unless [shortName = "@"], in which case returns the
    apex itself". *)
Definition Denormalize (shortName zoneApex : string) : string :=
  if String.eqb shortName "@" then zoneApex
  else shortName ++ "." ++ zoneApex.

End NameNormalizer.

(** ** The acceptance condition of validation, as the specification words it *)

Module ValidateSpec.
Import Standalone.

(** "[record_type] is one of the eight supported types, [priority] is
    present iff [record_type] is MX or SRV, and [proxied] is not true when
    [record_type] is outside A, AAAA, CNAME". *)
Definition spec_valid (props : DNSRecordProperties) : Prop :=
  RecordType props ∈ ["A"; "AAAA"; "CNAME"; "MX"; "TXT"; "NS"; "CAA"; "SRV"]
  /\ (Priority props <> None <-> RecordType props ∈ ["MX"; "SRV"])
  /\ ~ (Proxied props = true /\ RecordType props ∉ ["A"; "AAAA"; "CNAME"]).

(** An address record that also carries a priority. *)
Definition a_record_with_priority : DNSRecordProperties :=
  {| RecordType := "A"; Name := "www"; Content := "192.0.2.1"; TTL := 300;
     Proxied := false; Priority := Some 5%Z; Comment := None |}.

(** The property sets of the unit tests of [validateProperties]. *)
Definition test_props (type : string) (proxied : bool) (priority : option Z)
  : DNSRecordProperties :=
  {| RecordType := type; Name := "test.example.com"; Content := "test-content";
     TTL := 300; Proxied := proxied; Priority := priority; Comment := None |}.

End ValidateSpec.

(** ** What a properties payload supplies, as the specification reads it *)

Module ParseSpec.
Import GoStrings GoNum Json.

(** The JSON type each field of [DNSRecordProperties] is decoded from. *)
Inductive kind : Type := KString | KInt | KBool.

Definition field_kind (key : string) : option kind :=
  if EqualFold key "record_type" then Some KString
  else if EqualFold key "name" then Some KString
  else if EqualFold key "content" then Some KString
  else if EqualFold key "ttl" then Some KInt
  else if EqualFold key "proxied" then Some KBool
  else if EqualFold key "priority" then Some KInt
  else if EqualFold key "comment" then Some KString
  else None.

Definition has_kind (k : kind) (v : json) : bool :=
  match v, k with
  | JNull, _ => true
  | JString _, KString => true
  | JInt z, KInt => in_int64 z
  | JBool _, KBool => true
  | _, _ => false
  end.

(** A member fits when it names no field, or carries [null] or a value of
    its field's type. *)
Definition well_typed_member (kv : string * json) : bool :=
  match field_kind (fst kv) with
  | Some k => has_kind k (snd kv)
  | None => true
  end.

(** A document decodes into the struct when it is [null] or an object whose
    members all fit. *)
Definition decodable (doc : json) : bool :=
  match doc with
  | JNull => true
  | JObject kvs => forallb well_typed_member kvs
  | _ => false
  end.

Definition non_null (v : json) : bool :=
  match v with JNull => false | _ => true end.

(** The value a document supplies for a field: that of its last member
    named after the field (up to case) that is not [null]. *)
Fixpoint supplied_in (tag : string) (kvs : list (string * json)) : option json :=
  match kvs with
  | [] => None
  | (k, v) :: rest =>
      match supplied_in tag rest with
      | Some x => Some x
      | None => if EqualFold k tag && non_null v then Some v else None
      end
  end.

Definition supplied (tag : string) (doc : json) : option json :=
  match doc with
  | JObject kvs => supplied_in tag kvs
  | _ => None
  end.

(** Reading a supplied value at each Go type, with the value kept when
    nothing fitting is supplied. *)
Definition string_or (o : option json) (d : string) : string :=
  match o with Some (JString s) => s | _ => d end.
Definition int_or (o : option json) (d : Z) : Z :=
  match o with Some (JInt n) => n | _ => d end.
Definition bool_or (o : option json) (d : bool) : bool :=
  match o with Some (JBool b) => b | _ => d end.
Definition ptr_int_or (o : option json) (d : option Z) : option Z :=
  match o with Some (JInt n) => Some n | Some _ => None | None => d end.
Definition ptr_string_or (o : option json) (d : option string) : option string :=
  match o with Some (JString s) => Some s | Some _ => None | None => d end.

(** For the pointer fields a [null] counts: the last member named after the
    field decides. *)
Fixpoint last_in (tag : string) (kvs : list (string * json)) : option json :=
  match kvs with
  | [] => None
  | (k, v) :: rest =>
      match last_in tag rest with
      | Some x => Some x
      | None => if EqualFold k tag then Some v else None
      end
  end.
Definition last_member (tag : string) (doc : json) : option json :=
  match doc with
  | JObject kvs => last_in tag kvs
  | _ => None
  end.


(** "[tag] is absent (or empty)". *)
Definition absent_or_empty (tag : string) (doc : json) : Prop :=
  supplied tag doc = None \/ supplied tag doc = Some (JString "").

(** The failure condition of [Parse] as the specification states it: the
    payload is not JSON, or one of the three required fields is absent or
    empty. *)
Definition spec_parse_fails (raw : RawMessage) : Prop :=
  raw = None
  \/ exists doc, raw = Some doc
                 /\ (absent_or_empty "record_type" doc
                     \/ absent_or_empty "name" doc
                     \/ absent_or_empty "content" doc).

(** A payload with every required field, and a string where the TTL's
    number belongs. *)
Definition ttl_as_string : json :=
  JObject [("record_type", JString "A"); ("name", JString "www");
           ("content", JString "192.0.2.1"); ("ttl", JString "300")].

(** The payloads of the unit tests of [parseProperties]. *)
Definition test_a_record : json :=
  JObject [("record_type", JString "A"); ("name", JString "test.example.com");
           ("content", JString "192.0.2.1"); ("ttl", JInt 300); ("proxied", JBool true)].

Definition test_mx_record : json :=
  JObject [("record_type", JString "MX"); ("name", JString "example.com");
           ("content", JString "mail.example.com"); ("priority", JInt 10); ("ttl", JInt 1)].

Definition test_defaults : json :=
  JObject [("record_type", JString "A"); ("name", JString "test.example.com");
           ("content", JString "192.0.2.1")].

Definition test_missing_name : json :=
  JObject [("record_type", JString "A"); ("content", JString "192.0.2.1")].

End ParseSpec.

(** ** An in-memory provider

    A stub of the provider API for running the adapter on concrete inputs:
    a single zone that keeps its records in a list, assigns identifiers
    [rec-0], [rec-1], ..., answers with fully-qualified names, and serves
    list requests page by page. *)

Module FakeZone.
Import GoStrings GoNum GoErrors Json resource Run.

Record State : Type := {
  zone_name : string;
  records : list dns.RecordResponse;
  next_id : Z
}.

Definition response_of (s : State) (id : string) (b : dns.RecordBody) : dns.RecordResponse :=
  let fqdn := fun name => NameNormalizer.Denormalize name (zone_name s) in
  let mk := fun name content ttl proxied comment priority =>
    {| dns.ID := id; dns.Name := fqdn name; dns.Type_ := dns.body_Type b;
       dns.Content := content; dns.Proxied := proxied; dns.Comment := comment;
       dns.TTL := ttl; dns.Priority := priority |} in
  match b with
  | dns.ARecordParam n c t p m => mk n c t p m (Finite 0)
  | dns.AAAARecordParam n c t p m => mk n c t p m (Finite 0)
  | dns.CNAMERecordParam n c t p m => mk n c t p m (Finite 0)
  | dns.TXTRecordParam n c t m => mk n c t false m (Finite 0)
  | dns.MXRecordParam n c t prio m => mk n c t false m prio
  | dns.NSRecordParam n c t m => mk n c t false m (Finite 0)
  end.

Definition has_id (id : string) (r : dns.RecordResponse) : bool := String.eqb (dns.ID r) id.

Definition not_found : error := CfError 404 "404 Not Found: record does not exist".

Definition page_number (p : option float64) (dflt : Z) : Z :=
  match p with
  | Some x => int64_of_float64 x
  | None => dflt
  end.

Definition api : Cf.Api State :=
  {| Cf.Records_New := fun _ params s =>
       let r := response_of s ("rec-" ++ FormatInt (next_id s)) (dns.new_Body params) in
       (Ok r, {| zone_name := zone_name s; records := records s ++ [r];
                 next_id := (next_id s + 1)%Z |});
     Cf.Records_Get := fun _ id _ s =>
       match find (has_id id) (records s) with
       | Some r => (Ok r, s)
       | None => (Err not_found, s)
       end;
     Cf.Records_Update := fun _ id params s =>
       match find (has_id id) (records s) with
       | Some _ =>
           let r := response_of s id (dns.update_Body params) in
           (Ok r, {| zone_name := zone_name s;
                     records := map (fun old => if has_id id old then r else old) (records s);
                     next_id := next_id s |})
       | None => (Err not_found, s)
       end;
     Cf.Records_Delete := fun _ id _ s =>
       match find (has_id id) (records s) with
       | Some _ =>
           (Ok tt, {| zone_name := zone_name s;
                      records := filter (fun r => negb (has_id id r)) (records s);
                      next_id := next_id s |})
       | None => (Err not_found, s)
       end;
     Cf.Records_List := fun _ params s =>
       let page := page_number (dns.Page params) 1 in
       let per_page := page_number (dns.PerPage params) 100 in
       (Ok {| dns.Result :=
                firstn (Z.to_nat per_page)
                       (skipn (Z.to_nat ((page - 1) * per_page)) (records s));
              dns.ResultInfo_Page := page |}, s);
     Cf.Zones_Get := fun _ _ s => (Ok (zone_name s), s) |}.

(** A provider that answers every call with the error [e]. *)
Definition refusing (e : error) : Cf.Api unit :=
  {| Cf.Records_New := fun _ _ s => (Err e, s);
     Cf.Records_Get := fun _ _ _ s => (Err e, s);
     Cf.Records_Update := fun _ _ _ s => (Err e, s);
     Cf.Records_Delete := fun _ _ _ s => (Err e, s);
     Cf.Records_List := fun _ _ s => (Err e, s);
     Cf.Zones_Get := fun _ _ s => (Err e, s) |}.

(** A process with the API token set, in front of the backend state [s]. *)
Definition world {S : Type} (s : S) : World Cf.ApiCall S :=
  {| env := {[ "CLOUDFLARE_API_TOKEN" := "test-token" ]}; backend := s; calls := [] |}.

Definition target_config : RawMessage := Some (JObject [("zone_id", JString "zone-1")]).

Definition example_com : State := {| zone_name := "example.com"; records := []; next_id := 0 |}.

(** A zone that holds [n] address records [h0], [h1], ... *)
Definition host (i : nat) : dns.RecordResponse :=
  let n := FormatInt (Z.of_nat i) in
  {| dns.ID := "rec-" ++ n; dns.Name := "h" ++ n ++ ".example.com"; dns.Type_ := "A";
     dns.Content := "192.0.2.1"; dns.Proxied := false; dns.Comment := "";
     dns.TTL := Finite 1; dns.Priority := Finite 0 |}.

Definition zone_of (n : nat) : State :=
  {| zone_name := "example.com"; records := map host (seq 0 n); next_id := Z.of_nat n |}.

(** Records of the two types the validation table lists and the client's
    switch does not. *)
Definition caa_record : Cf.DNSRecord :=
  {| Cf.ID := ""; Cf.ZoneID := "zone-1"; Cf.Name := "@"; Cf.RecordType := "CAA";
     Cf.Content := "0 issue letsencrypt.org"; Cf.TTL := 1; Cf.Proxied := false;
     Cf.Comment := ""; Cf.Priority := None |}.

Definition srv_record : Cf.DNSRecord :=
  {| Cf.ID := ""; Cf.ZoneID := "zone-1"; Cf.Name := "_sip._tcp"; Cf.RecordType := "SRV";
     Cf.Content := "5 5060 sipserver.example.com"; Cf.TTL := 1; Cf.Proxied := false;
     Cf.Comment := ""; Cf.Priority := Some 10%Z |}.

Definition client : Cf.Client := {| Cf.api_token := "test-token" |}.

(** A request to create the address record [www]. *)
Definition create_www : CreateRequest :=
  {| create_Properties :=
       Some (JObject [("zone_id", JString "zone-1"); ("name", JString "www");
                      ("record_type", JString "A"); ("content", JString "192.0.2.1");
                      ("ttl", JInt 300)]);
     create_TargetConfig := target_config |}.

(** A request to create a mail exchanger of priority 0. *)
Definition create_mx_0 : CreateRequest :=
  {| create_Properties :=
       Some (JObject [("zone_id", JString "zone-1"); ("name", JString "@");
                      ("record_type", JString "MX");
                      ("content", JString "mail.example.com");
                      ("ttl", JInt 1); ("priority", JInt 0)]);
     create_TargetConfig := target_config |}.

(** The zone once that record exists. *)
Definition zone_with_mx_0 : State :=
  {| zone_name := "example.com";
     records := [ {| dns.ID := "rec-0"; dns.Name := "example.com"; dns.Type_ := "MX";
                     dns.Content := "mail.example.com"; dns.Proxied := false;
                     dns.Comment := ""; dns.TTL := Finite 1; dns.Priority := Finite 0 |} ];
     next_id := 1 |}.

Definition list_request : ListRequest :=
  {| list_TargetConfig := target_config; PageToken := None; PageSize := 2 |}.

Definition a_record : Cf.DNSRecord :=
  {| Cf.ID := ""; Cf.ZoneID := "zone-1"; Cf.Name := "www"; Cf.RecordType := "A";
     Cf.Content := "192.0.2.1"; Cf.TTL := 300; Cf.Proxied := true;
     Cf.Comment := ""; Cf.Priority := None |}.

Definition read_rec_0 : ReadRequest :=
  {| read_NativeID := "rec-0"; read_ResourceType := "CLOUDFLARE::DNS::Record";
     read_TargetConfig := target_config |}.

Definition delete_request : DeleteRequest :=
  {| delete_NativeID := "rec-9"; delete_TargetConfig := target_config |}.

(** Listing a zone to the end: [List] is called again with each token it
    returns, at most [fuel] times. *)
Fixpoint list_pages (fuel : nat) (pageSize : Z) (token : option string)
         (w : World Cf.ApiCall State) : list ListResult :=
  match fuel with
  | O => []
  | S fuel' =>
      let '((res, _), w') :=
        Plugin.List api ParseDecimal
          {| list_TargetConfig := target_config; PageToken := token; PageSize := pageSize |} w in
      res :: match NextPageToken res with
             | Some t => list_pages fuel' pageSize (Some t) w'
             | None => []
             end
  end.

(** A text record and a mail exchanger without priority. *)
Definition txt_record : Cf.DNSRecord :=
  {| Cf.ID := ""; Cf.ZoneID := "zone-1"; Cf.Name := "@"; Cf.RecordType := "TXT";
     Cf.Content := "v=spf1 -all"; Cf.TTL := 300; Cf.Proxied := false;
     Cf.Comment := "SPF"; Cf.Priority := None |}.

Definition mx_record : Cf.DNSRecord :=
  {| Cf.ID := ""; Cf.ZoneID := "zone-1"; Cf.Name := "@"; Cf.RecordType := "MX";
     Cf.Content := "mail.example.com"; Cf.TTL := 300; Cf.Proxied := false;
     Cf.Comment := ""; Cf.Priority := None |}.


(** Requests that name a record of type CAA. *)
Definition caa_properties : RawMessage :=
  Some (JObject [("zone_id", JString "zone-1"); ("name", JString "@");
                 ("record_type", JString "CAA");
                 ("content", JString "0 issue letsencrypt.org"); ("ttl", JInt 1)]).

Definition create_caa : CreateRequest :=
  {| create_Properties := caa_properties; create_TargetConfig := target_config |}.

Definition update_caa : UpdateRequest :=
  {| update_NativeID := "rec-0"; update_DesiredProperties := caa_properties;
     update_TargetConfig := target_config |}.

(** A process without the API token. *)
Definition world_without_token {S : Type} (s : S) : World Cf.ApiCall S :=
  {| env := ∅; backend := s; calls := [] |}.

End FakeZone.

(** ** An in-memory provider for the self-contained plugin

    The same stub behind the interface of the SDK that plugin calls: list
    answers carry the page number and the total number of pages. *)

Module FakeZoneV0.
Import GoStrings GoNum GoErrors Json resource Run.

Record State : Type := {
  zone_name : string;
  records : list cloudflare.DNSRecord;
  next_id : Z
}.

Definition api : Standalone.Api State :=
  {| Standalone.CreateDNSRecord := fun _ _ params s =>
       let r := {| cloudflare.ID := "rec-" ++ FormatInt (next_id s);
                   cloudflare.Name :=
                     NameNormalizer.Denormalize (cloudflare.create_Name params) (zone_name s);
                   cloudflare.Type_ := cloudflare.create_Type params;
                   cloudflare.Content := cloudflare.create_Content params;
                   cloudflare.TTL := cloudflare.create_TTL params;
                   cloudflare.Proxied := cloudflare.create_Proxied params;
                   cloudflare.Priority := cloudflare.create_Priority params;
                   cloudflare.Comment := cloudflare.create_Comment params |} in
       (Ok r, {| zone_name := zone_name s; records := records s ++ [r];
                 next_id := (next_id s + 1)%Z |});
     Standalone.ListDNSRecords := fun _ _ info s =>
       let page := cloudflare.Page info in
       let per_page := cloudflare.PerPage info in
       let total := Z.of_nat (length (records s)) in
       (Ok (firstn (Z.to_nat per_page)
                   (skipn (Z.to_nat ((page - 1) * per_page)) (records s)),
            Some {| cloudflare.Page := page; cloudflare.PerPage := per_page;
                    cloudflare.TotalPages := ((total + per_page - 1) / per_page)%Z |}),
        s) |}.

Definition world (s : State) : World Standalone.ApiCall State :=
  {| env := ∅; backend := s; calls := [] |}.

Definition target_config : RawMessage :=
  Some (JObject [("api_token", JString "test-token"); ("zone_id", JString "zone-1")]).

Definition example_com : State := {| zone_name := "example.com"; records := []; next_id := 0 |}.

Definition host (i : nat) : cloudflare.DNSRecord :=
  let n := FormatInt (Z.of_nat i) in
  {| cloudflare.ID := "rec-" ++ n; cloudflare.Name := "h" ++ n ++ ".example.com";
     cloudflare.Type_ := "A"; cloudflare.Content := "192.0.2.1"; cloudflare.TTL := 1;
     cloudflare.Proxied := Some false; cloudflare.Priority := None;
     cloudflare.Comment := "" |}.

Definition zone_of (n : nat) : State :=
  {| zone_name := "example.com"; records := map host (seq 0 n); next_id := Z.of_nat n |}.

(** A mail exchanger as the provider reports it when its priority is 0. *)
Definition mx_0 : cloudflare.DNSRecord :=
  {| cloudflare.ID := "rec-0"; cloudflare.Name := "example.com"; cloudflare.Type_ := "MX";
     cloudflare.Content := "mail.example.com"; cloudflare.TTL := 1;
     cloudflare.Proxied := Some false; cloudflare.Priority := Some 0%Z;
     cloudflare.Comment := "" |}.

Definition create_www : CreateRequest :=
  {| create_Properties :=
       Some (JObject [("name", JString "www"); ("record_type", JString "A");
                      ("content", JString "192.0.2.1"); ("ttl", JInt 300)]);
     create_TargetConfig := target_config |}.

Definition list_request : ListRequest :=
  {| list_TargetConfig := target_config; PageToken := None; PageSize := 2 |}.

Fixpoint list_pages (fuel : nat) (pageSize : Z) (token : option string)
         (w : World Standalone.ApiCall State) : list ListResult :=
  match fuel with
  | O => []
  | S fuel' =>
      let '((res, _), w') :=
        Standalone.List api ScanDecimal
          {| list_TargetConfig := target_config; PageToken := token; PageSize := pageSize |} w in
      res :: match NextPageToken res with
             | Some t => list_pages fuel' pageSize (Some t) w'
             | None => []
             end
  end.

(** *** The record endpoints of the same zone *)

Definition has_id (id : string) (r : cloudflare.DNSRecord) : bool :=
  String.eqb (cloudflare.ID r) id.

Definition not_found : error := ErrorString "Record does not exist. (81044)".

(** The record endpoints of the in-memory zone. *)
Definition record_api : Standalone.RecordApi State :=
  {| Standalone.ZoneDetails := fun _ _ s =>
       (Ok {| cloudflare.zone_Name := zone_name s |}, s);
     Standalone.GetDNSRecord := fun _ _ id s =>
       match find (has_id id) (records s) with
       | Some r => (Ok r, s)
       | None => (Err not_found, s)
       end;
     Standalone.UpdateDNSRecord := fun _ _ params s =>
       match find (has_id (cloudflare.update_ID params)) (records s) with
       | Some old => (Ok old, s)
       | None => (Err not_found, s)
       end;
     Standalone.DeleteDNSRecord := fun _ _ id s =>
       match find (has_id id) (records s) with
       | Some _ =>
           (Ok tt, {| zone_name := zone_name s;
                      records :=
                        filter (fun r => negb (has_id id r)) (records s);
                      next_id := next_id s |})
       | None => (Err not_found, s)
       end |}.

Definition record_world {S : Type} (s : S) : World Standalone.RecordCall S :=
  {| env := ∅; backend := s; calls := [] |}.

Definition read_rec_0 : ReadRequest :=
  {| read_NativeID := "rec-0"; read_ResourceType := "CLOUDFLARE::DNS::Record";
     read_TargetConfig := target_config |}.

Definition delete_rec_9 : DeleteRequest :=
  {| delete_NativeID := "rec-9"; delete_TargetConfig := target_config |}.

(** A request to create a proxied text record. *)
Definition create_proxied_txt : CreateRequest :=
  {| create_Properties :=
       Some (JObject [("name", JString "www"); ("record_type", JString "TXT");
                      ("content", JString "v=spf1 -all"); ("proxied", JBool true)]);
     create_TargetConfig := target_config |}.

End FakeZoneV0.

(** * Properties *)

(** ** Facts about the library fragments *)

Module GoStringsFacts.
Import GoStrings.

Lemma length_append (s t : string) :
  String.length (s ++ t) = (String.length s + String.length t)%nat.
Proof. induction s as [|c s IH]; simpl; [reflexivity | now rewrite IH]. Qed.

Lemma substring_all (s : string) : substring 0 (String.length s) s = s.
Proof. induction s as [|c s IH]; simpl; [reflexivity | now rewrite IH]. Qed.

Lemma substring_append_r (s t : string) :
  substring (String.length s) (String.length t) (s ++ t) = t.
Proof. induction s as [|c s IH]; simpl; [apply substring_all | exact IH]. Qed.

Lemma substring_append_l (s t : string) :
  substring 0 (String.length s) (s ++ t) = s.
Proof.
  induction s as [|c s IH]; simpl.
  - now destruct t.
  - now rewrite IH.
Qed.

Lemma HasSuffix_append (s t : string) : HasSuffix (s ++ t) t = true.
Proof.
  unfold HasSuffix. rewrite length_append.
  replace (String.length s + String.length t - String.length t)%nat
    with (String.length s) by lia.
  rewrite substring_append_r, String.eqb_refl, andb_true_r.
  apply Nat.leb_le. lia.
Qed.

Lemma TrimSuffix_append (s t : string) : TrimSuffix (s ++ t) t = s.
Proof.
  unfold TrimSuffix. rewrite HasSuffix_append, length_append.
  replace (String.length s + String.length t - String.length t)%nat
    with (String.length s) by lia.
  apply substring_append_l.
Qed.

Lemma append_neq_longer (s t : string) : s <> EmptyString -> s ++ t <> t.
Proof.
  intros Hs Heq. apply (f_equal String.length) in Heq.
  rewrite length_append in Heq. destruct s; [congruence | simpl in Heq; lia].
Qed.

End GoStringsFacts.

Module ValidateFacts.
Import GoErrors Standalone.

Lemma index_supported (t : string) :
  index supportedRecordTypes t = true
  <-> t ∈ ["A"; "AAAA"; "CNAME"; "MX"; "TXT"; "NS"; "CAA"; "SRV"].
Proof.
  unfold index, supportedRecordTypes.
  rewrite !lookup_insert, lookup_singleton.
  rewrite !elem_of_cons, elem_of_nil.
  repeat case_decide; simpl; intuition congruence.
Qed.

Lemma index_priorityRequired (t : string) :
  index priorityRequiredTypes t = true <-> t ∈ ["MX"; "SRV"].
Proof.
  unfold index, priorityRequiredTypes.
  rewrite !lookup_insert, lookup_singleton.
  rewrite !elem_of_cons, elem_of_nil.
  repeat case_decide; simpl; intuition congruence.
Qed.

Lemma index_proxyable (t : string) :
  index proxyableRecordTypes t = true <-> t ∈ ["A"; "AAAA"; "CNAME"].
Proof.
  unfold index, proxyableRecordTypes.
  rewrite !lookup_insert, lookup_singleton.
  rewrite !elem_of_cons, elem_of_nil.
  repeat case_decide; simpl; intuition congruence.
Qed.

(** The unit tests of [validateProperties]. *)
Example TestValidateProperties_AllSupportedTypes :
  Forall (fun '(t, prio) => validateProperties (ValidateSpec.test_props t false prio) = None)
         [("A", None); ("AAAA", None); ("CNAME", None); ("MX", Some 10%Z);
          ("TXT", None); ("NS", None); ("CAA", None); ("SRV", Some 10%Z)].
Proof. repeat constructor. Qed.

Example TestValidateProperties_rejections :
  validateProperties (ValidateSpec.test_props "MX" false None)
  = Some (ErrorString "priority is required for MX records")
  /\ validateProperties (ValidateSpec.test_props "SRV" false None)
    = Some (ErrorString "priority is required for SRV records")
  /\ validateProperties (ValidateSpec.test_props "INVALID" false None)
    = Some (ErrorString "unsupported record type: INVALID")
  /\ validateProperties (ValidateSpec.test_props "TXT" true None)
    = Some (ErrorString "proxied can only be set for A, AAAA, and CNAME records").
Proof. repeat split; reflexivity. Qed.

(** C1, as amended: [validateProperties] returns nil exactly when the record
    type is one of the eight supported types, a priority is present whenever
    the type is MX or SRV (a priority on any other type is accepted), and
    [proxied] is true only for A, AAAA and CNAME. *)
Theorem validateProperties_nil_iff (props : DNSRecordProperties) :
  validateProperties props = None
  <-> RecordType props ∈ ["A"; "AAAA"; "CNAME"; "MX"; "TXT"; "NS"; "CAA"; "SRV"]
      /\ (RecordType props ∈ ["MX"; "SRV"] -> Priority props <> None)
      /\ (Proxied props = true -> RecordType props ∈ ["A"; "AAAA"; "CNAME"]).
Proof.
  unfold validateProperties.
  pose proof (index_supported (RecordType props)) as Hs.
  pose proof (index_priorityRequired (RecordType props)) as Hp.
  pose proof (index_proxyable (RecordType props)) as Hx.
  destruct (index supportedRecordTypes (RecordType props));
    destruct (index priorityRequiredTypes (RecordType props));
    destruct (index proxyableRecordTypes (RecordType props));
    destruct (Priority props); destruct (Proxied props); simpl;
    intuition congruence.
Qed.

Lemma validateProperties_MX_witness :
  validateProperties (ValidateSpec.test_props "MX" false (Some 10%Z)) = None.
Proof.
  apply (proj2 (validateProperties_nil_iff (ValidateSpec.test_props "MX" false (Some 10%Z)))).
  simpl. rewrite !elem_of_cons. split; [tauto | split; discriminate].
Defined.

(** C1, as stated, fails: an A record that carries a priority passes
    validation, although the stated condition wants the priority absent. *)
Lemma validateProperties_accepts_priority_on_A :
  validateProperties ValidateSpec.a_record_with_priority = None
  /\ ~ ValidateSpec.spec_valid ValidateSpec.a_record_with_priority.
Proof.
  split; [reflexivity |].
  intros (_ & Hprio & _). simpl in Hprio.
  assert (H : "A" ∈ ["MX"; "SRV"]) by (apply Hprio; discriminate).
  rewrite !elem_of_cons, elem_of_nil in H. intuition discriminate.
Qed.

End ValidateFacts.

(** ** The name normalizer *)

Module NormalizeFacts.
Import GoStrings GoStringsFacts NameNormalizer.

Example NormalizeName_examples :
  Cf.NormalizeName "example.com" "example.com" = "@"
  /\ Cf.NormalizeName "www.example.com" "example.com" = "www"
  /\ Cf.NormalizeName "a.b.c.example.com" "example.com" = "a.b.c"
  /\ Cf.NormalizeName "www.other.org" "example.com" = "www.other.org".
Proof. repeat split; reflexivity. Qed.

(** C5: [NormalizeName] undoes [Denormalize]: for every short name [x] (the
    apex name ["@"], a single label, a multi-label name; in fact every
    string) and every zone apex [z], empty or not,
    [NormalizeName (Denormalize x z) z = x]. *)
Theorem NormalizeName_Denormalize (x z : string) :
  Cf.NormalizeName (Denormalize x z) z = x.
Proof.
  unfold Denormalize, Cf.NormalizeName.
  destruct (String.eqb_spec x "@") as [-> | Hx].
  - now rewrite String.eqb_refl.
  - assert (Hne : x ++ "." ++ z <> z).
    { intros Heq. apply (f_equal String.length) in Heq.
      rewrite !length_append in Heq. simpl in Heq. lia. }
    apply String.eqb_neq in Hne. rewrite Hne.
    now rewrite HasSuffix_append, TrimSuffix_append.
Qed.

End NormalizeFacts.

(** ** The error classifier *)

Module ErrorFacts.
Import GoErrors resource.

Lemma IsNotFound_iff (e : error) :
  Cf.IsNotFound (Some e) = true <-> As_cfError e = Some 404%Z.
Proof.
  unfold Cf.IsNotFound. destruct (As_cfError e) as [code|]; [| easy].
  rewrite Z.eqb_eq. split; congruence.
Qed.

(** C4, as amended: the classifier answers InvalidRequest for 400,
    InvalidCredentials for 401, AccessDenied for 403, NotFound for 404,
    Throttling for 429, ServiceInternalError for the status codes 500, 502,
    503 and 504, and InternalFailure for every other status code (the other
    5xx codes among them) and for every error that is not an API error. *)
Theorem MapErrorCode_classification (err : error) :
  match As_cfError err with
  | Some status =>
      (status = 400%Z -> Cf.MapErrorCode (Some err) = OperationErrorCodeInvalidRequest)
      /\ (status = 401%Z -> Cf.MapErrorCode (Some err) = OperationErrorCodeInvalidCredentials)
      /\ (status = 403%Z -> Cf.MapErrorCode (Some err) = OperationErrorCodeAccessDenied)
      /\ (status = 404%Z -> Cf.MapErrorCode (Some err) = OperationErrorCodeNotFound)
      /\ (status = 429%Z -> Cf.MapErrorCode (Some err) = OperationErrorCodeThrottling)
      /\ (status ∈ [500; 502; 503; 504]%Z
          -> Cf.MapErrorCode (Some err) = OperationErrorCodeServiceInternalError)
      /\ (status ∉ [400; 401; 403; 404; 429; 500; 502; 503; 504]%Z
          -> Cf.MapErrorCode (Some err) = OperationErrorCodeInternalFailure)
  | None => Cf.MapErrorCode (Some err) = OperationErrorCodeInternalFailure
  end.
Proof.
  unfold Cf.MapErrorCode.
  destruct (As_cfError err) as [status|]; [| reflexivity].
  rewrite !elem_of_cons, !elem_of_nil.
  repeat split; intros H;
    repeat match goal with
           | |- context [(status =? ?n)%Z] => destruct (Z.eqb_spec status n)
           end; simpl; try reflexivity; try lia; intuition lia.
Qed.

Lemma MapErrorCode_503_witness :
  Cf.MapErrorCode (Some (WrapError "list records: " (CfError 503 "503 Service Unavailable")))
  = OperationErrorCodeServiceInternalError.
Proof.
  pose proof (MapErrorCode_classification
                (WrapError "list records: " (CfError 503 "503 Service Unavailable"))) as H.
  cbn [As_cfError] in H. apply H. rewrite !elem_of_cons. tauto.
Defined.

(** C4, as stated, fails: 501 is a 5xx status code and is classified as
    InternalFailure, not as ServiceInternalError. *)
Lemma MapErrorCode_501 :
  (500 <= 501 <= 599)%Z
  /\ Cf.MapErrorCode (Some (CfError 501 "501 Not Implemented"))
     = OperationErrorCodeInternalFailure
  /\ Cf.MapErrorCode (Some (CfError 501 "501 Not Implemented"))
     <> OperationErrorCodeServiceInternalError.
Proof. split; [lia | split; [reflexivity | discriminate]]. Qed.

End ErrorFacts.

(** ** Delete *)

Module DeleteFacts.
Import GoErrors Json resource Run ErrorFacts.

Lemma NewClient_ok {S : Type} (w : World Cf.ApiCall S) (token : string) :
  env w !! "CLOUDFLARE_API_TOKEN" = Some token -> token <> "" ->
  Cf.NewClient w = (Ok {| Cf.api_token := token |}, w).
Proof.
  intros Henv Hne. unfold Cf.NewClient, bind, Getenv, ret. rewrite Henv. simpl.
  apply String.eqb_neq in Hne. now rewrite Hne.
Qed.

Lemma NewClient_unset {S : Type} (w : World Cf.ApiCall S) :
  default "" (env w !! "CLOUDFLARE_API_TOKEN") = "" ->
  Cf.NewClient w
  = (Err (ErrorString "CLOUDFLARE_API_TOKEN environment variable not set"), w).
Proof.
  intros Henv. unfold Cf.NewClient, bind, Getenv, ret. now rewrite Henv.
Qed.

(** C2: when the provider's delete call fails with an error [e], [Delete]
    returns a result whose status is Success, with no error code, if [e] is
    a not-found error (an API error with status 404), and a result whose
    status is Failure, with the classified error code and the text of [e],
    for every other error. *)
Theorem Delete_not_found_is_success {S : Type} (api : Cf.Api S) (req : DeleteRequest)
        (w : World Cf.ApiCall S) (cfg : Plugin.targetConfig) (token : string)
        (e : error) (s' : S) :
  Plugin.parseTargetConfig (delete_TargetConfig req) = Ok cfg ->
  Plugin.ZoneID cfg <> "" ->
  env w !! "CLOUDFLARE_API_TOKEN" = Some token -> token <> "" ->
  Cf.Records_Delete api {| Cf.api_token := token |} (delete_NativeID req)
                    (Plugin.ZoneID cfg) (backend w) = (Err e, s') ->
  (Cf.IsNotFound (Some e) = true <-> As_cfError e = Some 404%Z)
  /\ (Cf.IsNotFound (Some e) = true ->
      fst (Plugin.Delete api req w)
      = ({| Operation_ := OperationDelete; OperationStatus_ := OperationStatusSuccess;
            ErrorCode := NoErrorCode; StatusMessage := ""; NativeID := "";
            ResourceProperties := None |}, None))
  /\ (Cf.IsNotFound (Some e) = false ->
      fst (Plugin.Delete api req w)
      = ({| Operation_ := OperationDelete; OperationStatus_ := OperationStatusFailure;
            ErrorCode := Cf.MapErrorCode (Some e); StatusMessage := Error e;
            NativeID := ""; ResourceProperties := None |}, None)).
Proof.
  intros Hcfg Hzone Henv Htok Hdel.
  split; [apply IsNotFound_iff |].
  assert (Hrun : fst (Plugin.Delete api req w)
                 = (if Cf.IsNotFound (Some e)
                    then Plugin.success OperationDelete "" None
                    else Plugin.failure OperationDelete (Cf.MapErrorCode (Some e)) (Error e),
                    None)).
  { unfold Plugin.Delete. rewrite Hcfg.
    apply String.eqb_neq in Hzone. rewrite Hzone.
    unfold bind. rewrite (NewClient_ok w token Henv Htok).
    unfold Cf.DeleteRecord, bind, call, ret. rewrite Hdel.
    now destruct (Cf.IsNotFound (Some e)). }
  rewrite Hrun. split; intros Hnf; now rewrite Hnf.
Qed.

Lemma Delete_not_found_witness :
  fst (Plugin.Delete (FakeZone.refusing FakeZone.not_found) FakeZone.delete_request
                     (FakeZone.world tt))
  = ({| Operation_ := OperationDelete; OperationStatus_ := OperationStatusSuccess;
        ErrorCode := NoErrorCode; StatusMessage := ""; NativeID := "";
        ResourceProperties := None |}, None).
Proof.
  refine (proj1 (proj2 (Delete_not_found_is_success
                          (FakeZone.refusing FakeZone.not_found) FakeZone.delete_request
                          (FakeZone.world tt) {| Plugin.ZoneID := "zone-1" |} "test-token"
                          FakeZone.not_found tt _ _ _ _ _)) _);
    try reflexivity; discriminate.
Defined.

(** Any other provider error makes [Delete] fail: a rate-limit answer is
    reported as a Throttling failure. *)
Example Delete_rate_limited :
  fst (Plugin.Delete (FakeZone.refusing (CfError 429 "429 Too Many Requests"))
                     FakeZone.delete_request (FakeZone.world tt))
  = ({| Operation_ := OperationDelete; OperationStatus_ := OperationStatusFailure;
        ErrorCode := OperationErrorCodeThrottling;
        StatusMessage := "429 Too Many Requests"; NativeID := "";
        ResourceProperties := None |}, None).
Proof. reflexivity. Qed.

End DeleteFacts.

(** ** The record mapper of the client *)

Module ClientFacts.
Import GoStrings GoNum GoErrors Run.

Lemma recordBody_unsupported (record : Cf.DNSRecord) :
  Cf.RecordType record ∉ ["A"; "AAAA"; "CNAME"; "TXT"; "MX"; "NS"] ->
  Cf.recordBody record
  = Err (ErrorString ("unsupported record type: " ++ Cf.RecordType record)).
Proof.
  rewrite !not_elem_of_cons. intros (HA & HAAAA & HCNAME & HTXT & HMX & HNS & _).
  unfold Cf.recordBody.
  apply String.eqb_neq in HA, HAAAA, HCNAME, HTXT, HMX, HNS.
  now rewrite HA, HAAAA, HCNAME, HTXT, HMX, HNS.
Qed.

Lemma recordBody_supported (record : Cf.DNSRecord) :
  Cf.RecordType record ∈ ["A"; "AAAA"; "CNAME"; "TXT"; "MX"; "NS"] ->
  exists body, Cf.recordBody record = Ok body
               /\ dns.body_Type body = Cf.RecordType record.
Proof.
  rewrite !elem_of_cons, elem_of_nil. unfold Cf.recordBody.
  intros [H | [H | [H | [H | [H | [H | []]]]]]]; rewrite H; simpl;
    eexists; split; reflexivity.
Qed.

(** C3, as amended: for a record whose type is one of the six types A,
    AAAA, CNAME, TXT, MX and NS the client builds the body of that type
    without error, and [CreateRecord] and [UpdateRecord] send it in their one
    provider call; for every other type, CAA and SRV included, both return
    the "unsupported record type" error and leave the world as it was: no
    provider call is attempted. *)
Theorem CreateRecord_UpdateRecord_by_type {S : Type} (api : Cf.Api S) (c : Cf.Client)
        (record : Cf.DNSRecord) (w : World Cf.ApiCall S) :
  (Cf.RecordType record ∈ ["A"; "AAAA"; "CNAME"; "TXT"; "MX"; "NS"] ->
   exists body,
     Cf.recordBody record = Ok body
     /\ dns.body_Type body = Cf.RecordType record
     /\ calls (snd (Cf.CreateRecord api c record w))
        = (calls w ++ [Cf.CallRecordsNew {| dns.new_ZoneID := Cf.ZoneID record;
                                            dns.new_Body := body |}])%list
     /\ calls (snd (Cf.UpdateRecord api c record w))
        = (calls w ++ [Cf.CallRecordsUpdate (Cf.ID record)
                         {| dns.update_ZoneID := Cf.ZoneID record;
                            dns.update_Body := body |}])%list)
  /\ (Cf.RecordType record ∉ ["A"; "AAAA"; "CNAME"; "TXT"; "MX"; "NS"] ->
      Cf.CreateRecord api c record w
      = (Err (ErrorString ("unsupported record type: " ++ Cf.RecordType record)), w)
      /\ Cf.UpdateRecord api c record w
         = (Err (ErrorString ("unsupported record type: " ++ Cf.RecordType record)), w)).
Proof.
  split.
  - intros Hin. destruct (recordBody_supported record Hin) as (body & Hbody & Htype).
    exists body. repeat split; try assumption.
    + unfold Cf.CreateRecord. rewrite Hbody. unfold bind, call, ret.
      destruct (Cf.Records_New api c _ (backend w)) as [[resp | err] s']; reflexivity.
    + unfold Cf.UpdateRecord. rewrite Hbody. unfold bind, call, ret.
      destruct (Cf.Records_Update api c _ _ (backend w)) as [[resp | err] s']; reflexivity.
  - intros Hout. unfold Cf.CreateRecord, Cf.UpdateRecord.
    rewrite (recordBody_unsupported record Hout). split; reflexivity.
Qed.

Lemma CreateRecord_A_witness :
  exists body,
    Cf.recordBody FakeZone.a_record = Ok body
    /\ dns.body_Type body = "A"
    /\ calls (snd (Cf.CreateRecord FakeZone.api FakeZone.client FakeZone.a_record
                                   (FakeZone.world FakeZone.example_com)))
       = [Cf.CallRecordsNew {| dns.new_ZoneID := "zone-1"; dns.new_Body := body |}]
    /\ calls (snd (Cf.UpdateRecord FakeZone.api FakeZone.client FakeZone.a_record
                                   (FakeZone.world FakeZone.example_com)))
       = [Cf.CallRecordsUpdate "" {| dns.update_ZoneID := "zone-1";
                                     dns.update_Body := body |}].
Proof.
  apply (proj1 (CreateRecord_UpdateRecord_by_type
                  FakeZone.api FakeZone.client FakeZone.a_record
                  (FakeZone.world FakeZone.example_com))).
  simpl. rewrite !elem_of_cons. tauto.
Defined.

(** C3, as stated, fails: CAA and SRV are among the eight types of the
    property codec, and the client refuses both before any provider call. *)
Lemma CreateRecord_refuses_CAA_and_SRV :
  let w := FakeZone.world FakeZone.example_com in
  Standalone.validateProperties
    (ValidateSpec.test_props "CAA" false None) = None
  /\ Standalone.validateProperties
       (ValidateSpec.test_props "SRV" false (Some 10%Z)) = None
  /\ Cf.CreateRecord FakeZone.api FakeZone.client FakeZone.caa_record w
     = (Err (ErrorString "unsupported record type: CAA"), w)
  /\ Cf.UpdateRecord FakeZone.api FakeZone.client FakeZone.caa_record w
     = (Err (ErrorString "unsupported record type: CAA"), w)
  /\ Cf.CreateRecord FakeZone.api FakeZone.client FakeZone.srv_record w
     = (Err (ErrorString "unsupported record type: SRV"), w)
  /\ Cf.UpdateRecord FakeZone.api FakeZone.client FakeZone.srv_record w
     = (Err (ErrorString "unsupported record type: SRV"), w).
Proof. repeat split; reflexivity. Qed.

End ClientFacts.

(** ** Create *)

Module CreateFacts.
Import GoStrings GoNum GoErrors Json resource Run.

Lemma NewClient_world {S : Type} (w : World Cf.ApiCall S) : snd (Cf.NewClient w) = w.
Proof.
  unfold Cf.NewClient, bind, Getenv, ret.
  now destruct (String.eqb (default "" (env w !! "CLOUDFLARE_API_TOKEN")) "").
Qed.

(** What the encoded properties carry. *)
Lemma Marshal_dnsRecordProperties_fields (p : Plugin.dnsRecordProperties) :
  exists doc,
    Plugin.Marshal_dnsRecordProperties p = Ok doc
    /\ json_get "name" doc = Some (JString (Plugin.p_Name p))
    /\ json_get "priority" doc = JInt <$> Plugin.p_Priority p
    /\ json_get "comment" doc
       = if String.eqb (Plugin.p_Comment p) "" then None
         else Some (JString (Plugin.p_Comment p)).
Proof.
  unfold Plugin.Marshal_dnsRecordProperties. eexists. split; [reflexivity |].
  destruct (String.eqb (Plugin.p_ID p) ""), (String.eqb (Plugin.p_Comment p) ""),
    (Plugin.p_Priority p); repeat split; reflexivity.
Qed.

(** C7, as amended: a successful [Create] of the plugin over
    [pkg/cloudflare] went through the provider's create call, and its result
    carries the identifier of the provider's response and encoded properties
    whose [name] is the name decoded from the request, whatever name the
    provider's response carries. A successful [Create] of the self-contained
    plugin carries the identifier of the provider's record and no
    properties. *)
Theorem Create_success_id_and_name :
  (forall {S : Type} (api : Cf.Api S) (req : CreateRequest) (w : World Cf.ApiCall S),
      OperationStatus_ (fst (fst (Plugin.Create api req w))) = OperationStatusSuccess ->
      exists props client body resp s',
        Unmarshal Plugin.store_dnsRecordProperties (create_Properties req)
                  Plugin.zero_dnsRecordProperties = Ok props
        /\ Cf.Records_New api client
                          {| dns.new_ZoneID := Plugin.p_ZoneID props; dns.new_Body := body |}
                          (backend w) = (Ok resp, s')
        /\ NativeID (fst (fst (Plugin.Create api req w))) = dns.ID resp
        /\ exists doc,
             ResourceProperties (fst (fst (Plugin.Create api req w))) = Some doc
             /\ json_get "name" doc = Some (JString (Plugin.p_Name props)))
  /\ (forall {S : Type} (api : Standalone.Api S) (req : CreateRequest)
             (w : World Standalone.ApiCall S),
         OperationStatus_ (fst (fst (Standalone.Create api req w)))
         = OperationStatusSuccess ->
         exists config props client record s',
           Standalone.parseTargetConfig (create_TargetConfig req) = Ok config
           /\ Standalone.parseProperties (create_Properties req) = Ok props
           /\ Standalone.validateProperties props = None
           /\ Standalone.CreateDNSRecord api client (Standalone.ZoneID config)
                                         (Standalone.propsToCreateParams props) (backend w)
              = (Ok record, s')
           /\ NativeID (fst (fst (Standalone.Create api req w))) = cloudflare.ID record
           /\ ResourceProperties (fst (fst (Standalone.Create api req w))) = None).
Proof.
  split.
  - intros S api req w. unfold Plugin.Create.
    destruct (Unmarshal _ _ _) as [props | e]; [| discriminate].
    unfold bind. pose proof (NewClient_world w) as Hw.
    destruct (Cf.NewClient w) as [[client | e] w1]; [| discriminate].
    simpl in Hw. subst w1.
    unfold Cf.CreateRecord. cbn [Cf.ZoneID].
    destruct (Cf.recordBody _) as [body | e]; [| discriminate].
    unfold bind, call, ret.
    destruct (Cf.Records_New api client _ (backend w)) as [[resp | e] s'] eqn:Hnew;
      [| discriminate].
    match goal with
    | |- context [Plugin.Marshal_dnsRecordProperties ?p] =>
        destruct (Marshal_dnsRecordProperties_fields p) as (doc & Hdoc & Hname & _);
        rewrite Hdoc
    end.
    intros _. exists props, client, body, resp, s'.
    repeat split; try reflexivity; try assumption.
    exists doc. split; [reflexivity | exact Hname].
  - intros S api req w. unfold Standalone.Create.
    destruct (Standalone.parseTargetConfig _) as [config | e]; [| discriminate].
    destruct (Standalone.parseProperties _) as [props | e]; [| discriminate].
    destruct (Standalone.validateProperties props) as [e |] eqn:Hvalid; [discriminate |].
    destruct (Standalone.createCloudflareClient config) as [client | e]; [| discriminate].
    unfold bind, call, ret.
    destruct (Standalone.CreateDNSRecord api client _ _ (backend w))
      as [[record | e] s'] eqn:Hnew; [| discriminate].
    intros _. exists config, props, client, record, s'. now repeat split.
Qed.

Lemma Create_success_witness :
  let res := fst (fst (Plugin.Create FakeZone.api FakeZone.create_www
                                     (FakeZone.world FakeZone.example_com))) in
  OperationStatus_ res = OperationStatusSuccess
  /\ NativeID res = "rec-0"
  /\ exists props client body resp s',
       Unmarshal Plugin.store_dnsRecordProperties (create_Properties FakeZone.create_www)
                 Plugin.zero_dnsRecordProperties = Ok props
       /\ Cf.Records_New FakeZone.api client
                         {| dns.new_ZoneID := Plugin.p_ZoneID props; dns.new_Body := body |}
                         FakeZone.example_com = (Ok resp, s')
       /\ NativeID res = dns.ID resp
       /\ exists doc,
            ResourceProperties res = Some doc
            /\ json_get "name" doc = Some (JString (Plugin.p_Name props)).
Proof.
  split; [reflexivity | split; [reflexivity |]].
  apply (proj1 Create_success_id_and_name _ FakeZone.api FakeZone.create_www
                (FakeZone.world FakeZone.example_com)).
  reflexivity.
Defined.

(** C7, as stated, fails for the self-contained plugin: its successful
    [Create] reports the provider's identifier and no properties. *)
Lemma Standalone_Create_reports_no_properties :
  let res := fst (fst (Standalone.Create FakeZoneV0.api FakeZoneV0.create_www
                                         (FakeZoneV0.world FakeZoneV0.example_com))) in
  OperationStatus_ res = OperationStatusSuccess
  /\ NativeID res = "rec-0"
  /\ ResourceProperties res = None.
Proof. vm_compute. repeat split. Qed.

(** The provider's response names the record by its FQDN; the result of
    [Create] names it as the request did. *)
Example Create_keeps_the_short_name :
  let '((res, err), w') :=
    Plugin.Create FakeZone.api FakeZone.create_www (FakeZone.world FakeZone.example_com) in
  err = None
  /\ dns.Name <$> FakeZone.records (backend w') = ["www.example.com"]
  /\ (json_get "name" <$> ResourceProperties res) = Some (Some (JString "www")).
Proof. repeat split; reflexivity. Qed.

End CreateFacts.

(** ** List *)

Module ListFacts.
Import GoStrings GoNum GoErrors Json resource Run DeleteFacts.

(** What a successful [ListRecords] returns, read off the provider's
    response. *)
Lemma ListRecords_success {S : Type} (api : Cf.Api S) (ParseFloat : string -> option float64)
      (c : Cf.Client) (zoneID : string) (pageToken : option string) (pageSize : Z)
      (w : World Cf.ApiCall S) (records : list Cf.DNSRecord) (next : option string) :
  fst (Cf.ListRecords api ParseFloat c zoneID pageToken pageSize w) = Ok (records, next) ->
  let effective := if (0 <? pageSize)%Z then pageSize else 100%Z in
  exists params resp s',
    Cf.Records_List api c params (backend w) = (Ok resp, s')
    /\ dns.list_ZoneID params = zoneID
    /\ dns.PerPage params = Some (float64_of_int effective)
    /\ records = map (fun r => Cf.recordFromListItem r zoneID) (dns.Result resp)
    /\ next = if (Z.of_nat (length (dns.Result resp)) =? effective)%Z
              then Some (FormatInt (int64 (dns.ResultInfo_Page resp + 1)))
              else None.
Proof.
  unfold Cf.ListRecords, bind, call, ret. cbv zeta.
  match goal with
  | |- context [Cf.Records_List api c ?p (backend w)] =>
      set (params := p); destruct (Cf.Records_List api c params (backend w))
        as [[resp | e] s'] eqn:Hlist
  end; [| discriminate].
  cbn [fst]. intros [= <- <-].
  exists params, resp, s'. repeat split; try reflexivity. exact Hlist.
Qed.

Lemma createCloudflareClient_ok (raw : RawMessage) (config : Standalone.TargetConfig) :
  Standalone.parseTargetConfig raw = Ok config ->
  Standalone.createCloudflareClient config
  = Ok {| cloudflare.APIToken := Standalone.APIToken config |}.
Proof.
  unfold Standalone.parseTargetConfig, Standalone.createCloudflareClient.
  destruct (Unmarshal _ _ _) as [c | e]; [| discriminate].
  destruct (String.eqb (Standalone.APIToken c) "") eqn:Htok; [discriminate |].
  destruct (String.eqb (Standalone.ZoneID c) ""); [discriminate |].
  intros [= <-]. now rewrite Htok.
Qed.

Lemma Standalone_parseTargetConfig_requires (raw : RawMessage)
      (config : Standalone.TargetConfig) :
  Standalone.parseTargetConfig raw = Ok config ->
  Standalone.APIToken config <> "" /\ Standalone.ZoneID config <> "".
Proof.
  unfold Standalone.parseTargetConfig.
  destruct (Unmarshal _ _ _) as [c | e]; [| discriminate].
  destruct (String.eqb_spec (Standalone.APIToken c) ""); [discriminate |].
  destruct (String.eqb_spec (Standalone.ZoneID c) ""); [discriminate |].
  now intros [= <-].
Qed.

(** The self-contained plugin: what [List] sends and what decides its
    result. *)
Lemma Standalone_List_run {S : Type} (api : Standalone.Api S)
      (Sscanf_d : string -> option Z) (req : ListRequest)
      (w : World Standalone.ApiCall S) (config : Standalone.TargetConfig) :
  Standalone.parseTargetConfig (list_TargetConfig req) = Ok config ->
  exists sent,
    cloudflare.PerPage sent = (if (0 <? PageSize req)%Z then PageSize req else 100%Z)
    /\ calls (snd (Standalone.List api Sscanf_d req w))
       = (calls w ++ [Standalone.CallListDNSRecords (Standalone.ZoneID config) sent])%list
    /\ forall r s',
         Standalone.ListDNSRecords
           api {| cloudflare.APIToken := Standalone.APIToken config |}
           (Standalone.ZoneID config) sent (backend w) = (r, s') ->
         fst (Standalone.List api Sscanf_d req w)
         = (match r with
            | Err _ => Standalone.empty_list
            | Ok (records, resultInfo) =>
                {| NativeIDs := map cloudflare.ID records;
                   NextPageToken :=
                     match resultInfo with
                     | Some info =>
                         if (cloudflare.Page info <? cloudflare.TotalPages info)%Z
                         then Some (FormatInt (int64 (cloudflare.Page info + 1)))
                         else None
                     | None => None
                     end |}
            end, None).
Proof.
  intros Hcfg. unfold Standalone.List. rewrite Hcfg.
  rewrite (createCloudflareClient_ok _ _ Hcfg).
  unfold bind, call, ret. cbv zeta.
  match goal with
  | |- context [Standalone.ListDNSRecords api _ _ ?i (backend w)] => exists i
  end.
  split; [reflexivity |]. split.
  - now destruct (Standalone.ListDNSRecords api _ _ _ (backend w)) as [[[records ri] | e] s'].
  - intros r s' ->. now destruct r as [[records ri] | e].
Qed.

(** C6, as amended: a [List] call of the plugin over [pkg/cloudflare] that
    gets a page back asks for the requested page size, or for 100 when none
    is requested; its result carries a next-page token exactly when the page
    holds as many records as that size, and the token is the decimal form of
    the reported page number plus one. The self-contained plugin's [List]
    asks for the same page size and forms its token the same way, but
    carries it exactly when the provider reports a page number below its
    total number of pages. With either, listing a zone of 5 records with
    page size 2 gives exactly three pages, of which the first two carry a
    token. *)
Theorem List_page_size_and_token :
  (forall {S : Type} (api : Cf.Api S) (ParseFloat : string -> option float64)
          (req : ListRequest) (w : World Cf.ApiCall S) (cfg : Plugin.targetConfig)
          (token : string) (records : list Cf.DNSRecord) (next : option string),
      Plugin.parseTargetConfig (list_TargetConfig req) = Ok cfg ->
      Plugin.ZoneID cfg <> "" ->
      env w !! "CLOUDFLARE_API_TOKEN" = Some token -> token <> "" ->
      fst (Cf.ListRecords api ParseFloat {| Cf.api_token := token |} (Plugin.ZoneID cfg)
                          (PageToken req) (PageSize req) w) = Ok (records, next) ->
      let effective := if (0 <? PageSize req)%Z then PageSize req else 100%Z in
      let res := fst (fst (Plugin.List api ParseFloat req w)) in
      (exists params resp s',
          Cf.Records_List api {| Cf.api_token := token |} params (backend w) = (Ok resp, s')
          /\ dns.PerPage params = Some (float64_of_int effective)
          /\ NativeIDs res = map dns.ID (dns.Result resp)
          /\ (forall t, NextPageToken res = Some t ->
                        t = FormatInt (int64 (dns.ResultInfo_Page resp + 1))))
      /\ (is_Some (NextPageToken res) <-> Z.of_nat (length (NativeIDs res)) = effective))
  /\ FakeZone.list_pages 10 2 None (FakeZone.world (FakeZone.zone_of 5))
     = [ {| NativeIDs := ["rec-0"; "rec-1"]; NextPageToken := Some "2" |};
         {| NativeIDs := ["rec-2"; "rec-3"]; NextPageToken := Some "3" |};
         {| NativeIDs := ["rec-4"]; NextPageToken := None |} ]
  /\ (forall {S : Type} (api : Standalone.Api S) (Sscanf_d : string -> option Z)
             (req : ListRequest) (w : World Standalone.ApiCall S)
             (config : Standalone.TargetConfig) (sent : cloudflare.ResultInfo)
             (records : list cloudflare.DNSRecord)
             (resultInfo : option cloudflare.ResultInfo) (s' : S),
         Standalone.parseTargetConfig (list_TargetConfig req) = Ok config ->
         calls (snd (Standalone.List api Sscanf_d req w))
         = (calls w ++ [Standalone.CallListDNSRecords (Standalone.ZoneID config) sent])%list ->
         Standalone.ListDNSRecords
           api {| cloudflare.APIToken := Standalone.APIToken config |}
           (Standalone.ZoneID config) sent (backend w) = (Ok (records, resultInfo), s') ->
         let res := fst (fst (Standalone.List api Sscanf_d req w)) in
         cloudflare.PerPage sent = (if (0 <? PageSize req)%Z then PageSize req else 100%Z)
         /\ NativeIDs res = map cloudflare.ID records
         /\ NextPageToken res
            = match resultInfo with
              | Some info =>
                  if (cloudflare.Page info <? cloudflare.TotalPages info)%Z
                  then Some (FormatInt (int64 (cloudflare.Page info + 1)))
                  else None
              | None => None
              end)
  /\ FakeZoneV0.list_pages 10 2 None (FakeZoneV0.world (FakeZoneV0.zone_of 5))
     = [ {| NativeIDs := ["rec-0"; "rec-1"]; NextPageToken := Some "2" |};
         {| NativeIDs := ["rec-2"; "rec-3"]; NextPageToken := Some "3" |};
         {| NativeIDs := ["rec-4"]; NextPageToken := None |} ].
Proof.
  split; [| split; [vm_compute; reflexivity | split; [| vm_compute; reflexivity]]].
  - intros S api ParseFloat req w cfg token records next Hcfg Hzone Henv Htok Hlist
           effective res.
    destruct (ListRecords_success _ _ _ _ _ _ _ _ _ Hlist)
      as (params & resp & s' & Hcall & _ & Hper & Hrecords & Hnext).
    assert (Hres : res = {| NativeIDs := map Cf.ID records; NextPageToken := next |}).
    { unfold res, Plugin.List. rewrite Hcfg.
      apply String.eqb_neq in Hzone. rewrite Hzone.
      unfold bind at 1. rewrite (NewClient_ok w token Henv Htok).
      unfold bind.
      destruct (Cf.ListRecords _ _ _ _ _ _ w) as [r w'].
      simpl in Hlist. now subst r. }
    assert (Hids : NativeIDs res = map dns.ID (dns.Result resp)).
    { rewrite Hres, Hrecords. cbn [NativeIDs]. rewrite map_map. reflexivity. }
    split.
    + exists params, resp, s'. repeat split; try assumption.
      intros t. rewrite Hres. cbn [NextPageToken]. rewrite Hnext.
      fold effective. destruct (Z.eqb _ effective); congruence.
    + rewrite Hids, length_map. rewrite Hres. cbn [NextPageToken]. rewrite Hnext.
      fold effective. destruct (Z.eqb_spec (Z.of_nat (length (dns.Result resp))) effective).
      * split; [easy | intros _; eexists; reflexivity].
      * split; [intros [? [=]] | easy].
  - intros S api Sscanf_d req w config sent records resultInfo s' Hcfg Hcalls Hans res.
    destruct (Standalone_List_run api Sscanf_d req w config Hcfg)
      as (sent' & Hper & Hlog & Hrun).
    rewrite Hlog in Hcalls. apply app_inv_head in Hcalls. injection Hcalls as ->.
    unfold res. rewrite (Hrun _ _ Hans). now repeat split.
Qed.

(** The first page of that listing, through the general statement. *)
Lemma List_first_page_witness :
  let req := {| list_TargetConfig := FakeZone.target_config; PageToken := None;
                PageSize := 2 |} in
  let res := fst (fst (Plugin.List FakeZone.api ParseDecimal req
                                   (FakeZone.world (FakeZone.zone_of 5)))) in
  is_Some (NextPageToken res) <-> Z.of_nat (length (NativeIDs res)) = 2%Z.
Proof.
  refine (proj2 (proj1 List_page_size_and_token _ FakeZone.api ParseDecimal
                       {| list_TargetConfig := FakeZone.target_config; PageToken := None;
                          PageSize := 2 |}
                       (FakeZone.world (FakeZone.zone_of 5))
                       {| Plugin.ZoneID := "zone-1" |} "test-token" _ _ _ _ _ _ _));
    try reflexivity; discriminate.
Defined.

(** C6, as stated, fails for the self-contained plugin: in a zone of two
    records listed with page size 2 the only page is full, and it carries no
    token, because the provider reports one page in total. *)
Lemma Standalone_List_full_last_page :
  let res := fst (fst (Standalone.List FakeZoneV0.api ScanDecimal FakeZoneV0.list_request
                                       (FakeZoneV0.world (FakeZoneV0.zone_of 2)))) in
  PageSize FakeZoneV0.list_request = 2%Z
  /\ Z.of_nat (length (NativeIDs res)) = 2%Z
  /\ NextPageToken res = None.
Proof. vm_compute. repeat split. Qed.

(** The heuristic's other side: a zone of 4 records ends with an empty page. *)
Example List_trailing_empty_page :
  FakeZone.list_pages 10 2 None (FakeZone.world (FakeZone.zone_of 4))
  = [ {| NativeIDs := ["rec-0"; "rec-1"]; NextPageToken := Some "2" |};
      {| NativeIDs := ["rec-2"; "rec-3"]; NextPageToken := Some "3" |};
      {| NativeIDs := []; NextPageToken := None |} ].
Proof. reflexivity. Qed.

(** An unrequested page size asks the provider for 100 records a page. *)
Example List_default_page_size :
  calls (snd (Plugin.List FakeZone.api ParseDecimal
                          {| list_TargetConfig := FakeZone.target_config;
                             PageToken := None; PageSize := 0 |}
                          (FakeZone.world (FakeZone.zone_of 5))))
  = [Cf.CallRecordsList {| dns.list_ZoneID := "zone-1";
                           dns.PerPage := Some (Finite (inject_Z 100));
                           dns.Page := None |}].
Proof. reflexivity. Qed.

End ListFacts.

(** ** List never reports a failure *)

Module ListFailureFacts.
Import GoStrings GoNum GoErrors Json resource Run DeleteFacts ListFacts.

Lemma ListRecords_calls {S : Type} (api : Cf.Api S) (ParseFloat : string -> option float64)
      (c : Cf.Client) (zoneID : string) (pageToken : option string) (pageSize : Z)
      (w : World Cf.ApiCall S) :
  exists params,
    calls (snd (Cf.ListRecords api ParseFloat c zoneID pageToken pageSize w))
    = (calls w ++ [Cf.CallRecordsList params])%list
    /\ forall r s',
        Cf.Records_List api c params (backend w) = (r, s') ->
        fst (Cf.ListRecords api ParseFloat c zoneID pageToken pageSize w)
        = match r with
          | Err e => Err e
          | Ok resp =>
              Ok (map (fun r => Cf.recordFromListItem r zoneID) (dns.Result resp),
                  if (Z.of_nat (length (dns.Result resp))
                      =? (if (0 <? pageSize)%Z then pageSize else 100))%Z
                  then Some (FormatInt (int64 (dns.ResultInfo_Page resp + 1)))
                  else None)
          end.
Proof.
  unfold Cf.ListRecords, bind, call, ret. cbv zeta.
  match goal with
  | |- context [Cf.Records_List api c ?p (backend w)] => set (params := p)
  end.
  exists params. split.
  - now destruct (Cf.Records_List api c params (backend w)) as [[resp | e] s'].
  - intros r s' ->. now destruct r.
Qed.

(** The plugin over [pkg/cloudflare]: what decides the result of [List]. *)
Lemma Plugin_List_run {S : Type} (api : Cf.Api S) (ParseFloat : string -> option float64)
      (req : ListRequest) (w : World Cf.ApiCall S) (cfg : Plugin.targetConfig)
      (token : string) :
  Plugin.parseTargetConfig (list_TargetConfig req) = Ok cfg ->
  Plugin.ZoneID cfg <> "" ->
  env w !! "CLOUDFLARE_API_TOKEN" = Some token -> token <> "" ->
  Plugin.List api ParseFloat req w
  = let (r, w') := Cf.ListRecords api ParseFloat {| Cf.api_token := token |}
                                  (Plugin.ZoneID cfg) (PageToken req) (PageSize req) w in
    (match r with
     | Err _ => (Plugin.empty_list, None)
     | Ok (records, nextToken) =>
         ({| NativeIDs := map Cf.ID records; NextPageToken := nextToken |}, None)
     end, w').
Proof.
  intros Hcfg Hzone Henv Htok. unfold Plugin.List. rewrite Hcfg.
  apply String.eqb_neq in Hzone. rewrite Hzone.
  unfold bind at 1. rewrite (NewClient_ok w token Henv Htok).
  unfold bind, ret.
  destruct (Cf.ListRecords _ _ _ _ _ _ w) as [[[records next] | e] w']; reflexivity.
Qed.

Lemma Plugin_List_error_nil {S : Type} (api : Cf.Api S)
      (ParseFloat : string -> option float64) (req : ListRequest) (w : World Cf.ApiCall S) :
  snd (fst (Plugin.List api ParseFloat req w)) = None.
Proof.
  unfold Plugin.List.
  destruct (Plugin.parseTargetConfig _) as [cfg | e]; [| reflexivity].
  destruct (String.eqb (Plugin.ZoneID cfg) ""); [reflexivity |].
  unfold bind, ret.
  destruct (Cf.NewClient w) as [[client | e] w1]; [| reflexivity].
  destruct (Cf.ListRecords _ _ _ _ _ _ w1) as [[[records next] | e] w2]; reflexivity.
Qed.

(** C9: [List] never surfaces a failure. Its Go error is nil on every
    path, and when the target config does not parse, the zone ID is missing,
    the client cannot be constructed (no API token), or the provider answers
    the list call with an error, the result is the empty list of native IDs
    without a token: the result of listing an empty zone. The same holds for
    the self-contained plugin, whose config parser itself rejects a missing
    zone ID or token. *)
Theorem List_failures_look_empty :
  (forall {S : Type} (api : Cf.Api S) (ParseFloat : string -> option float64)
          (req : ListRequest) (w : World Cf.ApiCall S),
      snd (fst (Plugin.List api ParseFloat req w)) = None
      /\ (is_Err (Plugin.parseTargetConfig (list_TargetConfig req)) = true ->
          Plugin.List api ParseFloat req w = ((Plugin.empty_list, None), w))
      /\ (forall cfg, Plugin.parseTargetConfig (list_TargetConfig req) = Ok cfg ->
                      Plugin.ZoneID cfg = "" ->
                      Plugin.List api ParseFloat req w = ((Plugin.empty_list, None), w))
      /\ (default "" (env w !! "CLOUDFLARE_API_TOKEN") = "" ->
          Plugin.List api ParseFloat req w = ((Plugin.empty_list, None), w))
      /\ (forall cfg token params r s',
             Plugin.parseTargetConfig (list_TargetConfig req) = Ok cfg ->
             Plugin.ZoneID cfg <> "" ->
             env w !! "CLOUDFLARE_API_TOKEN" = Some token -> token <> "" ->
             calls (snd (Plugin.List api ParseFloat req w))
             = (calls w ++ [Cf.CallRecordsList params])%list ->
             Cf.Records_List api {| Cf.api_token := token |} params (backend w) = (r, s') ->
             (is_Err r = true \/ (exists resp, r = Ok resp /\ dns.Result resp = [])) ->
             fst (Plugin.List api ParseFloat req w) = (Plugin.empty_list, None)))
  /\ (forall {S : Type} (api : Standalone.Api S) (Sscanf_d : string -> option Z)
             (req : ListRequest) (w : World Standalone.ApiCall S),
         snd (fst (Standalone.List api Sscanf_d req w)) = None
         /\ (is_Err (Standalone.parseTargetConfig (list_TargetConfig req)) = true ->
             Standalone.List api Sscanf_d req w = ((Standalone.empty_list, None), w))
         /\ (forall config,
                Standalone.parseTargetConfig (list_TargetConfig req) = Ok config ->
                Standalone.APIToken config <> "" /\ Standalone.ZoneID config <> "")
         /\ (forall config info e s',
                Standalone.parseTargetConfig (list_TargetConfig req) = Ok config ->
                calls (snd (Standalone.List api Sscanf_d req w))
                = (calls w ++ [Standalone.CallListDNSRecords (Standalone.ZoneID config) info])%list ->
                Standalone.ListDNSRecords
                  api {| cloudflare.APIToken := Standalone.APIToken config |}
                  (Standalone.ZoneID config) info (backend w) = (Err e, s') ->
                fst (Standalone.List api Sscanf_d req w) = (Standalone.empty_list, None))).
Proof.
  split.
  - intros S api ParseFloat req w. split; [apply Plugin_List_error_nil |].
    split; [| split; [| split]].
    + unfold Plugin.List. now destruct (Plugin.parseTargetConfig _).
    + intros cfg Hcfg Hzone. unfold Plugin.List. now rewrite Hcfg, Hzone.
    + intros Henv. unfold Plugin.List.
      destruct (Plugin.parseTargetConfig _) as [cfg | e]; [| reflexivity].
      destruct (String.eqb (Plugin.ZoneID cfg) ""); [reflexivity |].
      unfold bind. now rewrite (NewClient_unset w Henv).
    + intros cfg token params r s' Hcfg Hzone Henv Htok Hcalls Hans Hr.
      rewrite (Plugin_List_run api ParseFloat req w cfg token Hcfg Hzone Henv Htok) in *.
      destruct (ListRecords_calls api ParseFloat {| Cf.api_token := token |}
                  (Plugin.ZoneID cfg) (PageToken req) (PageSize req) w)
        as (params' & Hlog & Hrun).
      destruct (Cf.ListRecords _ _ _ _ _ _ w) as [lr w'].
      cbn [fst snd] in *. rewrite Hlog in Hcalls.
      apply app_inv_head in Hcalls. injection Hcalls as ->.
      rewrite (Hrun r s' Hans).
      destruct Hr as [Herr | (resp & -> & Hempty)].
      * destruct r; [discriminate | reflexivity].
      * rewrite Hempty. cbn [map length]. change (Z.of_nat 0) with 0%Z.
        assert (Hsize : (0 =? (if 0 <? PageSize req then PageSize req else 100))%Z = false).
        { apply Z.eqb_neq. destruct (Z.ltb_spec 0 (PageSize req)); lia. }
        now rewrite Hsize.
  - intros S api Sscanf_d req w. split; [| split; [| split]].
    + unfold Standalone.List.
      destruct (Standalone.parseTargetConfig _) as [config | e]; [| reflexivity].
      destruct (Standalone.createCloudflareClient config) as [client | e]; [| reflexivity].
      unfold bind, call, ret.
      destruct (Standalone.ListDNSRecords api client _ _ (backend w))
        as [[[records info] | e] s']; reflexivity.
    + unfold Standalone.List. now destruct (Standalone.parseTargetConfig _).
    + intros config. apply Standalone_parseTargetConfig_requires.
    + intros config info e s' Hcfg Hcalls Hans. revert Hcalls.
      unfold Standalone.List. rewrite Hcfg.
      rewrite (createCloudflareClient_ok _ _ Hcfg).
      unfold bind, call, ret. cbv zeta.
      match goal with
      | |- context [Standalone.ListDNSRecords api ?c ?z ?i (backend w)] =>
          destruct (Standalone.ListDNSRecords api c z i (backend w))
            as [r s''] eqn:Hsent; set (sent := i) in *
      end.
      intros Hcalls.
      assert (Hinfo : sent = info).
      { destruct r as [[records ri] | e0]; cbn [snd calls] in Hcalls;
          apply app_inv_head in Hcalls; now injection Hcalls. }
      rewrite Hinfo, Hans in Hsent. injection Hsent as <- <-. reflexivity.
Qed.

Lemma List_provider_error_witness :
  fst (Plugin.List (FakeZone.refusing (CfError 500 "500 Internal Server Error"))
                   ParseDecimal FakeZone.list_request (FakeZone.world tt))
  = (Plugin.empty_list, None).
Proof.
  refine (proj2 (proj2 (proj2 (proj2
            (proj1 List_failures_look_empty unit
                   (FakeZone.refusing (CfError 500 "500 Internal Server Error"))
                   ParseDecimal FakeZone.list_request (FakeZone.world tt)))))
            {| Plugin.ZoneID := "zone-1" |} "test-token" _ _ _ _ _ _ _ _ _ _);
    [reflexivity | discriminate | reflexivity | discriminate
     | reflexivity | reflexivity | left; reflexivity].
Defined.

(** The four causes, run on concrete inputs, next to an empty zone. *)
Example List_failures_examples :
  let list := fun {S : Type} (api : Cf.Api S) config w =>
    fst (Plugin.List api ParseDecimal
                     {| list_TargetConfig := config; PageToken := None; PageSize := 2 |} w) in
  let broken := FakeZone.refusing (CfError 500 "500 Internal Server Error") in
  list FakeZone.api None (FakeZone.world (FakeZone.zone_of 5)) = (Plugin.empty_list, None)
  /\ list FakeZone.api (Some (JObject [])) (FakeZone.world (FakeZone.zone_of 5))
     = (Plugin.empty_list, None)
  /\ list FakeZone.api FakeZone.target_config
          {| env := ∅; backend := FakeZone.zone_of 5; calls := [] |}
     = (Plugin.empty_list, None)
  /\ list broken FakeZone.target_config (FakeZone.world tt) = (Plugin.empty_list, None)
  /\ list FakeZone.api FakeZone.target_config (FakeZone.world (FakeZone.zone_of 0))
     = (Plugin.empty_list, None).
Proof. vm_compute. repeat split. Qed.

End ListFailureFacts.

(** ** Zero priorities and empty comments *)

Module AbsenceFacts.
Import GoStrings GoNum GoErrors Json resource Run DeleteFacts CreateFacts.

Lemma Read_success {S : Type} (api : Cf.Api S) (req : ReadRequest)
      (w : World Cf.ApiCall S) (cfg : Plugin.targetConfig) (token : string)
      (resp : dns.RecordResponse) (s1 : S) (zoneDomain : string) (s2 : S) :
  Plugin.parseTargetConfig (read_TargetConfig req) = Ok cfg ->
  Plugin.ZoneID cfg <> "" ->
  env w !! "CLOUDFLARE_API_TOKEN" = Some token -> token <> "" ->
  Cf.Records_Get api {| Cf.api_token := token |} (read_NativeID req) (Plugin.ZoneID cfg)
                 (backend w) = (Ok resp, s1) ->
  Cf.Zones_Get api {| Cf.api_token := token |} (Plugin.ZoneID cfg) s1 = (Ok zoneDomain, s2) ->
  exists doc,
    Plugin.Marshal_dnsRecordProperties
      {| Plugin.p_ID := dns.ID resp; Plugin.p_ZoneID := Plugin.ZoneID cfg;
         Plugin.p_Name := Cf.NormalizeName (dns.Name resp) zoneDomain;
         Plugin.p_RecordType := dns.Type_ resp; Plugin.p_Content := dns.Content resp;
         Plugin.p_TTL := int64_of_float64 (dns.TTL resp);
         Plugin.p_Proxied := dns.Proxied resp; Plugin.p_Comment := dns.Comment resp;
         Plugin.p_Priority :=
           Cf.Priority (Cf.recordFromResponse resp (Plugin.ZoneID cfg)) |} = Ok doc
    /\ fst (Plugin.Read api req w)
       = ({| ResourceType := read_ResourceType req; read_ErrorCode := NoErrorCode;
             Properties := Some doc |}, None).
Proof.
  intros Hcfg Hzone Henv Htok Hget Hzones.
  unfold Plugin.Read. rewrite Hcfg.
  apply String.eqb_neq in Hzone. rewrite Hzone.
  unfold bind at 1. rewrite (NewClient_ok w token Henv Htok).
  unfold Cf.GetRecord, Cf.GetZoneDomain, bind, call, ret.
  rewrite Hget. cbn [backend]. rewrite Hzones.
  unfold Plugin.Marshal_dnsRecordProperties. eexists. split; reflexivity.
Qed.

(** C10, as amended: in the client of [pkg/cloudflare] a provider response
    whose priority is 0 is converted to a record without a priority, by
    [recordFromResponse] and [recordFromListItem] alike, so the properties
    [Read] reports for it have no [priority] member, whatever the record
    type; a response whose comment is the empty string is reported without a
    [comment] member. The self-contained plugin's [recordToProperties]
    likewise turns an empty comment into an absent one, but it reports the
    priority just as the provider's record holds it: a priority of 0 stays
    present, and only an omitted one is absent. *)
Theorem zero_priority_and_empty_comment_are_absent :
  (forall (resp : dns.RecordResponse) (zoneID : string),
      float64_nonzero (dns.Priority resp) = false ->
      Cf.Priority (Cf.recordFromResponse resp zoneID) = None
      /\ Cf.Priority (Cf.recordFromListItem resp zoneID) = None)
  /\ (forall {S : Type} (api : Cf.Api S) (req : ReadRequest) (w : World Cf.ApiCall S)
             (cfg : Plugin.targetConfig) (token : string) (resp : dns.RecordResponse)
             (s1 : S) (zoneDomain : string) (s2 : S),
         Plugin.parseTargetConfig (read_TargetConfig req) = Ok cfg ->
         Plugin.ZoneID cfg <> "" ->
         env w !! "CLOUDFLARE_API_TOKEN" = Some token -> token <> "" ->
         Cf.Records_Get api {| Cf.api_token := token |} (read_NativeID req)
                        (Plugin.ZoneID cfg) (backend w) = (Ok resp, s1) ->
         Cf.Zones_Get api {| Cf.api_token := token |} (Plugin.ZoneID cfg) s1
         = (Ok zoneDomain, s2) ->
         exists doc,
           Properties (fst (fst (Plugin.Read api req w))) = Some doc
           /\ (float64_nonzero (dns.Priority resp) = false ->
               json_get "priority" doc = None)
           /\ (dns.Comment resp = "" -> json_get "comment" doc = None))
  /\ (forall (record : cloudflare.DNSRecord) (zoneName : string),
         cloudflare.Comment record = "" ->
         Standalone.Comment (Standalone.recordToProperties record zoneName) = None)
  /\ (forall (record : cloudflare.DNSRecord) (zoneName : string),
         Standalone.Priority (Standalone.recordToProperties record zoneName)
         = cloudflare.Priority record).
Proof.
  split; [| split; [| split]].
  - intros resp zoneID Hzero. unfold Cf.recordFromResponse, Cf.recordFromListItem.
    cbn [Cf.Priority]. now rewrite Hzero.
  - intros S api req w cfg token resp s1 zoneDomain s2 Hcfg Hzone Henv Htok Hget Hzones.
    destruct (Read_success api req w cfg token resp s1 zoneDomain s2
                           Hcfg Hzone Henv Htok Hget Hzones) as (doc & Hdoc & Hread).
    exists doc. rewrite Hread. split; [reflexivity |].
    match type of Hdoc with
    | Plugin.Marshal_dnsRecordProperties ?p = _ =>
        destruct (Marshal_dnsRecordProperties_fields p) as (doc' & Hdoc' & _ & Hprio & Hcomment)
    end.
    rewrite Hdoc in Hdoc'. injection Hdoc' as <-.
    cbn [Plugin.p_Priority Plugin.p_Comment Cf.Priority Cf.recordFromResponse] in Hprio, Hcomment.
    split.
    + intros Hzero. now rewrite Hprio, Hzero.
    + intros Hempty. now rewrite Hcomment, Hempty.
  - intros record zoneName Hempty. unfold Standalone.recordToProperties.
    cbn [Standalone.Comment]. now rewrite Hempty.
  - intros record zoneName. unfold Standalone.recordToProperties.
    cbn [Standalone.Priority]. now destruct (cloudflare.Priority record).
Qed.

(** C10, as stated, fails for the self-contained plugin: a mail exchanger
    the provider reports with priority 0 is reported with priority 0. *)
Lemma recordToProperties_keeps_priority_0 :
  cloudflare.Priority FakeZoneV0.mx_0 = Some 0%Z
  /\ Standalone.Priority (Standalone.recordToProperties FakeZoneV0.mx_0 "example.com")
     = Some 0%Z.
Proof. split; reflexivity. Qed.

Lemma Read_MX_priority_0_witness :
  exists doc,
    Properties (fst (fst (Plugin.Read FakeZone.api FakeZone.read_rec_0
                                      (FakeZone.world FakeZone.zone_with_mx_0)))) = Some doc
    /\ json_get "record_type" doc = Some (JString "MX")
    /\ json_get "priority" doc = None
    /\ json_get "comment" doc = None.
Proof.
  destruct (proj1 (proj2 zero_priority_and_empty_comment_are_absent)
                  _ FakeZone.api FakeZone.read_rec_0
                  (FakeZone.world FakeZone.zone_with_mx_0)
                  {| Plugin.ZoneID := "zone-1" |} "test-token" _ _ _ _
                  eq_refl ltac:(discriminate) eq_refl ltac:(discriminate) eq_refl eq_refl)
    as (doc & Hdoc & Hprio & Hcomment).
  exists doc. split; [exact Hdoc |].
  split; [| split; [apply Hprio | apply Hcomment]; reflexivity].
  vm_compute in Hdoc. injection Hdoc as <-. reflexivity.
Defined.

(** A mail exchanger created with priority 0 and read back: the provider
    holds priority 0, the properties read back have no priority. *)
Example MX_priority_0_does_not_round_trip :
  let '(_, w1) :=
    Plugin.Create FakeZone.api FakeZone.create_mx_0 (FakeZone.world FakeZone.example_com) in
  let '((res, _), _) := Plugin.Read FakeZone.api FakeZone.read_rec_0 w1 in
  (dns.Priority <$> FakeZone.records (backend w1)) = [Finite (inject_Z 0)]
  /\ (json_get "record_type" <$> Properties res) = Some (Some (JString "MX"))
  /\ (json_get "name" <$> Properties res) = Some (Some (JString "@"))
  /\ (json_get "priority" <$> Properties res) = Some None
  /\ (json_get "comment" <$> Properties res) = Some None.
Proof. vm_compute. repeat split. Qed.

End AbsenceFacts.

(** ** The property codec: parsing *)

Module ParseFacts.
Import GoStrings GoNum GoErrors Json ParseSpec.

(** Case analysis on the field a key names: the key's folded form is
    compared with each tag in turn. *)
Ltac fold_tags :=
  change (foldName "record_type") with "record_type" in *;
  change (foldName "name") with "name" in *;
  change (foldName "content") with "content" in *;
  change (foldName "ttl") with "ttl" in *;
  change (foldName "proxied") with "proxied" in *;
  change (foldName "priority") with "priority" in *;
  change (foldName "comment") with "comment" in *.

Ltac by_key k :=
  unfold EqualFold in *; fold_tags;
  generalize dependent (foldName k); intros fk;
  destruct (String.eqb_spec fk "record_type") as [-> | ?];
  [ | destruct (String.eqb_spec fk "name") as [-> | ?];
  [ | destruct (String.eqb_spec fk "content") as [-> | ?];
  [ | destruct (String.eqb_spec fk "ttl") as [-> | ?];
  [ | destruct (String.eqb_spec fk "proxied") as [-> | ?];
  [ | destruct (String.eqb_spec fk "priority") as [-> | ?];
  [ | destruct (String.eqb_spec fk "comment") as [-> | ?] ]]]]]].

Lemma field_kind_fold (k tag : string) :
  EqualFold k tag = true -> field_kind k = field_kind tag.
Proof.
  unfold EqualFold. intros H. apply String.eqb_eq in H.
  unfold field_kind, EqualFold. now rewrite H.
Qed.

(** Decoding fails exactly on a member that does not fit. *)
Lemma decode_members_is_Err (kvs : list (string * json)) :
  forall p0 : Standalone.DNSRecordProperties,
    is_Err (decode_members Standalone.store_DNSRecordProperties kvs p0)
    = negb (forallb well_typed_member kvs).
Proof.
  induction kvs as [| [k v] rest IH]; intros p0; [reflexivity |].
  cbn [decode_members forallb].
  unfold Standalone.store_DNSRecordProperties, well_typed_member, field_kind.
  cbn [fst snd]. destruct p0 as [type name content ttl proxied priority comment].
  by_key k; cbn.
  all: try (destruct v; cbn; try reflexivity; try apply IH).
  all: try (destruct (in_int64 z); cbn; try reflexivity; apply IH).
Qed.

(** In an object whose members all fit, what is supplied for a field is a
    proper value of the field's type. *)
Lemma supplied_in_has_kind (tag : string) (kd : kind) (kvs : list (string * json)) (x : json) :
  field_kind tag = Some kd ->
  forallb well_typed_member kvs = true ->
  supplied_in tag kvs = Some x ->
  has_kind kd x = true /\ non_null x = true.
Proof.
  intros Hkind. induction kvs as [| [k v] rest IH]; [discriminate |].
  cbn [forallb supplied_in]. intros [Hfit Hrest]%andb_prop.
  destruct (supplied_in tag rest) as [y |].
  - intros [= ->]. now apply IH.
  - destruct (EqualFold k tag) eqn:Hk; cbn [andb]; [| discriminate].
    destruct (non_null v) eqn:Hv; [| discriminate].
    intros [= ->]. split; [| assumption].
    unfold well_typed_member in Hfit. cbn [fst snd] in Hfit.
    now rewrite (field_kind_fold k tag Hk), Hkind in Hfit.
Qed.

Lemma supplied_in_string (tag : string) (kvs : list (string * json)) :
  field_kind tag = Some KString ->
  forallb well_typed_member kvs = true ->
  supplied_in tag kvs = None \/ exists s, supplied_in tag kvs = Some (JString s).
Proof.
  intros Hkind Hfit. destruct (supplied_in tag kvs) as [x |] eqn:Hx; [right | now left].
  destruct (supplied_in_has_kind tag KString kvs x Hkind Hfit Hx) as [Hk Hn].
  destruct x; try discriminate. now exists s.
Qed.

Lemma last_in_has_kind (tag : string) (kd : kind) (kvs : list (string * json)) (x : json) :
  field_kind tag = Some kd ->
  forallb well_typed_member kvs = true ->
  last_in tag kvs = Some x ->
  has_kind kd x = true.
Proof.
  intros Hkind. induction kvs as [| [k v] rest IH]; [discriminate |].
  cbn [forallb last_in]. intros [Hfit Hrest]%andb_prop.
  destruct (last_in tag rest) as [y |].
  - intros [= ->]. now apply IH.
  - destruct (EqualFold k tag) eqn:Hk; [| discriminate].
    intros [= ->]. unfold well_typed_member in Hfit. cbn [fst snd] in Hfit.
    now rewrite (field_kind_fold k tag Hk), Hkind in Hfit.
Qed.

(** What storing one member does to the fields under study. *)
Lemma store_fields (k : string) (v : json) (p0 : Standalone.DNSRecordProperties) :
  let step := fun tag => if EqualFold k tag && non_null v then Some v else None in
  let p1 := match Standalone.store_DNSRecordProperties k v p0 with
            | Some (Ok p1) => p1
            | _ => p0
            end in
  is_Err (default (Ok p0) (Standalone.store_DNSRecordProperties k v p0)) = false ->
  Standalone.RecordType p1 = string_or (step "record_type") (Standalone.RecordType p0)
  /\ Standalone.Name p1 = string_or (step "name") (Standalone.Name p0)
  /\ Standalone.Content p1 = string_or (step "content") (Standalone.Content p0)
  /\ Standalone.TTL p1 = int_or (step "ttl") (Standalone.TTL p0)
  /\ Standalone.Proxied p1 = bool_or (step "proxied") (Standalone.Proxied p0)
  /\ Standalone.Priority p1
     = ptr_int_or (if EqualFold k "priority" then Some v else None) (Standalone.Priority p0)
  /\ Standalone.Comment p1
     = ptr_string_or (if EqualFold k "comment" then Some v else None) (Standalone.Comment p0).
Proof.
  unfold Standalone.store_DNSRecordProperties.
  destruct p0 as [type name content ttl proxied priority comment].
  by_key k; cbn.
  all: try (destruct v; cbn; try discriminate; repeat split; reflexivity).
  all: try (destruct v; cbn; try discriminate; try (destruct (in_int64 z)); cbn;
            try discriminate; repeat split; reflexivity).
Qed.

Lemma decode_members_fields (kvs : list (string * json)) :
  forall p0 p : Standalone.DNSRecordProperties,
    decode_members Standalone.store_DNSRecordProperties kvs p0 = Ok p ->
    Standalone.RecordType p = string_or (supplied_in "record_type" kvs) (Standalone.RecordType p0)
    /\ Standalone.Name p = string_or (supplied_in "name" kvs) (Standalone.Name p0)
    /\ Standalone.Content p = string_or (supplied_in "content" kvs) (Standalone.Content p0)
    /\ Standalone.TTL p = int_or (supplied_in "ttl" kvs) (Standalone.TTL p0)
    /\ Standalone.Proxied p = bool_or (supplied_in "proxied" kvs) (Standalone.Proxied p0)
    /\ Standalone.Priority p = ptr_int_or (last_in "priority" kvs) (Standalone.Priority p0)
    /\ Standalone.Comment p = ptr_string_or (last_in "comment" kvs) (Standalone.Comment p0).
Proof.
  induction kvs as [| [k v] rest IH]; intros p0 p.
  - intros [= <-]. repeat split; reflexivity.
  - intros Hdec.
    assert (Hfit : forallb well_typed_member rest = true).
    { pose proof (decode_members_is_Err ((k, v) :: rest) p0) as Herr.
      rewrite Hdec in Herr. cbn [is_Err forallb] in Herr.
      symmetry in Herr. apply negb_false_iff in Herr. now apply andb_prop in Herr. }
    cbn [decode_members] in Hdec. cbn [supplied_in last_in].
    pose proof (store_fields k v p0) as Hstep. cbv zeta in Hstep.
    destruct (Standalone.store_DNSRecordProperties k v p0) as [[p1 | e] |];
      [| discriminate |].
    all: destruct (Hstep eq_refl) as (S1 & S2 & S3 & S4 & S5 & S6 & S7); clear Hstep.
    all: destruct (IH _ _ Hdec) as (I1 & I2 & I3 & I4 & I5 & I6 & I7); clear IH.
    all: repeat split.
    all: match goal with
         | Hfit : forallb well_typed_member ?r = true
           |- context [supplied_in ?tag ?r] =>
             let Hs := fresh "Hs" in
             let x := fresh "x" in
             destruct (supplied_in tag r) as [x |] eqn:Hs;
             [ match goal with
               | |- _ = string_or _ _ =>
                   destruct (supplied_in_has_kind tag KString r x eq_refl Hfit Hs)
               | |- _ = int_or _ _ =>
                   destruct (supplied_in_has_kind tag KInt r x eq_refl Hfit Hs)
               | |- _ = bool_or _ _ =>
                   destruct (supplied_in_has_kind tag KBool r x eq_refl Hfit Hs)
               end;
               destruct x; try discriminate; cbn [string_or int_or bool_or] in *; congruence
             | cbn [string_or int_or bool_or] in *; congruence ]
         | Hfit : forallb well_typed_member ?r = true
           |- context [last_in ?tag ?r] =>
             let Hs := fresh "Hs" in
             let x := fresh "x" in
             destruct (last_in tag r) as [x |] eqn:Hs;
             [ match goal with
               | |- _ = ptr_string_or _ _ =>
                   pose proof (last_in_has_kind tag KString r x eq_refl Hfit Hs)
               | |- _ = ptr_int_or _ _ =>
                   pose proof (last_in_has_kind tag KInt r x eq_refl Hfit Hs)
               end;
               destruct x; try discriminate;
               cbn [ptr_string_or ptr_int_or] in *; congruence
             | cbn [ptr_string_or ptr_int_or] in *; congruence ]
         end.
Qed.

Lemma string_or_empty (o : option json) :
  (o = None \/ exists s, o = Some (JString s)) ->
  (string_or o "" = "" <-> o = None \/ o = Some (JString "")).
Proof.
  intros [-> | [s ->]]; cbn.
  - split; [now left | reflexivity].
  - split; [intros -> ; now right | intros [[=] | [= ->]]; reflexivity].
Qed.

(** C8, as amended: [parseProperties] returns an error exactly when the
    payload is not JSON, does not decode into the struct (it is neither an
    object nor [null], or a member named after a field carries a value
    other than [null] that does not fit the field: a value of another
    JSON type, or, for [ttl] and [priority], a number that is not an
    integer literal in the range of a Go [int], such as one with a
    fraction or an exponent), or supplies no value or the empty string for
    [record_type], [name] or [content]. On success the three required
    fields, a supplied [ttl], [proxied], [priority] and [comment] are kept
    as supplied, a [ttl] that is omitted is 1 and a [proxied] that is
    omitted is false. *)
Theorem parseProperties_amended (raw : RawMessage) :
  (is_Err (Standalone.parseProperties raw) = true
   <-> raw = None
       \/ exists doc, raw = Some doc
                      /\ (decodable doc = false
                          \/ absent_or_empty "record_type" doc
                          \/ absent_or_empty "name" doc
                          \/ absent_or_empty "content" doc))
  /\ (forall doc props,
         raw = Some doc -> Standalone.parseProperties raw = Ok props ->
         supplied "record_type" doc = Some (JString (Standalone.RecordType props))
         /\ supplied "name" doc = Some (JString (Standalone.Name props))
         /\ supplied "content" doc = Some (JString (Standalone.Content props))
         /\ (supplied "ttl" doc = None -> Standalone.TTL props = 1%Z)
         /\ (forall n, supplied "ttl" doc = Some (JInt n) -> Standalone.TTL props = n)
         /\ (supplied "proxied" doc = None -> Standalone.Proxied props = false)
         /\ (forall b, supplied "proxied" doc = Some (JBool b) ->
                       Standalone.Proxied props = b)
         /\ (forall n, last_member "priority" doc = Some (JInt n) ->
                       Standalone.Priority props = Some n)
         /\ (forall s, last_member "comment" doc = Some (JString s) ->
                       Standalone.Comment props = Some s)).
Proof.
  unfold Standalone.parseProperties, Unmarshal.
  destruct raw as [doc |].
  2: { split; [split; [now left | reflexivity] | discriminate]. }
  assert (Hsome : forall P : json -> Prop,
             (Some doc = None \/ exists d, Some doc = Some d /\ P d) <-> P doc).
  { intros P. split; [intros [[=] | (d & [= <-] & H)]; exact H | intros H; right; eauto]. }
  rewrite Hsome. clear Hsome.
  destruct doc as [| b | z | lit | s | items | kvs].
  1: { cbn. split; [split; [intros _; right; left; now left | reflexivity] | discriminate]. }
  1-5: (split; [split; [intros _; now left | reflexivity] | discriminate]).
  cbn [decodable supplied last_member].
  pose proof (decode_members_is_Err kvs Standalone.default_props) as Herr.
  pose proof (decode_members_fields kvs Standalone.default_props) as Hfields.
  destruct (decode_members Standalone.store_DNSRecordProperties kvs Standalone.default_props)
    as [p | e].
  2: { cbn [is_Err] in Herr. symmetry in Herr. apply negb_true_iff in Herr.
       split; [split; [intros _; now left | reflexivity] | discriminate]. }
  cbn [is_Err] in Herr. symmetry in Herr. apply negb_false_iff in Herr.
  destruct (Hfields p eq_refl) as (F1 & F2 & F3 & F4 & F5 & F6 & F7). clear Hfields.
  cbn [Standalone.default_props Standalone.RecordType Standalone.Name Standalone.Content
       Standalone.TTL Standalone.Proxied Standalone.Priority Standalone.Comment] in *.
  pose proof (supplied_in_string "record_type" kvs eq_refl Herr) as K1.
  pose proof (supplied_in_string "name" kvs eq_refl Herr) as K2.
  pose proof (supplied_in_string "content" kvs eq_refl Herr) as K3.
  pose proof (string_or_empty _ K1) as E1. rewrite <- F1 in E1.
  pose proof (string_or_empty _ K2) as E2. rewrite <- F2 in E2.
  pose proof (string_or_empty _ K3) as E3. rewrite <- F3 in E3.
  unfold absent_or_empty. cbn [supplied]. rewrite <- E1, <- E2, <- E3.
  split.
  - rewrite Herr.
    destruct (String.eqb_spec (Standalone.RecordType p) "");
      [split; [intros _; right; now left | reflexivity] |].
    destruct (String.eqb_spec (Standalone.Name p) "");
      [split; [intros _; right; right; now left | reflexivity] |].
    destruct (String.eqb_spec (Standalone.Content p) "");
      [split; [intros _; right; right; now right | reflexivity] |].
    split; [discriminate | intros [[=] | [? | [? | ?]]]; contradiction].
  - intros doc props [= <-].
    destruct (String.eqb_spec (Standalone.RecordType p) ""); [discriminate |].
    destruct (String.eqb_spec (Standalone.Name p) ""); [discriminate |].
    destruct (String.eqb_spec (Standalone.Content p) ""); [discriminate |].
    intros [= <-]. cbn [supplied last_member].
    repeat split.
    + destruct K1 as [K | [s K]]; rewrite K in *; cbn in F1; congruence.
    + destruct K2 as [K | [s K]]; rewrite K in *; cbn in F2; congruence.
    + destruct K3 as [K | [s K]]; rewrite K in *; cbn in F3; congruence.
    + intros H. now rewrite H in F4.
    + intros m H. now rewrite H in F4.
    + intros H. now rewrite H in F5.
    + intros b H. now rewrite H in F5.
    + intros m H. now rewrite H in F6.
    + intros s H. now rewrite H in F7.
Qed.

Lemma parseProperties_ARecord_witness :
  exists props,
    Standalone.parseProperties (Some test_a_record) = Ok props
    /\ Standalone.TTL props = 300%Z /\ Standalone.Proxied props = true.
Proof.
  eexists. split; [reflexivity |].
  destruct (proj2 (parseProperties_amended (Some test_a_record))
                  test_a_record _ eq_refl eq_refl)
    as (_ & _ & _ & _ & Httl & _ & Hproxied & _).
  split; [apply Httl | apply Hproxied]; reflexivity.
Defined.

(** C8, as stated, fails: a payload that is well-formed JSON and supplies
    the three required fields is rejected when its [ttl] is a string. *)
Lemma parseProperties_rejects_ttl_as_string :
  is_Err (Standalone.parseProperties (Some ttl_as_string)) = true
  /\ supplied "record_type" ttl_as_string = Some (JString "A")
  /\ supplied "name" ttl_as_string = Some (JString "www")
  /\ supplied "content" ttl_as_string = Some (JString "192.0.2.1")
  /\ ~ spec_parse_fails (Some ttl_as_string).
Proof.
  repeat split; try reflexivity.
  intros [[=] | (doc & [= <-] & [H | [H | H]])]; destruct H as [[=] | [=]].
Qed.

(** The unit tests of [parseProperties]. *)
Example TestParseProperties_ARecord :
  Standalone.parseProperties (Some test_a_record)
  = Ok {| Standalone.RecordType := "A"; Standalone.Name := "test.example.com";
          Standalone.Content := "192.0.2.1"; Standalone.TTL := 300;
          Standalone.Proxied := true; Standalone.Priority := None;
          Standalone.Comment := None |}.
Proof. reflexivity. Qed.

Example TestParseProperties_MXRecord :
  rmap Standalone.Priority (Standalone.parseProperties (Some test_mx_record))
  = Ok (Some 10%Z).
Proof. reflexivity. Qed.

Example TestParseProperties_DefaultValues :
  Standalone.parseProperties (Some test_defaults)
  = Ok {| Standalone.RecordType := "A"; Standalone.Name := "test.example.com";
          Standalone.Content := "192.0.2.1"; Standalone.TTL := 1;
          Standalone.Proxied := false; Standalone.Priority := None;
          Standalone.Comment := None |}.
Proof. reflexivity. Qed.

Example TestParseProperties_MissingName :
  Standalone.parseProperties (Some test_missing_name) = Err (ErrorString "name is required")
  /\ Standalone.parseProperties None
     = Err (WrapError "failed to parse properties: " SyntaxError).
Proof. split; reflexivity. Qed.

End ParseFacts.

(** ** More on suffixes *)

Module SuffixFacts.
Import GoStrings GoStringsFacts.

Lemma substring_split (s : string) (n : nat) :
  (n <= String.length s)%nat ->
  substring 0 n s ++ substring n (String.length s - n) s = s.
Proof.
  revert n. induction s as [|c s IH]; intros [|n] Hn; simpl in *; try lia.
  - reflexivity.
  - now rewrite substring_all.
  - change (String c (substring 0 n s ++ substring n (String.length s - n) s) = String c s).
    f_equal. apply IH. lia.
Qed.

Lemma HasSuffix_split (s suffix : string) :
  HasSuffix s suffix = true -> TrimSuffix s suffix ++ suffix = s.
Proof.
  intros H. unfold TrimSuffix. rewrite H. unfold HasSuffix in H.
  apply andb_true_iff in H as [Hlen Heq].
  apply Nat.leb_le in Hlen. apply String.eqb_eq in Heq.
  pose proof (substring_split s (String.length s - String.length suffix)) as Hsplit.
  replace (String.length s - (String.length s - String.length suffix))%nat
    with (String.length suffix) in Hsplit by lia.
  rewrite Heq in Hsplit.
  apply Hsplit. lia.
Qed.

End SuffixFacts.

(** ** The outcomes of the name normalizer *)

Module NormalizeCases.
Import GoStrings GoStringsFacts SuffixFacts.

(** X1: [NormalizeName] has exactly three outcomes: the apex name ["@"]
    when the FQDN is the zone domain; otherwise the prefix [p] when the
    FQDN reads [p ++ "." ++ zoneDomain]; otherwise, when the FQDN has no
    such reading, the FQDN unchanged. *)
Theorem NormalizeName_cases (fqdn zoneDomain : string) :
  (fqdn = zoneDomain /\ Cf.NormalizeName fqdn zoneDomain = "@")
  \/ (fqdn <> zoneDomain
      /\ fqdn = Cf.NormalizeName fqdn zoneDomain ++ "." ++ zoneDomain)
  \/ (fqdn <> zoneDomain
      /\ (forall p, fqdn <> p ++ "." ++ zoneDomain)
      /\ Cf.NormalizeName fqdn zoneDomain = fqdn).
Proof.
  unfold Cf.NormalizeName.
  destruct (String.eqb_spec fqdn zoneDomain) as [Heq | Hne]; [now left | right].
  destruct (HasSuffix fqdn ("." ++ zoneDomain)) eqn:Hsuf.
  - left. split; [exact Hne |]. symmetry. now apply HasSuffix_split.
  - right. repeat split; try assumption.
    intros p ->. now rewrite HasSuffix_append in Hsuf.
Qed.

(** X2: the short name ["@"] does not single out the apex: it is the answer
    for the zone domain itself, and also for the names ["@"] and
    ["@." ++ zoneDomain], and for no other name. *)
Theorem NormalizeName_apex_iff (fqdn zoneDomain : string) :
  Cf.NormalizeName fqdn zoneDomain = "@"
  <-> fqdn = zoneDomain \/ fqdn = "@" \/ fqdn = "@." ++ zoneDomain.
Proof.
  split.
  - intros H.
    destruct (NormalizeName_cases fqdn zoneDomain) as [[? _] | [[_ Hs] | (_ & _ & Hs)]].
    + now left.
    + right; right. now rewrite H in Hs.
    + right; left. congruence.
  - intros [-> | [-> | ->]].
    + unfold Cf.NormalizeName. now rewrite String.eqb_refl.
    + destruct (NormalizeName_cases "@" zoneDomain) as [[_ H] | [[_ Hs] | (_ & _ & Hs)]];
        try assumption.
      destruct (Cf.NormalizeName "@" zoneDomain) as [|c r]; [discriminate Hs |].
      apply (f_equal String.length) in Hs. simpl in Hs.
      rewrite length_append in Hs. simpl in Hs. lia.
    + change ("@." ++ zoneDomain) with ("@" ++ "." ++ zoneDomain).
      unfold Cf.NormalizeName.
      assert (Hne : "@" ++ "." ++ zoneDomain <> zoneDomain).
      { intros Heq. apply (f_equal String.length) in Heq.
        rewrite !length_append in Heq. simpl in Heq. lia. }
      apply String.eqb_neq in Hne. rewrite Hne.
      now rewrite HasSuffix_append, TrimSuffix_append.
Qed.
End NormalizeCases.

(** ** The error predicates *)

Module ClassifierFacts.
Import GoErrors resource.

Lemma MapErrorCode_Some (e : error) : Cf.MapErrorCode (Some e) <> NoErrorCode.
Proof.
  unfold Cf.MapErrorCode. destruct (As_cfError e) as [code|]; [| discriminate].
  repeat match goal with
         | |- context [(code =? ?n)%Z] => destruct (Z.eqb_spec code n)
         end; simpl; discriminate.
Qed.

Lemma IsNotFound_MapErrorCode (e : error) :
  Cf.IsNotFound (Some e) = true -> Cf.MapErrorCode (Some e) = OperationErrorCodeNotFound.
Proof.
  unfold Cf.IsNotFound, Cf.MapErrorCode. destruct (As_cfError e) as [code|]; [| discriminate].
  intros H. apply Z.eqb_eq in H. now subst code.
Qed.

(** X3: the predicates agree with the classifier: [IsNotFound] holds
    exactly for the errors classified as NotFound, [IsRateLimited] exactly
    for those classified as Throttling, and only the nil error gets the
    empty code. *)
Theorem classifier_and_predicates (err : option error) :
  (Cf.IsNotFound err = true <-> Cf.MapErrorCode err = OperationErrorCodeNotFound)
  /\ (Cf.IsRateLimited err = true <-> Cf.MapErrorCode err = OperationErrorCodeThrottling)
  /\ (err = None <-> Cf.MapErrorCode err = NoErrorCode).
Proof.
  destruct err as [e|].
  - pose proof (MapErrorCode_Some e) as Hne.
    unfold Cf.IsNotFound, Cf.IsRateLimited, Cf.MapErrorCode in *.
    destruct (As_cfError e) as [code|].
    + repeat match goal with
             | |- context [(code =? ?n)%Z] => destruct (Z.eqb_spec code n)
             end; simpl; repeat split; intros; try congruence; try lia.
    + repeat split; intros; congruence.
  - simpl. repeat split; intros; congruence.
Qed.

End ClassifierFacts.

(** ** The operations of the plugin over [pkg/cloudflare] *)

Module PluginFacts.
Import GoStrings GoNum GoErrors Json resource Run ClassifierFacts.

Lemma NewClient_cases {S : Type} (w : World Cf.ApiCall S) :
  (exists client, Cf.NewClient w = (Ok client, w))
  \/ (exists e, Cf.NewClient w = (Err e, w)).
Proof.
  unfold Cf.NewClient, bind, Getenv, ret.
  destruct (String.eqb (default "" (env w !! "CLOUDFLARE_API_TOKEN")) ""); eauto.
Qed.

(** X4: [Create], [Update] and [Delete] never return a Go error; their
    result is a success exactly when it carries no error code, and a
    failure names no record: its native identifier is empty and it has no
    properties. *)
Theorem failures_name_no_record {S : Type} (api : Cf.Api S) (w : World Cf.ApiCall S) :
  let consistent (r : ProgressResult * option error) :=
    snd r = None
    /\ (OperationStatus_ (fst r) = OperationStatusSuccess <-> ErrorCode (fst r) = NoErrorCode)
    /\ (OperationStatus_ (fst r) = OperationStatusFailure ->
        NativeID (fst r) = "" /\ ResourceProperties (fst r) = None) in
  (forall req, consistent (fst (Plugin.Create api req w)))
  /\ (forall req, consistent (fst (Plugin.Update api req w)))
  /\ (forall req, consistent (fst (Plugin.Delete api req w))).
Proof.
  intros consistent.
  assert (Hfail : forall op code msg, code <> NoErrorCode ->
                    consistent (Plugin.failure op code msg, None)).
  { intros op code msg Hcode. unfold consistent. simpl.
    repeat split; intros; congruence. }
  assert (Hsucc : forall op id props, consistent (Plugin.success op id props, None)).
  { intros op id props. unfold consistent. simpl.
    repeat split; intros; congruence. }
  split; [| split]; intros req.
  - unfold Plugin.Create.
    destruct (Unmarshal _ _ _) as [props | e]; [| now apply Hfail].
    unfold bind. destruct (NewClient_cases w) as [[client ->] | [e ->]];
      [| now apply Hfail].
    unfold Cf.CreateRecord. destruct (Cf.recordBody _) as [body | e].
    + unfold bind, call, ret.
      destruct (Cf.Records_New api client _ (backend w)) as [[resp | e] s'].
      * apply Hsucc.
      * apply Hfail, MapErrorCode_Some.
    + apply Hfail, MapErrorCode_Some.
  - unfold Plugin.Update.
    destruct (Unmarshal _ _ _) as [props | e]; [| now apply Hfail].
    unfold bind. destruct (NewClient_cases w) as [[client ->] | [e ->]];
      [| now apply Hfail].
    unfold Cf.UpdateRecord. destruct (Cf.recordBody _) as [body | e].
    + unfold bind, call, ret.
      destruct (Cf.Records_Update api client _ _ (backend w)) as [[resp | e] s'].
      * apply Hsucc.
      * apply Hfail, MapErrorCode_Some.
    + apply Hfail, MapErrorCode_Some.
  - unfold Plugin.Delete.
    destruct (Plugin.parseTargetConfig _) as [cfg | e]; [| now apply Hfail].
    destruct (String.eqb (Plugin.ZoneID cfg) ""); [now apply Hfail |].
    unfold bind. destruct (NewClient_cases w) as [[client ->] | [e ->]];
      [| now apply Hfail].
    unfold Cf.DeleteRecord, bind, call, ret.
    destruct (Cf.Records_Delete api client _ _ (backend w)) as [[[] | e] s'].
    + apply Hsucc.
    + destruct (Cf.IsNotFound (Some e)); [apply Hsucc | apply Hfail, MapErrorCode_Some].
Qed.

(** X5: each operation either leaves the world as it was or makes its
    provider calls and nothing else: one create call for [Create], one
    update call on the requested identifier for [Update], one delete call on
    it for [Delete], one list call for [List], and for [Read] the get call,
    followed by the zone lookup exactly when the get call answered with a
    record. The environment is never changed. *)
Theorem provider_calls_per_operation {S : Type} (api : Cf.Api S)
        (ParseFloat : string -> option float64) (w : World Cf.ApiCall S) :
  (forall req, let w' := snd (Plugin.Create api req w) in
     w' = w
     \/ env w' = env w
        /\ exists params, calls w' = (calls w ++ [Cf.CallRecordsNew params])%list)
  /\ (forall req, let w' := snd (Plugin.Update api req w) in
     w' = w
     \/ env w' = env w
        /\ exists params,
             calls w' = (calls w ++ [Cf.CallRecordsUpdate (update_NativeID req) params])%list)
  /\ (forall req, let w' := snd (Plugin.Delete api req w) in
     w' = w
     \/ env w' = env w
        /\ exists zoneID,
             calls w' = (calls w ++ [Cf.CallRecordsDelete (delete_NativeID req) zoneID])%list)
  /\ (forall req, let w' := snd (Plugin.Read api req w) in
     w' = w
     \/ env w' = env w
        /\ exists client zoneID r s1,
             Cf.Records_Get api client (read_NativeID req) zoneID (backend w) = (r, s1)
             /\ calls w'
                = (calls w
                   ++ match r with
                      | Err _ => [Cf.CallRecordsGet (read_NativeID req) zoneID]
                      | Ok _ => [Cf.CallRecordsGet (read_NativeID req) zoneID;
                                 Cf.CallZonesGet zoneID]
                      end)%list)
  /\ (forall req, let w' := snd (Plugin.List api ParseFloat req w) in
     w' = w
     \/ env w' = env w
        /\ exists params, calls w' = (calls w ++ [Cf.CallRecordsList params])%list).
Proof.
  split; [| split; [| split; [| split]]]; intros req w'; subst w'.
  - unfold Plugin.Create.
    destruct (Unmarshal _ _ _) as [props | e]; [| now left].
    unfold bind. destruct (NewClient_cases w) as [[client ->] | [e ->]]; [| now left].
    unfold Cf.CreateRecord. destruct (Cf.recordBody _) as [body | e]; [| now left].
    right. unfold bind, call, ret.
    destruct (Cf.Records_New api client _ (backend w)) as [[resp | e] s'];
      (split; [reflexivity | eexists; reflexivity]).
  - unfold Plugin.Update.
    destruct (Unmarshal _ _ _) as [props | e]; [| now left].
    unfold bind. destruct (NewClient_cases w) as [[client ->] | [e ->]]; [| now left].
    unfold Cf.UpdateRecord. destruct (Cf.recordBody _) as [body | e]; [| now left].
    right. unfold bind, call, ret.
    destruct (Cf.Records_Update api client _ _ (backend w)) as [[resp | e] s'];
      (split; [reflexivity | eexists; reflexivity]).
  - unfold Plugin.Delete.
    destruct (Plugin.parseTargetConfig _) as [cfg | e]; [| now left].
    destruct (String.eqb (Plugin.ZoneID cfg) ""); [now left |].
    unfold bind. destruct (NewClient_cases w) as [[client ->] | [e ->]]; [| now left].
    right. unfold Cf.DeleteRecord, bind, call, ret.
    destruct (Cf.Records_Delete api client _ _ (backend w)) as [[[] | e] s'];
      [| destruct (Cf.IsNotFound (Some e))];
      (split; [reflexivity | eexists; reflexivity]).
  - unfold Plugin.Read.
    destruct (Plugin.parseTargetConfig _) as [cfg | e]; [| now left].
    destruct (String.eqb (Plugin.ZoneID cfg) ""); [now left |].
    unfold bind. destruct (NewClient_cases w) as [[client ->] | [e ->]]; [| now left].
    right. unfold Cf.GetRecord, Cf.GetZoneDomain, bind, call, ret.
    destruct (Cf.Records_Get api client _ _ (backend w)) as [[resp | e] s1] eqn:Hget.
    + cbn [backend]. destruct (Cf.Zones_Get api client _ s1) as [[zoneDomain | e] s2];
        (split; [reflexivity |];
         eexists _, _, _, _; split; [exact Hget |];
         cbn [calls]; now rewrite <- app_assoc).
    + destruct (Cf.IsNotFound (Some e));
        (split; [reflexivity |];
         eexists _, _, _, _; split; [exact Hget | reflexivity]).
  - unfold Plugin.List.
    destruct (Plugin.parseTargetConfig _) as [cfg | e]; [| now left].
    destruct (String.eqb (Plugin.ZoneID cfg) ""); [now left |].
    unfold bind. destruct (NewClient_cases w) as [[client ->] | [e ->]]; [| now left].
    right. unfold Cf.ListRecords, bind, call, ret. cbv zeta.
    destruct (Cf.Records_List api client _ (backend w)) as [[resp | e] s'];
      (split; [reflexivity | eexists; reflexivity]).
Qed.

(** X6: when the provider's get call fails with an error [e], [Read]
    answers with the code [MapErrorCode] gives to [e], which is never the
    empty code and is NotFound for a 404, and with no properties, after
    that single call: the zone is not looked up. *)
Theorem Read_failure_code {S : Type} (api : Cf.Api S) (req : ReadRequest)
        (w : World Cf.ApiCall S) (cfg : Plugin.targetConfig) (token : string)
        (e : error) (s' : S) :
  Plugin.parseTargetConfig (read_TargetConfig req) = Ok cfg ->
  Plugin.ZoneID cfg <> "" ->
  env w !! "CLOUDFLARE_API_TOKEN" = Some token -> token <> "" ->
  Cf.Records_Get api {| Cf.api_token := token |} (read_NativeID req) (Plugin.ZoneID cfg)
                 (backend w) = (Err e, s') ->
  Plugin.Read api req w
  = (({| ResourceType := read_ResourceType req;
         read_ErrorCode := Cf.MapErrorCode (Some e);
         Properties := None |}, None),
     {| env := env w; backend := s';
        calls := calls w ++ [Cf.CallRecordsGet (read_NativeID req) (Plugin.ZoneID cfg)] |})
  /\ Cf.MapErrorCode (Some e) <> NoErrorCode
  /\ (As_cfError e = Some 404%Z ->
      read_ErrorCode (fst (fst (Plugin.Read api req w))) = OperationErrorCodeNotFound).
Proof.
  intros Hcfg Hzone Henv Htok Hget.
  assert (Hrun : Plugin.Read api req w
                 = (({| ResourceType := read_ResourceType req;
                        read_ErrorCode := Cf.MapErrorCode (Some e);
                        Properties := None |}, None),
                    {| env := env w; backend := s';
                       calls := calls w ++ [Cf.CallRecordsGet (read_NativeID req)
                                                              (Plugin.ZoneID cfg)] |})).
  { unfold Plugin.Read. rewrite Hcfg.
    apply String.eqb_neq in Hzone. rewrite Hzone.
    unfold bind at 1. rewrite (DeleteFacts.NewClient_ok w token Henv Htok).
    unfold Cf.GetRecord, bind, call, ret. rewrite Hget.
    destruct (Cf.IsNotFound (Some e)) eqn:Hnf; [| reflexivity].
    apply IsNotFound_MapErrorCode in Hnf. now rewrite Hnf. }
  split; [exact Hrun |]. split; [apply MapErrorCode_Some |].
  intros H404. rewrite Hrun. cbn [fst read_ErrorCode].
  unfold Cf.MapErrorCode. now rewrite H404.
Qed.

Lemma Read_failure_code_witness :
  Plugin.Read FakeZone.api FakeZone.read_rec_0 (FakeZone.world FakeZone.example_com)
  = (({| ResourceType := "CLOUDFLARE::DNS::Record";
         read_ErrorCode := OperationErrorCodeNotFound;
         Properties := None |}, None),
     {| env := env (FakeZone.world FakeZone.example_com);
        backend := FakeZone.example_com;
        calls := [Cf.CallRecordsGet "rec-0" "zone-1"] |}).
Proof.
  refine (proj1 (Read_failure_code FakeZone.api FakeZone.read_rec_0
                   (FakeZone.world FakeZone.example_com) {| Plugin.ZoneID := "zone-1" |}
                   "test-token" FakeZone.not_found FakeZone.example_com _ _ _ _ _));
    try reflexivity; discriminate.
Defined.





(** X9: for properties whose record type is none of A, AAAA, CNAME, TXT,
    MX and NS, [Create] and [Update] return a result whose status is
    Failure, whose code is InternalFailure and whose message is
    "unsupported record type: ..." followed by the type, with no native
    identifier and no properties, and leave the world as it was: the
    provider is not called. *)
Theorem unsupported_type_is_an_internal_failure {S : Type} (api : Cf.Api S)
        (w : World Cf.ApiCall S) (token : string) (props : Plugin.dnsRecordProperties) :
  env w !! "CLOUDFLARE_API_TOKEN" = Some token -> token <> "" ->
  Plugin.p_RecordType props ∉ ["A"; "AAAA"; "CNAME"; "TXT"; "MX"; "NS"] ->
  (forall req,
      Unmarshal Plugin.store_dnsRecordProperties (create_Properties req)
                Plugin.zero_dnsRecordProperties = Ok props ->
      Plugin.Create api req w
      = (({| Operation_ := OperationCreate; OperationStatus_ := OperationStatusFailure;
             ErrorCode := OperationErrorCodeInternalFailure;
             StatusMessage := "unsupported record type: " ++ Plugin.p_RecordType props;
             NativeID := ""; ResourceProperties := None |}, None),
         w))
  /\ (forall req,
         Unmarshal Plugin.store_dnsRecordProperties (update_DesiredProperties req)
                   Plugin.zero_dnsRecordProperties = Ok props ->
         Plugin.Update api req w
         = (({| Operation_ := OperationUpdate; OperationStatus_ := OperationStatusFailure;
                ErrorCode := OperationErrorCodeInternalFailure;
                StatusMessage := "unsupported record type: " ++ Plugin.p_RecordType props;
                NativeID := ""; ResourceProperties := None |}, None),
            w)).
Proof.
  intros Henv Htok Htype. split; intros req Hprops.
  - unfold Plugin.Create. rewrite Hprops.
    unfold bind. rewrite (DeleteFacts.NewClient_ok w token Henv Htok).
    unfold Cf.CreateRecord.
    rewrite ClientFacts.recordBody_unsupported by exact Htype. reflexivity.
  - unfold Plugin.Update. rewrite Hprops.
    unfold bind. rewrite (DeleteFacts.NewClient_ok w token Henv Htok).
    unfold Cf.UpdateRecord.
    rewrite ClientFacts.recordBody_unsupported by exact Htype. reflexivity.
Qed.

Lemma unsupported_type_witness :
  let w := FakeZone.world (FakeZone.zone_of 1) in
  Plugin.Create FakeZone.api FakeZone.create_caa w
  = (({| Operation_ := OperationCreate; OperationStatus_ := OperationStatusFailure;
         ErrorCode := OperationErrorCodeInternalFailure;
         StatusMessage := "unsupported record type: CAA";
         NativeID := ""; ResourceProperties := None |}, None), w)
  /\ Plugin.Update FakeZone.api FakeZone.update_caa w
     = (({| Operation_ := OperationUpdate; OperationStatus_ := OperationStatusFailure;
            ErrorCode := OperationErrorCodeInternalFailure;
            StatusMessage := "unsupported record type: CAA";
            NativeID := ""; ResourceProperties := None |}, None), w).
Proof.
  pose proof (unsupported_type_is_an_internal_failure
                FakeZone.api (FakeZone.world (FakeZone.zone_of 1)) "test-token"
                {| Plugin.p_ID := ""; Plugin.p_ZoneID := "zone-1"; Plugin.p_Name := "@";
                   Plugin.p_RecordType := "CAA";
                   Plugin.p_Content := "0 issue letsencrypt.org"; Plugin.p_TTL := 1;
                   Plugin.p_Proxied := false; Plugin.p_Comment := "";
                   Plugin.p_Priority := None |}) as H.
  destruct H as [Hcreate Hupdate]; try reflexivity; try discriminate.
  { cbn [Plugin.p_RecordType]. rewrite !not_elem_of_cons.
    repeat split; try discriminate. apply not_elem_of_nil. }
  split; [apply (Hcreate FakeZone.create_caa) | apply (Hupdate FakeZone.update_caa)];
    reflexivity.
Defined.

End PluginFacts.

(** ** The property codec's round trip *)

Module CodecFacts.
Import GoStrings GoNum GoErrors Json resource Run.

Lemma valid_coerce_from (s : string) :
  forall skip, Utf8.valid_from skip s = true -> Utf8.coerce_from skip s = s.
Proof.
  induction s as [|c s IH]; intros skip Hvalid; [reflexivity |].
  destruct skip as [|k].
  - cbn [Utf8.valid_from Utf8.coerce_from] in *.
    destruct (Utf8.rune_width (String c s)) as [n|]; [| discriminate].
    now rewrite IH.
  - cbn [Utf8.valid_from Utf8.coerce_from] in *. now rewrite IH.
Qed.

Lemma enc_string_valid (s : string) : Utf8.ValidString s = true -> enc_string s = JString s.
Proof. intros H. unfold enc_string, Utf8.coerce. now rewrite valid_coerce_from. Qed.

Lemma Unmarshal_Marshal (p : Standalone.DNSRecordProperties) :
  Utf8.ValidString (Standalone.RecordType p) = true ->
  Utf8.ValidString (Standalone.Name p) = true ->
  Utf8.ValidString (Standalone.Content p) = true ->
  (forall c, Standalone.Comment p = Some c -> Utf8.ValidString c = true) ->
  in_int64 (Standalone.TTL p) = true ->
  (forall n, Standalone.Priority p = Some n -> in_int64 n = true) ->
  exists doc,
    Standalone.propertiesToJSON p = Ok doc
    /\ Unmarshal Standalone.store_DNSRecordProperties (Some doc) Standalone.default_props
       = Ok p.
Proof.
  destruct p as [type name content ttl proxied priority comment]. simpl.
  intros Vtype Vname Vcontent Vcomment Httl Hpriority.
  unfold Standalone.propertiesToJSON, Standalone.Marshal_DNSRecordProperties. simpl.
  eexists. split; [reflexivity |].
  rewrite !enc_string_valid by assumption.
  destruct priority as [n|], comment as [c|]; simpl;
    rewrite ?Httl, ?(Hpriority _ eq_refl), ?(enc_string_valid _ (Vcomment _ eq_refl)); simpl;
    rewrite ?Httl, ?(Hpriority _ eq_refl); reflexivity.
Qed.

(** X10: [parseProperties] undoes [propertiesToJSON]: for properties whose
    strings are valid UTF-8 (and whose integers are Go integers), the
    encoded document parses back to the same properties, and it does so
    exactly when the record type, the name and the content are not empty. *)
Theorem parseProperties_propertiesToJSON (p : Standalone.DNSRecordProperties) :
  Utf8.ValidString (Standalone.RecordType p) = true ->
  Utf8.ValidString (Standalone.Name p) = true ->
  Utf8.ValidString (Standalone.Content p) = true ->
  (forall c, Standalone.Comment p = Some c -> Utf8.ValidString c = true) ->
  in_int64 (Standalone.TTL p) = true ->
  (forall n, Standalone.Priority p = Some n -> in_int64 n = true) ->
  exists doc,
    Standalone.propertiesToJSON p = Ok doc
    /\ (Standalone.parseProperties (Some doc) = Ok p
        <-> Standalone.RecordType p <> "" /\ Standalone.Name p <> ""
            /\ Standalone.Content p <> "").
Proof.
  intros Vtype Vname Vcontent Vcomment Httl Hpriority.
  destruct (Unmarshal_Marshal p Vtype Vname Vcontent Vcomment Httl Hpriority)
    as (doc & Hdoc & Hdec).
  exists doc. split; [exact Hdoc |].
  unfold Standalone.parseProperties. rewrite Hdec.
  destruct (String.eqb_spec (Standalone.RecordType p) "") as [Htype | Htype];
    [split; [discriminate | tauto] |].
  destruct (String.eqb_spec (Standalone.Name p) "") as [Hname | Hname];
    [split; [discriminate | tauto] |].
  destruct (String.eqb_spec (Standalone.Content p) "") as [Hcontent | Hcontent];
    [split; [discriminate | tauto] |].
  tauto.
Qed.

Lemma parseProperties_propertiesToJSON_witness :
  exists doc,
    Standalone.propertiesToJSON
      (ValidateSpec.test_props "MX" false (Some 10%Z)) = Ok doc
    /\ (Standalone.parseProperties (Some doc)
        = Ok (ValidateSpec.test_props "MX" false (Some 10%Z))
        <-> "MX" <> "" /\ "test.example.com" <> "" /\ "test-content" <> "").
Proof.
  apply (parseProperties_propertiesToJSON (ValidateSpec.test_props "MX" false (Some 10%Z)));
    try discriminate; try reflexivity.
  intros n [= <-]. reflexivity.
Defined.

End CodecFacts.

(** ** The operations of the self-contained plugin *)

Module StandaloneFacts.
Import GoStrings GoNum GoErrors Json resource Run GoStringsFacts.

Lemma Contains_append_l (pre s substr : string) :
  Contains s substr = true -> Contains (pre ++ s) substr = true.
Proof.
  intros H. induction pre as [|c pre IH]; [exact H |].
  change (String c pre ++ s) with (String c (pre ++ s)).
  cbn [Contains]. rewrite IH. apply orb_true_r.
Qed.

(** X11: [isNotFoundError] goes by the text of the error, so an error
    that it recognises is still recognised once wrapped with a prefix. *)
Theorem isNotFoundError_survives_wrapping (pre : string) (e : error) :
  Standalone.isNotFoundError (Some e) = true ->
  Standalone.isNotFoundError (Some (WrapError pre e)) = true.
Proof.
  unfold Standalone.isNotFoundError. cbn [Error].
  rewrite !orb_true_iff. intros [[H | H] | H];
    apply (Contains_append_l pre) in H; rewrite H; auto.
Qed.

Lemma isNotFoundError_wrapping_witness :
  Standalone.isNotFoundError
    (Some (WrapError "failed to delete: " (CfError 404 "HTTP status 404"))) = true.
Proof. apply isNotFoundError_survives_wrapping. reflexivity. Defined.

(** X12: with a valid target configuration [Delete] makes exactly one
    provider call, the delete of the requested record in the configured
    zone. Its result has the status Success and no error code when that
    call succeeds or fails with an error that [isNotFoundError] recognises;
    otherwise its status is Failure and its code InternalFailure, whatever
    the status of the error, and its message carries the error's text. *)
Theorem Standalone_Delete_outcome {S : Type} (api : Standalone.RecordApi S)
        (req : DeleteRequest) (w : World Standalone.RecordCall S)
        (config : Standalone.TargetConfig) (r : result unit) (s' : S) :
  Standalone.parseTargetConfig (delete_TargetConfig req) = Ok config ->
  Standalone.DeleteDNSRecord api {| cloudflare.APIToken := Standalone.APIToken config |}
                             (Standalone.ZoneID config) (delete_NativeID req) (backend w)
  = (r, s') ->
  let succeeded :=
    match r with
    | Ok _ => true
    | Err e => Standalone.isNotFoundError (Some e)
    end in
  snd (Standalone.Delete api req w)
  = {| env := env w; backend := s';
       calls := calls w ++ [Standalone.CallDeleteDNSRecord (Standalone.ZoneID config)
                                                           (delete_NativeID req)] |}
  /\ (succeeded = true ->
      fst (Standalone.Delete api req w)
      = ({| Operation_ := OperationDelete; OperationStatus_ := OperationStatusSuccess;
            ErrorCode := NoErrorCode; StatusMessage := ""; NativeID := "";
            ResourceProperties := None |}, None))
  /\ (forall e, r = Err e -> succeeded = false ->
      fst (Standalone.Delete api req w)
      = ({| Operation_ := OperationDelete; OperationStatus_ := OperationStatusFailure;
            ErrorCode := OperationErrorCodeInternalFailure;
            StatusMessage := "Failed to delete DNS record: " ++ Error e;
            NativeID := ""; ResourceProperties := None |}, None)).
Proof.
  intros Hcfg Hdel succeeded. subst succeeded.
  unfold Standalone.Delete. rewrite Hcfg.
  rewrite (ListFacts.createCloudflareClient_ok _ _ Hcfg).
  unfold bind, call, ret. rewrite Hdel.
  destruct r as [[] | e].
  - repeat split. intros e [=].
  - destruct (Standalone.isNotFoundError (Some e)) eqn:Hnf.
    + repeat split. intros _ _ [=].
    + repeat split; [discriminate |]. now intros e' [= <-] _.
Qed.

Lemma Standalone_Delete_witness :
  let w := FakeZoneV0.record_world FakeZoneV0.example_com in
  snd (Standalone.Delete FakeZoneV0.record_api FakeZoneV0.delete_rec_9 w)
  = {| env := ∅; backend := FakeZoneV0.example_com;
       calls := [Standalone.CallDeleteDNSRecord "zone-1" "rec-9"] |}
  /\ fst (Standalone.Delete FakeZoneV0.record_api FakeZoneV0.delete_rec_9 w)
     = ({| Operation_ := OperationDelete; OperationStatus_ := OperationStatusSuccess;
           ErrorCode := NoErrorCode; StatusMessage := ""; NativeID := "";
           ResourceProperties := None |}, None).
Proof.
  destruct (Standalone_Delete_outcome FakeZoneV0.record_api FakeZoneV0.delete_rec_9
              (FakeZoneV0.record_world FakeZoneV0.example_com)
              {| Standalone.APIToken := "test-token"; Standalone.ZoneID := "zone-1" |}
              (Err FakeZoneV0.not_found) FakeZoneV0.example_com eq_refl eq_refl)
    as (Hworld & Hsuccess & _).
  split; [exact Hworld | apply Hsuccess; reflexivity].
Defined.

(** X13: the results of the self-contained plugin's [Create], [Update] and
    [Delete]: never a Go error, never properties; a success has no error
    code, a failure names no record and has the code InvalidRequest or
    InternalFailure; an InvalidRequest failure left the world as it was (no
    provider call was made); a successful [Update] answers with the
    requested identifier. *)
Theorem Standalone_results {S : Type} (api : Standalone.Api S)
        (record_api : Standalone.RecordApi S)
        (w : World Standalone.ApiCall S) (rw : World Standalone.RecordCall S) :
  let classified (res : ProgressResult) (no_call : Prop) :=
    ResourceProperties res = None
    /\ (OperationStatus_ res = OperationStatusSuccess /\ ErrorCode res = NoErrorCode
        \/ OperationStatus_ res = OperationStatusFailure /\ NativeID res = ""
           /\ (ErrorCode res = OperationErrorCodeInvalidRequest /\ no_call
               \/ ErrorCode res = OperationErrorCodeInternalFailure)) in
  (forall req,
      snd (fst (Standalone.Create api req w)) = None
      /\ classified (fst (fst (Standalone.Create api req w)))
                    (snd (Standalone.Create api req w) = w))
  /\ (forall req,
         snd (fst (Standalone.Update record_api req rw)) = None
         /\ classified (fst (fst (Standalone.Update record_api req rw)))
                       (snd (Standalone.Update record_api req rw) = rw)
         /\ (OperationStatus_ (fst (fst (Standalone.Update record_api req rw)))
             = OperationStatusSuccess ->
             NativeID (fst (fst (Standalone.Update record_api req rw)))
             = update_NativeID req))
  /\ (forall req,
         snd (fst (Standalone.Delete record_api req rw)) = None
         /\ classified (fst (fst (Standalone.Delete record_api req rw)))
                       (snd (Standalone.Delete record_api req rw) = rw)).
Proof.
  intros classified. unfold classified.
  split; [| split]; intros req.
  - unfold Standalone.Create.
    destruct (Standalone.parseTargetConfig _) as [config | e]; [| simpl; tauto].
    destruct (Standalone.parseProperties _) as [props | e]; [| simpl; tauto].
    destruct (Standalone.validateProperties props) as [e |]; [simpl; tauto |].
    destruct (Standalone.createCloudflareClient config) as [client | e]; [| simpl; tauto].
    unfold bind, call, ret.
    destruct (Standalone.CreateDNSRecord api client _ _ (backend w)) as [[record | e] s'];
      simpl; tauto.
  - unfold Standalone.Update.
    destruct (Standalone.parseTargetConfig _) as [config | e];
      [| simpl; intuition congruence].
    destruct (Standalone.parseProperties _) as [props | e];
      [| simpl; intuition congruence].
    destruct (Standalone.validateProperties props) as [e |];
      [simpl; intuition congruence |].
    destruct (Standalone.createCloudflareClient config) as [client | e];
      [| simpl; intuition congruence].
    unfold bind, call, ret.
    destruct (Standalone.UpdateDNSRecord record_api client _ _ (backend rw))
      as [[record | e] s']; simpl; intuition congruence.
  - unfold Standalone.Delete.
    destruct (Standalone.parseTargetConfig _) as [config | e]; [| simpl; tauto].
    destruct (Standalone.createCloudflareClient config) as [client | e]; [| simpl; tauto].
    unfold bind, call, ret.
    destruct (Standalone.DeleteDNSRecord record_api client _ _ (backend rw))
      as [[[] | e] s']; [simpl; tauto |].
    destruct (Standalone.isNotFoundError (Some e)); simpl; tauto.
Qed.

(** X14: the priority reaches the provider reduced modulo 65536, in
    [propsToCreateParams] and [propsToUpdateParams] alike: it is sent
    unchanged exactly when it lies between 0 and 65535. *)
Theorem priority_is_sent_modulo_65536 (props : Standalone.DNSRecordProperties)
        (p : Z) (recordID : string) :
  Standalone.Priority props = Some p ->
  exists q,
    cloudflare.create_Priority (Standalone.propsToCreateParams props) = Some q
    /\ cloudflare.update_Priority (Standalone.propsToUpdateParams props recordID) = Some q
    /\ (0 <= q < 65536)%Z
    /\ (q = p <-> (0 <= p < 65536)%Z)
    /\ exists k, (p = q + 65536 * k)%Z.
Proof.
  intros Hp. exists (uint16 p).
  unfold Standalone.propsToCreateParams, Standalone.propsToUpdateParams. simpl.
  rewrite Hp. unfold uint16. change (2 ^ 16)%Z with 65536%Z.
  pose proof (Z.mod_pos_bound p 65536 ltac:(lia)) as Hbound.
  pose proof (Z.div_mod p 65536 ltac:(lia)) as Hdiv.
  split; [reflexivity |]. split; [reflexivity |]. split; [exact Hbound |]. split.
  - split; [intros <-; exact Hbound | intros Hrange; now apply Z.mod_small].
  - exists (p / 65536)%Z. lia.
Qed.

Lemma priority_witness :
  exists q,
    cloudflare.create_Priority
      (Standalone.propsToCreateParams (ValidateSpec.test_props "MX" false (Some 65546%Z)))
    = Some q
    /\ cloudflare.update_Priority
         (Standalone.propsToUpdateParams (ValidateSpec.test_props "MX" false (Some 65546%Z))
                                         "rec-0") = Some q
    /\ (0 <= q < 65536)%Z
    /\ (q = 65546%Z <-> (0 <= 65546 < 65536)%Z)
    /\ exists k, (65546 = q + 65536 * k)%Z.
Proof.
  apply (priority_is_sent_modulo_65536
           (ValidateSpec.test_props "MX" false (Some 65546%Z)) 65546 "rec-0").
  reflexivity.
Defined.

(** X15: for a non-empty zone name, [recordToProperties] and
    [NormalizeName] shorten a provider name the same way, except for the
    name [zone ++ "." ++ zone] (which the former takes for the apex) in a
    zone not called ["@"]. *)
Theorem recordToProperties_name_vs_NormalizeName (record : cloudflare.DNSRecord)
        (zoneName : string) :
  zoneName <> "" ->
  (Standalone.Name (Standalone.recordToProperties record zoneName)
   = Cf.NormalizeName (cloudflare.Name record) zoneName
   <-> cloudflare.Name record <> zoneName ++ "." ++ zoneName \/ zoneName = "@").
Proof.
  intros Hzone. unfold Standalone.recordToProperties, Cf.NormalizeName.
  cbn [Standalone.Name].
  apply String.eqb_neq in Hzone. rewrite Hzone. cbn [negb].
  set (fqdn := cloudflare.Name record).
  destruct (String.eqb_spec fqdn zoneName) as [Heq | Hne].
  - (* the apex *)
    assert (Hsuf : HasSuffix fqdn ("." ++ zoneName) = false).
    { unfold HasSuffix. rewrite Heq.
      assert (Hlen : (String.length ("." ++ zoneName) <=? String.length zoneName)%nat
                     = false).
      { apply Nat.leb_gt. rewrite length_append. simpl. lia. }
      now rewrite Hlen. }
    unfold TrimSuffix. rewrite Hsuf, Heq, String.eqb_refl.
    split; [| reflexivity]. intros _. left. intros Hbad.
    apply (f_equal String.length) in Hbad. rewrite !length_append in Hbad.
    simpl in Hbad. lia.
  - destruct (HasSuffix fqdn ("." ++ zoneName)) eqn:Hsuf.
    + pose proof (SuffixFacts.HasSuffix_split _ _ Hsuf) as Hsplit.
      destruct (String.eqb_spec (TrimSuffix fqdn ("." ++ zoneName)) zoneName)
        as [Htrim | Htrim].
      * rewrite Htrim in Hsplit |- *. split.
        -- intros <-. now right.
        -- intros [Hbad | ->]; [now rewrite Hsplit in Hbad | reflexivity].
      * split; [| reflexivity]. intros _. left. intros Hbad.
        apply Htrim. rewrite Hbad. apply TrimSuffix_append.
    + unfold TrimSuffix. rewrite Hsuf.
      apply String.eqb_neq in Hne. rewrite Hne.
      split; [| reflexivity]. intros _. left. intros Hbad.
      rewrite Hbad, HasSuffix_append in Hsuf. discriminate.
Qed.

Lemma recordToProperties_name_witness :
  Standalone.Name (Standalone.recordToProperties (FakeZoneV0.host 0) "example.com")
  = Cf.NormalizeName (cloudflare.Name (FakeZoneV0.host 0)) "example.com"
  <-> cloudflare.Name (FakeZoneV0.host 0) <> "example.com" ++ "." ++ "example.com"
      \/ "example.com" = "@".
Proof.
  apply (recordToProperties_name_vs_NormalizeName (FakeZoneV0.host 0) "example.com").
  discriminate.
Defined.

(** X16: a [Read] of the self-contained plugin that finds the record
    looks up the zone, then the record, and returns the encoding of
    [recordToProperties]; that document parses back with [parseProperties]
    to those properties exactly when record type, short name and content
    are not empty. *)
Theorem Standalone_Read_output_parses {S : Type} (api : Standalone.RecordApi S)
        (req : ReadRequest) (w : World Standalone.RecordCall S)
        (config : Standalone.TargetConfig) (zone : cloudflare.Zone) (s1 : S)
        (record : cloudflare.DNSRecord) (s2 : S) :
  let client := {| cloudflare.APIToken := Standalone.APIToken config |} in
  let props := Standalone.recordToProperties record (cloudflare.zone_Name zone) in
  Standalone.parseTargetConfig (read_TargetConfig req) = Ok config ->
  Standalone.ZoneDetails api client (Standalone.ZoneID config) (backend w) = (Ok zone, s1) ->
  Standalone.GetDNSRecord api client (Standalone.ZoneID config) (read_NativeID req) s1
  = (Ok record, s2) ->
  Utf8.ValidString (Standalone.RecordType props) = true ->
  Utf8.ValidString (Standalone.Name props) = true ->
  Utf8.ValidString (Standalone.Content props) = true ->
  Utf8.ValidString (cloudflare.Comment record) = true ->
  in_int64 (Standalone.TTL props) = true ->
  (forall n, Standalone.Priority props = Some n -> in_int64 n = true) ->
  exists doc,
    Standalone.Read api req w
    = (({| ResourceType := read_ResourceType req; read_ErrorCode := NoErrorCode;
           Properties := Some doc |}, None),
       {| env := env w; backend := s2;
          calls := calls w ++ [Standalone.CallZoneDetails (Standalone.ZoneID config);
                               Standalone.CallGetDNSRecord (Standalone.ZoneID config)
                                                           (read_NativeID req)] |})
    /\ (Standalone.parseProperties (Some doc) = Ok props
        <-> Standalone.RecordType props <> "" /\ Standalone.Name props <> ""
            /\ Standalone.Content props <> "").
Proof.
  intros client props Hcfg Hzone Hget Vtype Vname Vcontent Vcomment Httl Hpriority.
  assert (Vc : forall c, Standalone.Comment props = Some c -> Utf8.ValidString c = true).
  { intros c. unfold props, Standalone.recordToProperties. cbn [Standalone.Comment].
    destruct (negb _); [now intros [= <-] | discriminate]. }
  destruct (CodecFacts.Unmarshal_Marshal props Vtype Vname Vcontent Vc Httl Hpriority)
    as (doc & Hdoc & Hdec).
  exists doc. split.
  - unfold Standalone.Read. rewrite Hcfg.
    rewrite (ListFacts.createCloudflareClient_ok _ _ Hcfg).
    unfold Standalone.getZoneName, bind, call, ret. fold client. rewrite Hzone.
    cbn [backend]. rewrite Hget. fold props. rewrite Hdoc.
    cbn [env calls]. now rewrite <- app_assoc.
  - unfold Standalone.parseProperties. rewrite Hdec.
    destruct (String.eqb_spec (Standalone.RecordType props) "") as [Ht | Ht];
      [split; [discriminate | tauto] |].
    destruct (String.eqb_spec (Standalone.Name props) "") as [Hn | Hn];
      [split; [discriminate | tauto] |].
    destruct (String.eqb_spec (Standalone.Content props) "") as [Hc | Hc];
      [split; [discriminate | tauto] |].
    tauto.
Qed.

Lemma Standalone_Read_witness :
  exists doc,
    Standalone.Read FakeZoneV0.record_api FakeZoneV0.read_rec_0 (FakeZoneV0.record_world (FakeZoneV0.zone_of 1))
    = (({| ResourceType := "CLOUDFLARE::DNS::Record"; read_ErrorCode := NoErrorCode;
           Properties := Some doc |}, None),
       {| env := ∅; backend := FakeZoneV0.zone_of 1;
          calls := [Standalone.CallZoneDetails "zone-1";
                    Standalone.CallGetDNSRecord "zone-1" "rec-0"] |})
    /\ (Standalone.parseProperties (Some doc)
        = Ok (Standalone.recordToProperties (FakeZoneV0.host 0) "example.com")
        <-> "A" <> "" /\ "h0" <> "" /\ "192.0.2.1" <> "").
Proof.
  apply (Standalone_Read_output_parses FakeZoneV0.record_api FakeZoneV0.read_rec_0
           (FakeZoneV0.record_world (FakeZoneV0.zone_of 1))
           {| Standalone.APIToken := "test-token"; Standalone.ZoneID := "zone-1" |}
           {| cloudflare.zone_Name := "example.com" |} (FakeZoneV0.zone_of 1)
           (FakeZoneV0.host 0) (FakeZoneV0.zone_of 1)); try reflexivity.
  discriminate.
Defined.

(** X17: both [Read] operations never return a Go error, echo the
    requested resource type, and carry properties exactly when the error
    code is empty; the self-contained one knows only the codes
    InvalidRequest, NotFound and InternalFailure. *)
Theorem Read_result_shape {S : Type} (api : Cf.Api S) (record_api : Standalone.RecordApi S)
        (req : ReadRequest) (w : World Cf.ApiCall S) (rw : World Standalone.RecordCall S) :
  let shaped (r : ReadResult * option error) :=
    snd r = None
    /\ ResourceType (fst r) = read_ResourceType req
    /\ (Properties (fst r) = None <-> read_ErrorCode (fst r) <> NoErrorCode) in
  shaped (fst (Plugin.Read api req w))
  /\ shaped (fst (Standalone.Read record_api req rw))
  /\ read_ErrorCode (fst (fst (Standalone.Read record_api req rw)))
     ∈ [NoErrorCode; OperationErrorCodeInvalidRequest; OperationErrorCodeNotFound;
        OperationErrorCodeInternalFailure].
Proof.
  intros shaped.
  assert (Hfail : forall code, code <> NoErrorCode ->
                    shaped (Plugin.read_failure req code, None)).
  { intros code Hcode. unfold shaped. simpl. intuition congruence. }
  assert (Hfail' : forall code, code <> NoErrorCode ->
                     shaped (Standalone.read_failure req code, None))
    by exact Hfail.
  split; [| split].
  - unfold Plugin.Read.
    destruct (Plugin.parseTargetConfig _) as [cfg | e]; [| now apply Hfail].
    destruct (String.eqb (Plugin.ZoneID cfg) ""); [now apply Hfail |].
    unfold bind. destruct (PluginFacts.NewClient_cases w) as [[client ->] | [e ->]];
      [| now apply Hfail].
    unfold Cf.GetRecord, Cf.GetZoneDomain, bind, call, ret.
    destruct (Cf.Records_Get api client _ _ (backend w)) as [[resp | e] s1].
    + cbn [backend]. destruct (Cf.Zones_Get api client _ s1) as [[zoneDomain | e] s2].
      * unfold shaped. simpl. intuition congruence.
      * apply Hfail, ClassifierFacts.MapErrorCode_Some.
    + destruct (Cf.IsNotFound (Some e));
        [now apply Hfail | apply Hfail, ClassifierFacts.MapErrorCode_Some].
  - unfold Standalone.Read.
    destruct (Standalone.parseTargetConfig _) as [config | e]; [| now apply Hfail'].
    destruct (Standalone.createCloudflareClient config) as [client | e];
      [| now apply Hfail'].
    unfold Standalone.getZoneName, bind, call, ret.
    destruct (Standalone.ZoneDetails record_api client _ (backend rw)) as [[zone | e] s1];
      [| now apply Hfail'].
    cbn [backend].
    destruct (Standalone.GetDNSRecord record_api client _ _ s1) as [[record | e] s2].
    + unfold shaped. simpl. intuition congruence.
    + destruct (Standalone.isNotFoundError (Some e)); now apply Hfail'.
  - unfold Standalone.Read. rewrite !elem_of_cons.
    destruct (Standalone.parseTargetConfig _) as [config | e]; [| simpl; tauto].
    destruct (Standalone.createCloudflareClient config) as [client | e]; [| simpl; tauto].
    unfold Standalone.getZoneName, bind, call, ret.
    destruct (Standalone.ZoneDetails record_api client _ (backend rw)) as [[zone | e] s1];
      [| simpl; tauto].
    cbn [backend].
    destruct (Standalone.GetDNSRecord record_api client _ _ s1) as [[record | e] s2];
      [simpl; tauto |].
    destruct (Standalone.isNotFoundError (Some e)); simpl; tauto.
Qed.

End StandaloneFacts.

(** ** Numbers that survive their conversions *)

Module NumFacts.
Import GoNum.

Lemma round53_small (z : Z) : (Z.abs z < 2 ^ 53)%Z -> round53 z = z.
Proof.
  intros Hz. unfold round53.
  assert (He : (Z.log2 (Z.abs z) - 52 <= 0)%Z).
  { destruct (Z.eq_dec (Z.abs z) 0%Z) as [-> | Hnz]; [simpl; lia |].
    assert (Hlog : (Z.log2 (Z.abs z) < 53)%Z) by (apply Z.log2_lt_pow2; lia).
    lia. }
  apply Z.leb_le in He. now rewrite He.
Qed.

Lemma int64_of_float64_inject (z : Z) :
  in_int64 z = true -> int64_of_float64 (Finite (inject_Z z)) = z.
Proof.
  intros Hz. unfold int64_of_float64.
  rewrite Qfloor_Z, Qceiling_Z. destruct (Qle_bool 0 (inject_Z z)); now rewrite Hz.
Qed.

Lemma int64_of_float64_of_int (z : Z) :
  (Z.abs z < 2 ^ 53)%Z -> int64_of_float64 (float64_of_int z) = z.
Proof.
  intros Hz. unfold float64_of_int. rewrite round53_small by exact Hz.
  apply int64_of_float64_inject. unfold in_int64.
  apply andb_true_iff. split; [apply Z.leb_le | apply Z.ltb_lt]; lia.
Qed.

Lemma int_of_string_FormatInt (z : Z) :
  NilZero.int_of_string (FormatInt z) = Some (Z.to_int z).
Proof.
  unfold FormatInt. apply NilZero.isi.
  - destruct z as [|p|p]; simpl; try discriminate.
    intros [= H]. now apply DecimalPos.Unsigned.to_uint_nonnil in H.
  - destruct z as [|p|p]; simpl; try discriminate.
    intros [= H]. now apply DecimalPos.Unsigned.to_uint_nonnil in H.
Qed.

Lemma ParseDecimal_FormatInt (z : Z) :
  (Z.abs z < 2 ^ 53)%Z -> ParseDecimal (FormatInt z) = Some (float64_of_int z).
Proof.
  intros Hz. unfold ParseDecimal. rewrite int_of_string_FormatInt, DecimalZ.of_to.
  rewrite round53_small by exact Hz.
  assert (Hlt : (Z.abs z <? 2 ^ 1024)%Z = true).
  { apply Z.ltb_lt. apply Z.lt_trans with (2 ^ 53)%Z; [exact Hz |].
    apply Z.pow_lt_mono_r; lia. }
  rewrite Hlt. unfold float64_of_int. now rewrite round53_small.
Qed.

Lemma ScanDecimal_FormatInt (z : Z) :
  in_int64 z = true -> ScanDecimal (FormatInt z) = Some z.
Proof.
  intros Hz. unfold ScanDecimal. rewrite int_of_string_FormatInt, DecimalZ.of_to.
  now rewrite Hz.
Qed.

End NumFacts.

(** ** Page tokens and TTLs *)

Module PagingFacts.
Import GoStrings GoNum GoErrors Json resource Run NumFacts.

Lemma FormatInt_nonempty (z : Z) : FormatInt z <> "".
Proof.
  intros H. pose proof (int_of_string_FormatInt z) as Hz. rewrite H in Hz. discriminate.
Qed.

Lemma int64_small (z : Z) : in_int64 z = true -> int64 z = z.
Proof.
  unfold in_int64, int64, wrap_signed. intros H.
  apply andb_true_iff in H as [Hlo Hhi]. apply Z.leb_le in Hlo. apply Z.ltb_lt in Hhi.
  change (2 ^ (64 - 1))%Z with (2 ^ 63)%Z.
  rewrite Z.mod_small; [lia |]. change (2 ^ 64)%Z with (2 * 2 ^ 63)%Z. lia.
Qed.

(** X18: the token [ListRecords] returns is followed: it is the decimal
    of the provider's page number plus one, and a call with that token asks
    the provider for exactly that page, with the same page size. *)
Theorem ListRecords_follows_its_token {S : Type} (api : Cf.Api S) (c : Cf.Client)
        (zoneID : string) (pageToken : option string) (pageSize : Z)
        (w : World Cf.ApiCall S) (records : list Cf.DNSRecord) (token : string) :
  fst (Cf.ListRecords api ParseDecimal c zoneID pageToken pageSize w)
  = Ok (records, Some token) ->
  exists params resp s',
    Cf.Records_List api c params (backend w) = (Ok resp, s')
    /\ token = FormatInt (int64 (dns.ResultInfo_Page resp + 1))
    /\ ((0 <= dns.ResultInfo_Page resp < 2 ^ 53 - 1)%Z ->
        forall w2 : World Cf.ApiCall S,
          calls (snd (Cf.ListRecords api ParseDecimal c zoneID (Some token) pageSize w2))
          = (calls w2
             ++ [Cf.CallRecordsList
                   {| dns.list_ZoneID := zoneID;
                      dns.PerPage := dns.PerPage params;
                      dns.Page := Some (float64_of_int (dns.ResultInfo_Page resp + 1)) |}])%list).
Proof.
  intros Hrun.
  destruct (ListFacts.ListRecords_success api ParseDecimal c zoneID pageToken pageSize w
              records (Some token) Hrun) as (params & resp & s' & Hlist & _ & Hper & _ & Hnext).
  exists params, resp, s'. split; [exact Hlist |].
  assert (Htoken : token = FormatInt (int64 (dns.ResultInfo_Page resp + 1))).
  { destruct (_ =? _)%Z in Hnext; [congruence | discriminate]. }
  split; [exact Htoken |].
  intros Hpage w2.
  assert (Hin : in_int64 (dns.ResultInfo_Page resp + 1) = true).
  { unfold in_int64. apply andb_true_iff.
    assert (2 ^ 53 < 2 ^ 63)%Z by (apply Z.pow_lt_mono_r; lia).
    split; [apply Z.leb_le | apply Z.ltb_lt]; lia. }
  rewrite int64_small in Htoken by exact Hin.
  unfold Cf.ListRecords, bind, call, ret. cbv zeta.
  assert (Hne : String.eqb token "" = false).
  { apply String.eqb_neq. rewrite Htoken. apply FormatInt_nonempty. }
  rewrite Hne. cbn [negb].
  rewrite Htoken, ParseDecimal_FormatInt by lia.
  assert (Hge : float64_ge_1 (float64_of_int (dns.ResultInfo_Page resp + 1)) = true).
  { unfold float64_of_int. rewrite round53_small by lia.
    unfold float64_ge_1, Qle_bool. simpl. apply Z.leb_le. lia. }
  rewrite Hge. rewrite Hper.
  now destruct (Cf.Records_List api c _ (backend w2)) as [[resp2 | e] s2].
Qed.

Lemma ListRecords_token_witness :
  exists params resp s',
    Cf.Records_List FakeZone.api FakeZone.client params (FakeZone.zone_of 3) = (Ok resp, s')
    /\ "2" = FormatInt (int64 (dns.ResultInfo_Page resp + 1))
    /\ ((0 <= dns.ResultInfo_Page resp < 2 ^ 53 - 1)%Z ->
        forall w2 : World Cf.ApiCall FakeZone.State,
          calls (snd (Cf.ListRecords FakeZone.api ParseDecimal FakeZone.client "zone-1"
                                     (Some "2") 2 w2))
          = (calls w2
             ++ [Cf.CallRecordsList
                   {| dns.list_ZoneID := "zone-1";
                      dns.PerPage := dns.PerPage params;
                      dns.Page := Some (float64_of_int (dns.ResultInfo_Page resp + 1)) |}])%list).
Proof.
  apply (ListRecords_follows_its_token FakeZone.api FakeZone.client "zone-1" None 2
           (FakeZone.world (FakeZone.zone_of 3))
           (map (fun r => Cf.recordFromListItem r "zone-1")
                [FakeZone.host 0; FakeZone.host 1])
           "2").
  reflexivity.
Defined.

(** X19: a TTL below 2^53 in absolute value survives the conversions to
    [float64] (in the request body) and back (in [recordFromResponse] and
    [recordFromListItem]) when the provider answers with the TTL it was
    sent. *)
Theorem ttl_survives_the_float64_conversions (record : Cf.DNSRecord) (body : dns.RecordBody)
        (resp : dns.RecordResponse) (zoneID : string) :
  Cf.recordBody record = Ok body ->
  dns.TTL resp = dns.body_TTL body ->
  (Z.abs (Cf.TTL record) < 2 ^ 53)%Z ->
  Cf.TTL (Cf.recordFromResponse resp zoneID) = Cf.TTL record
  /\ Cf.TTL (Cf.recordFromListItem resp zoneID) = Cf.TTL record.
Proof.
  intros Hbody Hecho Hrange.
  assert (Httl : dns.body_TTL body = float64_of_int (Cf.TTL record)).
  { unfold Cf.recordBody in Hbody.
    repeat match type of Hbody with
           | (if ?b then _ else _) = _ => destruct b
           end; try discriminate; now injection Hbody as <-. }
  unfold Cf.recordFromResponse, Cf.recordFromListItem. cbn [Cf.TTL].
  rewrite Hecho, Httl. split; now apply int64_of_float64_of_int.
Qed.

Lemma ttl_witness :
  Cf.TTL (Cf.recordFromResponse
            (FakeZone.response_of FakeZone.example_com "rec-0"
               (dns.ARecordParam "www" "192.0.2.1" (float64_of_int 300) true ""))
            "zone-1") = 300%Z
  /\ Cf.TTL (Cf.recordFromListItem
               (FakeZone.response_of FakeZone.example_com "rec-0"
                  (dns.ARecordParam "www" "192.0.2.1" (float64_of_int 300) true ""))
               "zone-1") = 300%Z.
Proof.
  apply (ttl_survives_the_float64_conversions FakeZone.a_record
           (dns.ARecordParam "www" "192.0.2.1" (float64_of_int 300) true "")
           (FakeZone.response_of FakeZone.example_com "rec-0"
              (dns.ARecordParam "www" "192.0.2.1" (float64_of_int 300) true ""))
           "zone-1"); try reflexivity.
Defined.

(** X20: the token the self-contained [List] returns is the decimal of the
    provider's page number plus one, and a [List] with that token asks the
    provider for exactly that page, with the same page size. *)
Theorem Standalone_List_follows_its_token {S : Type} (api : Standalone.Api S)
        (req : ListRequest) (w : World Standalone.ApiCall S)
        (config : Standalone.TargetConfig) (token : string) :
  Standalone.parseTargetConfig (list_TargetConfig req) = Ok config ->
  NextPageToken (fst (fst (Standalone.List api ScanDecimal req w))) = Some token ->
  exists sent records info s',
    Standalone.ListDNSRecords api {| cloudflare.APIToken := Standalone.APIToken config |}
                              (Standalone.ZoneID config) sent (backend w)
    = (Ok (records, Some info), s')
    /\ token = FormatInt (int64 (cloudflare.Page info + 1))
    /\ (in_int64 (cloudflare.Page info + 1) = true ->
        forall w2 : World Standalone.ApiCall S,
          calls (snd (Standalone.List api ScanDecimal
                        {| list_TargetConfig := list_TargetConfig req;
                           PageToken := Some token; PageSize := PageSize req |} w2))
          = (calls w2
             ++ [Standalone.CallListDNSRecords
                   (Standalone.ZoneID config)
                   {| cloudflare.Page := cloudflare.Page info + 1;
                      cloudflare.PerPage := cloudflare.PerPage sent;
                      cloudflare.TotalPages := 0 |}])%list).
Proof.
  intros Hcfg Hnext.
  destruct (ListFacts.Standalone_List_run api ScanDecimal req w config Hcfg)
    as (sent & Hper & _ & Hrun).
  destruct (Standalone.ListDNSRecords api _ _ sent (backend w)) as [r s'] eqn:Hlist.
  rewrite (Hrun r s' eq_refl) in Hnext. cbn [fst] in Hnext.
  destruct r as [[records [info |]] | e]; try discriminate Hnext.
  cbn [NextPageToken] in Hnext.
  destruct (cloudflare.Page info <? cloudflare.TotalPages info)%Z; [| discriminate].
  injection Hnext as Htoken. symmetry in Htoken.
  exists sent, records, info, s'. split; [exact Hlist |]. split; [exact Htoken |].
  intros Hin w2. rewrite int64_small in Htoken by exact Hin.
  unfold Standalone.List. cbn [list_TargetConfig PageToken PageSize]. rewrite Hcfg.
  rewrite (ListFacts.createCloudflareClient_ok _ _ Hcfg).
  unfold bind, call, ret. cbv zeta.
  assert (Hne : String.eqb token "" = false).
  { apply String.eqb_neq. rewrite Htoken. apply FormatInt_nonempty. }
  rewrite Hne. cbn [negb]. rewrite Htoken, ScanDecimal_FormatInt by exact Hin.
  rewrite Hper.
  now destruct (Standalone.ListDNSRecords api _ _ _ (backend w2))
    as [[[records2 ri2] | e2] s2].
Qed.

Lemma Standalone_List_token_witness :
  exists sent records info s',
    Standalone.ListDNSRecords FakeZoneV0.api {| cloudflare.APIToken := "test-token" |}
                              "zone-1" sent (FakeZoneV0.zone_of 3)
    = (Ok (records, Some info), s')
    /\ "2" = FormatInt (int64 (cloudflare.Page info + 1))
    /\ (in_int64 (cloudflare.Page info + 1) = true ->
        forall w2 : World Standalone.ApiCall FakeZoneV0.State,
          calls (snd (Standalone.List FakeZoneV0.api ScanDecimal
                        {| list_TargetConfig := FakeZoneV0.target_config;
                           PageToken := Some "2"; PageSize := 2 |} w2))
          = (calls w2
             ++ [Standalone.CallListDNSRecords
                   "zone-1"
                   {| cloudflare.Page := cloudflare.Page info + 1;
                      cloudflare.PerPage := cloudflare.PerPage sent;
                      cloudflare.TotalPages := 0 |}])%list).
Proof.
  apply (Standalone_List_follows_its_token FakeZoneV0.api FakeZoneV0.list_request
           (FakeZoneV0.world (FakeZoneV0.zone_of 3))
           {| Standalone.APIToken := "test-token"; Standalone.ZoneID := "zone-1" |} "2");
    reflexivity.
Defined.

End PagingFacts.

(** ** What the request body leaves out *)

Module BodyFacts.
Import GoStrings GoNum GoErrors Run.

(** X21: what the request body leaves out: the proxied flag for every
    type but A, AAAA and CNAME, the priority for every type but MX; and a
    record without priority is sent as one with priority 10. *)
Theorem recordBody_ignores (record : Cf.DNSRecord) :
  (Cf.RecordType record ∉ ["A"; "AAAA"; "CNAME"] ->
   forall proxied,
     Cf.recordBody
       {| Cf.ID := Cf.ID record; Cf.ZoneID := Cf.ZoneID record; Cf.Name := Cf.Name record;
          Cf.RecordType := Cf.RecordType record; Cf.Content := Cf.Content record;
          Cf.TTL := Cf.TTL record; Cf.Proxied := proxied; Cf.Comment := Cf.Comment record;
          Cf.Priority := Cf.Priority record |}
     = Cf.recordBody record)
  /\ (Cf.RecordType record <> "MX" ->
      forall priority,
        Cf.recordBody
          {| Cf.ID := Cf.ID record; Cf.ZoneID := Cf.ZoneID record; Cf.Name := Cf.Name record;
             Cf.RecordType := Cf.RecordType record; Cf.Content := Cf.Content record;
             Cf.TTL := Cf.TTL record; Cf.Proxied := Cf.Proxied record;
             Cf.Comment := Cf.Comment record; Cf.Priority := priority |}
        = Cf.recordBody record)
  /\ (Cf.Priority record = None ->
      Cf.recordBody
        {| Cf.ID := Cf.ID record; Cf.ZoneID := Cf.ZoneID record; Cf.Name := Cf.Name record;
           Cf.RecordType := Cf.RecordType record; Cf.Content := Cf.Content record;
           Cf.TTL := Cf.TTL record; Cf.Proxied := Cf.Proxied record;
           Cf.Comment := Cf.Comment record; Cf.Priority := Some 10%Z |}
      = Cf.recordBody record).
Proof.
  destruct record as [id zone name type content ttl proxied comment priority].
  unfold Cf.recordBody. cbn.
  split; [| split].
  - rewrite !not_elem_of_cons. intros (HA & HAAAA & HCNAME & _) b.
    apply String.eqb_neq in HA, HAAAA, HCNAME. now rewrite HA, HAAAA, HCNAME.
  - intros HMX p. apply String.eqb_neq in HMX. now rewrite HMX.
  - intros ->. reflexivity.
Qed.

Lemma recordBody_ignores_witness :
  Cf.recordBody FakeZone.txt_record
  = Ok (dns.TXTRecordParam "@" "v=spf1 -all" (float64_of_int 300) "SPF")
  /\ Cf.recordBody
       {| Cf.ID := ""; Cf.ZoneID := "zone-1"; Cf.Name := "@"; Cf.RecordType := "TXT";
          Cf.Content := "v=spf1 -all"; Cf.TTL := 300; Cf.Proxied := true;
          Cf.Comment := "SPF"; Cf.Priority := None |}
     = Cf.recordBody FakeZone.txt_record
  /\ Cf.recordBody
       {| Cf.ID := ""; Cf.ZoneID := "zone-1"; Cf.Name := "@"; Cf.RecordType := "TXT";
          Cf.Content := "v=spf1 -all"; Cf.TTL := 300; Cf.Proxied := false;
          Cf.Comment := "SPF"; Cf.Priority := Some 20%Z |}
     = Cf.recordBody FakeZone.txt_record
  /\ Cf.recordBody FakeZone.mx_record
     = Ok (dns.MXRecordParam "@" "mail.example.com" (float64_of_int 300) (float64_of_int 10) "")
  /\ Cf.recordBody
       {| Cf.ID := ""; Cf.ZoneID := "zone-1"; Cf.Name := "@"; Cf.RecordType := "MX";
          Cf.Content := "mail.example.com"; Cf.TTL := 300; Cf.Proxied := false;
          Cf.Comment := ""; Cf.Priority := Some 10%Z |}
     = Cf.recordBody FakeZone.mx_record.
Proof.
  destruct (recordBody_ignores FakeZone.txt_record) as (Hproxied & Hpriority & _).
  destruct (recordBody_ignores FakeZone.mx_record) as (_ & _ & Hdefault).
  split; [reflexivity |]. split.
  { apply (Hproxied ltac:(cbn [Cf.RecordType FakeZone.txt_record];
                          rewrite !not_elem_of_cons; repeat split;
                          try discriminate; apply not_elem_of_nil) true). }
  split; [apply (Hpriority ltac:(discriminate) (Some 20%Z)) |].
  split; [reflexivity |]. apply Hdefault. reflexivity.
Defined.

End BodyFacts.

(** ** Configuration, credentials and rejected requests *)

Module ConfigFacts.
Import GoStrings GoNum GoErrors Json resource Run PluginFacts.

Lemma parseTargetConfig_without_zone_id (kvs : list (string * json)) (cfg : Plugin.targetConfig) :
  Forall (fun kv => EqualFold (fst kv) "zone_id" = false) kvs ->
  decode_members Plugin.store_targetConfig kvs cfg = Ok cfg.
Proof.
  induction 1 as [| [k v] kvs Hk _ IH]; [reflexivity |].
  cbn [decode_members]. unfold Plugin.store_targetConfig. cbn [fst] in Hk.
  now rewrite Hk.
Qed.

(** X22: where the zone of a provider call comes from. A call made by
    [Create] or [Update] goes to the zone the decoded properties name, and a
    call made by [Read] or [Delete] goes to the zone the target
    configuration names, which is then not empty. For a configuration
    object without a [zone_id] member [Read] answers InvalidRequest with no
    properties and [Delete] returns a Failure with the code InvalidRequest,
    and neither calls the provider. *)
Theorem where_the_zone_comes_from {S : Type} (api : Cf.Api S) (w : World Cf.ApiCall S) :
  (forall req, let w' := snd (Plugin.Create api req w) in
     w' = w
     \/ exists props params,
          Unmarshal Plugin.store_dnsRecordProperties (create_Properties req)
                    Plugin.zero_dnsRecordProperties = Ok props
          /\ calls w' = (calls w ++ [Cf.CallRecordsNew params])%list
          /\ dns.new_ZoneID params = Plugin.p_ZoneID props)
  /\ (forall req, let w' := snd (Plugin.Update api req w) in
     w' = w
     \/ exists props params,
          Unmarshal Plugin.store_dnsRecordProperties (update_DesiredProperties req)
                    Plugin.zero_dnsRecordProperties = Ok props
          /\ calls w' = (calls w ++ [Cf.CallRecordsUpdate (update_NativeID req) params])%list
          /\ dns.update_ZoneID params = Plugin.p_ZoneID props)
  /\ (forall req, let w' := snd (Plugin.Read api req w) in
     w' = w
     \/ exists cfg,
          Plugin.parseTargetConfig (read_TargetConfig req) = Ok cfg
          /\ Plugin.ZoneID cfg <> ""
          /\ (calls w' = (calls w ++ [Cf.CallRecordsGet (read_NativeID req)
                                                        (Plugin.ZoneID cfg)])%list
              \/ calls w' = (calls w ++ [Cf.CallRecordsGet (read_NativeID req)
                                                           (Plugin.ZoneID cfg);
                                         Cf.CallZonesGet (Plugin.ZoneID cfg)])%list))
  /\ (forall req, let w' := snd (Plugin.Delete api req w) in
     w' = w
     \/ exists cfg,
          Plugin.parseTargetConfig (delete_TargetConfig req) = Ok cfg
          /\ Plugin.ZoneID cfg <> ""
          /\ calls w' = (calls w ++ [Cf.CallRecordsDelete (delete_NativeID req)
                                                          (Plugin.ZoneID cfg)])%list)
  /\ (forall kvs,
         Forall (fun kv => EqualFold (fst kv) "zone_id" = false) kvs ->
         (forall id type,
             Plugin.Read api {| read_NativeID := id; read_ResourceType := type;
                                read_TargetConfig := Some (JObject kvs) |} w
             = (({| ResourceType := type;
                    read_ErrorCode := OperationErrorCodeInvalidRequest;
                    Properties := None |}, None), w))
         /\ (forall id,
                Plugin.Delete api {| delete_NativeID := id;
                                     delete_TargetConfig := Some (JObject kvs) |} w
                = (({| Operation_ := OperationDelete;
                       OperationStatus_ := OperationStatusFailure;
                       ErrorCode := OperationErrorCodeInvalidRequest;
                       StatusMessage := "zone_id not found in target config";
                       NativeID := ""; ResourceProperties := None |}, None), w))).
Proof.
  split; [| split; [| split; [| split]]].
  - intros req w'; subst w'. unfold Plugin.Create.
    destruct (Unmarshal _ _ _) as [props | e] eqn:Hprops; [| now left].
    unfold bind. destruct (NewClient_cases w) as [[client ->] | [e ->]]; [| now left].
    unfold Cf.CreateRecord. cbn [Cf.ZoneID].
    destruct (Cf.recordBody _) as [body | e]; [| now left].
    right. exists props. unfold bind, call, ret.
    destruct (Cf.Records_New api client _ (backend w)) as [[resp | e] s'];
      (eexists; split; [reflexivity | split; reflexivity]).
  - intros req w'; subst w'. unfold Plugin.Update.
    destruct (Unmarshal _ _ _) as [props | e] eqn:Hprops; [| now left].
    unfold bind. destruct (NewClient_cases w) as [[client ->] | [e ->]]; [| now left].
    unfold Cf.UpdateRecord. cbn [Cf.ZoneID Cf.ID].
    destruct (Cf.recordBody _) as [body | e]; [| now left].
    right. exists props. unfold bind, call, ret.
    destruct (Cf.Records_Update api client _ _ (backend w)) as [[resp | e] s'];
      (eexists; split; [reflexivity | split; reflexivity]).
  - intros req w'; subst w'. unfold Plugin.Read.
    destruct (Plugin.parseTargetConfig _) as [cfg | e] eqn:Hcfg; [| now left].
    destruct (String.eqb_spec (Plugin.ZoneID cfg) "") as [Hz | Hz]; [now left |].
    unfold bind. destruct (NewClient_cases w) as [[client ->] | [e ->]]; [| now left].
    right. exists cfg. split; [reflexivity |]. split; [exact Hz |].
    unfold Cf.GetRecord, Cf.GetZoneDomain, bind, call, ret.
    destruct (Cf.Records_Get api client _ _ (backend w)) as [[resp | e] s1].
    + cbn [backend]. destruct (Cf.Zones_Get api client _ s1) as [[zoneDomain | e] s2];
        (right; cbn [calls]; now rewrite <- app_assoc).
    + destruct (Cf.IsNotFound (Some e)); now left.
  - intros req w'; subst w'. unfold Plugin.Delete.
    destruct (Plugin.parseTargetConfig _) as [cfg | e] eqn:Hcfg; [| now left].
    destruct (String.eqb_spec (Plugin.ZoneID cfg) "") as [Hz | Hz]; [now left |].
    unfold bind. destruct (NewClient_cases w) as [[client ->] | [e ->]]; [| now left].
    right. exists cfg. split; [reflexivity |]. split; [exact Hz |].
    unfold Cf.DeleteRecord, bind, call, ret.
    destruct (Cf.Records_Delete api client _ _ (backend w)) as [[[] | e] s'];
      [| destruct (Cf.IsNotFound (Some e))]; reflexivity.
  - intros kvs Hkvs.
    pose proof (parseTargetConfig_without_zone_id kvs {| Plugin.ZoneID := "" |} Hkvs)
      as Hcfg.
    split; intros id; [intros type |].
    + unfold Plugin.Read, Plugin.parseTargetConfig, Unmarshal.
      cbn [read_TargetConfig]. now rewrite Hcfg.
    + unfold Plugin.Delete, Plugin.parseTargetConfig, Unmarshal.
      cbn [delete_TargetConfig]. now rewrite Hcfg.
Qed.

(** X23: while the variable CLOUDFLARE_API_TOKEN is unset or empty no
    operation reaches the provider: [Create], [Update] and [Delete] fail
    (with InvalidCredentials, unless the request itself was invalid), [Read]
    answers with one of these two codes and no properties, [List] answers
    with the empty list; the world stays as it was. *)
Theorem without_a_token_nothing_is_called {S : Type} (api : Cf.Api S)
        (ParseFloat : string -> option float64) (w : World Cf.ApiCall S) :
  default "" (env w !! "CLOUDFLARE_API_TOKEN") = "" ->
  let refused (r : ProgressResult * option error) :=
    snd r = None
    /\ OperationStatus_ (fst r) = OperationStatusFailure
    /\ (ErrorCode (fst r) = OperationErrorCodeInvalidRequest
        \/ ErrorCode (fst r) = OperationErrorCodeInvalidCredentials
           /\ StatusMessage (fst r) = "CLOUDFLARE_API_TOKEN environment variable not set") in
  (forall req, refused (fst (Plugin.Create api req w)) /\ snd (Plugin.Create api req w) = w)
  /\ (forall req, refused (fst (Plugin.Update api req w)) /\ snd (Plugin.Update api req w) = w)
  /\ (forall req, refused (fst (Plugin.Delete api req w)) /\ snd (Plugin.Delete api req w) = w)
  /\ (forall req,
         Properties (fst (fst (Plugin.Read api req w))) = None
         /\ read_ErrorCode (fst (fst (Plugin.Read api req w)))
            ∈ [OperationErrorCodeInvalidRequest; OperationErrorCodeInvalidCredentials]
         /\ snd (Plugin.Read api req w) = w)
  /\ (forall req, Plugin.List api ParseFloat req w = ((Plugin.empty_list, None), w)).
Proof.
  intros Henv refused. pose proof (DeleteFacts.NewClient_unset w Henv) as Hclient.
  unfold refused.
  split; [| split; [| split; [| split]]]; intros req.
  - unfold Plugin.Create.
    destruct (Unmarshal _ _ _) as [props | e]; [| simpl; tauto].
    unfold bind. rewrite Hclient. simpl. tauto.
  - unfold Plugin.Update.
    destruct (Unmarshal _ _ _) as [props | e]; [| simpl; tauto].
    unfold bind. rewrite Hclient. simpl. tauto.
  - unfold Plugin.Delete.
    destruct (Plugin.parseTargetConfig _) as [cfg | e]; [| simpl; tauto].
    destruct (String.eqb (Plugin.ZoneID cfg) ""); [simpl; tauto |].
    unfold bind. rewrite Hclient. simpl. tauto.
  - unfold Plugin.Read. rewrite !elem_of_cons.
    destruct (Plugin.parseTargetConfig _) as [cfg | e]; [| simpl; tauto].
    destruct (String.eqb (Plugin.ZoneID cfg) ""); [simpl; tauto |].
    unfold bind. rewrite Hclient. simpl. tauto.
  - unfold Plugin.List.
    destruct (Plugin.parseTargetConfig _) as [cfg | e]; [| reflexivity].
    destruct (String.eqb (Plugin.ZoneID cfg) ""); [reflexivity |].
    unfold bind. now rewrite Hclient.
Qed.

Lemma without_a_token_witness :
  Plugin.List FakeZone.api ParseDecimal FakeZone.list_request
              (FakeZone.world_without_token (FakeZone.zone_of 3))
  = ((Plugin.empty_list, None), FakeZone.world_without_token (FakeZone.zone_of 3)).
Proof.
  apply (without_a_token_nothing_is_called FakeZone.api ParseDecimal
           (FakeZone.world_without_token (FakeZone.zone_of 3))).
  reflexivity.
Defined.

(** X24: properties that [parseProperties] or [validateProperties]
    rejects make [Create] and [Update] of the self-contained plugin fail with
    InvalidRequest before any provider call, whatever the target
    configuration. *)
Theorem Standalone_rejects_before_calling {S : Type} (api : Standalone.Api S)
        (record_api : Standalone.RecordApi S)
        (w : World Standalone.ApiCall S) (rw : World Standalone.RecordCall S)
        (properties : RawMessage) :
  (is_Err (Standalone.parseProperties properties) = true
   \/ exists props e, Standalone.parseProperties properties = Ok props
                      /\ Standalone.validateProperties props = Some e) ->
  (forall config,
      let run := Standalone.Create api {| create_Properties := properties;
                                          create_TargetConfig := config |} w in
      OperationStatus_ (fst (fst run)) = OperationStatusFailure
      /\ ErrorCode (fst (fst run)) = OperationErrorCodeInvalidRequest
      /\ snd run = w)
  /\ (forall id config,
         let run := Standalone.Update record_api
                      {| update_NativeID := id; update_DesiredProperties := properties;
                         update_TargetConfig := config |} rw in
         OperationStatus_ (fst (fst run)) = OperationStatusFailure
         /\ ErrorCode (fst (fst run)) = OperationErrorCodeInvalidRequest
         /\ snd run = rw).
Proof.
  intros Hbad. split; [intros config | intros id config];
    intros run; subst run.
  - unfold Standalone.Create. cbn [create_TargetConfig create_Properties].
    destruct (Standalone.parseTargetConfig config) as [c | e]; [| now repeat split].
    destruct Hbad as [Herr | (props & e & Hprops & Hvalid)].
    + destruct (Standalone.parseProperties properties); [discriminate | now repeat split].
    + rewrite Hprops, Hvalid. now repeat split.
  - unfold Standalone.Update. cbn [update_TargetConfig update_DesiredProperties].
    destruct (Standalone.parseTargetConfig config) as [c | e]; [| now repeat split].
    destruct Hbad as [Herr | (props & e & Hprops & Hvalid)].
    + destruct (Standalone.parseProperties properties); [discriminate | now repeat split].
    + rewrite Hprops, Hvalid. now repeat split.
Qed.

Lemma Standalone_rejects_proxied_TXT :
  let run := Standalone.Create FakeZoneV0.api FakeZoneV0.create_proxied_txt
                               (FakeZoneV0.world FakeZoneV0.example_com) in
  OperationStatus_ (fst (fst run)) = OperationStatusFailure
  /\ ErrorCode (fst (fst run)) = OperationErrorCodeInvalidRequest
  /\ snd run = FakeZoneV0.world FakeZoneV0.example_com.
Proof.
  refine (proj1 (Standalone_rejects_before_calling
                   FakeZoneV0.api FakeZoneV0.record_api
                   (FakeZoneV0.world FakeZoneV0.example_com)
                   (FakeZoneV0.record_world FakeZoneV0.example_com)
                   (create_Properties FakeZoneV0.create_proxied_txt) _) FakeZoneV0.target_config).
  right. eexists _, _. split; reflexivity.
Defined.

Lemma where_the_zone_comes_from_witness :
  Plugin.Delete FakeZone.api
                {| delete_NativeID := "rec-0";
                   delete_TargetConfig := Some (JObject [("api_token", JString "t")]) |}
                (FakeZone.world (FakeZone.zone_of 1))
  = (({| Operation_ := OperationDelete; OperationStatus_ := OperationStatusFailure;
         ErrorCode := OperationErrorCodeInvalidRequest;
         StatusMessage := "zone_id not found in target config";
         NativeID := ""; ResourceProperties := None |}, None),
     FakeZone.world (FakeZone.zone_of 1)).
Proof.
  apply (proj2 (proj2 (proj2 (proj2 (where_the_zone_comes_from
                         FakeZone.api (FakeZone.world (FakeZone.zone_of 1))))))).
  repeat constructor.
Defined.

(** The zone a create call is sent to is the one the properties name. *)
Example Create_sends_the_zone_of_the_properties :
  calls (snd (Plugin.Create FakeZone.api FakeZone.create_www
                            (FakeZone.world FakeZone.example_com)))
  = [Cf.CallRecordsNew
       {| dns.new_ZoneID := "zone-1";
          dns.new_Body := dns.ARecordParam "www" "192.0.2.1" (float64_of_int 300) false "" |}].
Proof. reflexivity. Qed.

End ConfigFacts.

(** ** The target configuration of the self-contained plugin *)

Module TargetConfigFacts.
Import GoStrings GoNum GoErrors Json resource Run.

Lemma decode_keeps_APIToken (kvs : list (string * json)) :
  Forall (fun kv => EqualFold (fst kv) "api_token" = false) kvs ->
  forall c c', decode_members Standalone.store_TargetConfig kvs c = Ok c' ->
               Standalone.APIToken c' = Standalone.APIToken c.
Proof.
  induction 1 as [| [k v] kvs Hk _ IH]; intros c c'.
  - now intros [= <-].
  - cbn [decode_members]. unfold Standalone.store_TargetConfig. cbn [fst] in Hk.
    rewrite Hk. destruct (EqualFold k "zone_id"); [| apply IH].
    destruct (dec_string "zone_id" v (Standalone.ZoneID c)) as [z | e]; [| discriminate].
    cbn [rmap]. intros Hrest. now rewrite (IH _ _ Hrest).
Qed.

Lemma decode_keeps_ZoneID (kvs : list (string * json)) :
  Forall (fun kv => EqualFold (fst kv) "zone_id" = false) kvs ->
  forall c c', decode_members Standalone.store_TargetConfig kvs c = Ok c' ->
               Standalone.ZoneID c' = Standalone.ZoneID c.
Proof.
  induction 1 as [| [k v] kvs Hk _ IH]; intros c c'.
  - now intros [= <-].
  - cbn [decode_members]. unfold Standalone.store_TargetConfig. cbn [fst] in Hk.
    rewrite Hk. destruct (EqualFold k "api_token"); [| apply IH].
    destruct (dec_string "api_token" v (Standalone.APIToken c)) as [z | e]; [| discriminate].
    cbn [rmap]. intros Hrest. now rewrite (IH _ _ Hrest).
Qed.

(** X25: the self-contained plugin needs both members of the target
    configuration: when the configuration is not JSON, or is an object
    without a member whose key matches [api_token] or without one whose key
    matches [zone_id], [parseTargetConfig] fails; then [Create], [Update]
    and [Delete] return a Failure with the code InvalidRequest, [Read]
    answers InvalidRequest with no properties, [List] answers with the empty
    list, and none of them calls the provider. *)
Theorem parseTargetConfig_needs_both_members (raw : RawMessage) :
  (raw = None
   \/ exists kvs, raw = Some (JObject kvs)
                  /\ (Forall (fun kv => EqualFold (fst kv) "api_token" = false) kvs
                      \/ Forall (fun kv => EqualFold (fst kv) "zone_id" = false) kvs)) ->
  is_Err (Standalone.parseTargetConfig raw) = true
  /\ (forall {S : Type} (api : Standalone.Api S) (record_api : Standalone.RecordApi S)
             (Sscanf_d : string -> option Z)
             (w : World Standalone.ApiCall S) (rw : World Standalone.RecordCall S),
         (forall properties,
             let run := Standalone.Create api {| create_Properties := properties;
                                                 create_TargetConfig := raw |} w in
             OperationStatus_ (fst (fst run)) = OperationStatusFailure
             /\ ErrorCode (fst (fst run)) = OperationErrorCodeInvalidRequest
             /\ snd run = w)
         /\ (forall id type,
                Standalone.Read record_api {| read_NativeID := id; read_ResourceType := type;
                                              read_TargetConfig := raw |} rw
                = (({| ResourceType := type;
                       read_ErrorCode := OperationErrorCodeInvalidRequest;
                       Properties := None |}, None), rw))
         /\ (forall id properties,
                let run := Standalone.Update record_api
                             {| update_NativeID := id; update_DesiredProperties := properties;
                                update_TargetConfig := raw |} rw in
                OperationStatus_ (fst (fst run)) = OperationStatusFailure
                /\ ErrorCode (fst (fst run)) = OperationErrorCodeInvalidRequest
                /\ snd run = rw)
         /\ (forall id,
                let run := Standalone.Delete record_api
                             {| delete_NativeID := id; delete_TargetConfig := raw |} rw in
                OperationStatus_ (fst (fst run)) = OperationStatusFailure
                /\ ErrorCode (fst (fst run)) = OperationErrorCodeInvalidRequest
                /\ snd run = rw)
         /\ (forall token size,
                Standalone.List api Sscanf_d
                                {| list_TargetConfig := raw; PageToken := token;
                                   PageSize := size |} w
                = (({| NativeIDs := []; NextPageToken := None |}, None), w))).
Proof.
  intros Hraw.
  assert (Herr : exists e, Standalone.parseTargetConfig raw = Err e).
  { unfold Standalone.parseTargetConfig.
    destruct Hraw as [-> | (kvs & -> & Hkvs)]; [simpl; eauto |].
    unfold Unmarshal.
    destruct (decode_members Standalone.store_TargetConfig kvs _) as [c | e] eqn:Hdec;
      [| eauto].
    destruct Hkvs as [Htok | Hzone].
    - apply (decode_keeps_APIToken kvs Htok) in Hdec. cbn in Hdec.
      rewrite Hdec. simpl. eauto.
    - apply (decode_keeps_ZoneID kvs Hzone) in Hdec. cbn in Hdec.
      rewrite Hdec. destruct (String.eqb (Standalone.APIToken c) ""); simpl; eauto. }
  destruct Herr as [e Herr]. split; [now rewrite Herr |].
  intros S api record_api Sscanf_d w rw.
  unfold Standalone.Create, Standalone.Read, Standalone.Update, Standalone.Delete,
    Standalone.List.
  cbn [create_TargetConfig read_TargetConfig update_TargetConfig delete_TargetConfig
       list_TargetConfig].
  rewrite Herr. repeat split.
Qed.

Lemma parseTargetConfig_missing_api_token :
  is_Err (Standalone.parseTargetConfig
            (Some (JObject [("zone_id", JString "zone-abc-456")]))) = true.
Proof.
  apply (parseTargetConfig_needs_both_members
           (Some (JObject [("zone_id", JString "zone-abc-456")]))).
  right. eexists. split; [reflexivity |]. left. repeat constructor.
Defined.

(** A key is matched with a field name up to case folding, under which
    the Kelvin sign is a [k]: such a key supplies the token. *)
Example parseTargetConfig_folds_the_key :
  EqualFold ("api_to" ++ KelvinSign ++ "en") "api_token" = true
  /\ EqualFold "API_Token" "api_token" = true
  /\ Standalone.parseTargetConfig
       (Some (JObject [("api_to" ++ KelvinSign ++ "en", JString "test-token-123");
                       ("Zone_ID", JString "zone-abc-456")]))
     = Ok {| Standalone.APIToken := "test-token-123"; Standalone.ZoneID := "zone-abc-456" |}.
Proof. repeat split; reflexivity. Qed.

End TargetConfigFacts.
